(** * msal-common: the token-response pipeline of [ResponseHandler]

    A shallow embedding of [src/lib/msal-common/src/response/ResponseHandler.ts]
    and the properties of its validation, record assembly, commit and
    result-building steps.

    Conventions of the embedding.
    - A JavaScript string is a [string]: the bytes of its UTF-8 encoding.
      Strict (in)equality of two strings is (in)equality of these bytes.
    - An optional field or parameter ([x?: string]) is an [option]; [None]
      is [undefined].  Truthiness of such a value is [truthy].
    - A [number] holding seconds or milliseconds is a [Number]: an
      integer-valued double, an infinity or [NaN]; a sum or a product is
      rounded to the nearest double, ties to even, as IEEE 754 has it.
    - An exception is the [Throw] alternative of [Result]; a method that
      touches the credential store or its persistence runs in the state and
      exception monad [M].
    - Calls to the logger change nothing that the pipeline returns or stores
      and are left out. *)

From Stdlib Require Import ZArith String Ascii List Bool Lia.
From stdpp Require Import base option strings list gmap.
Import ListNotations.

#[local] Open Scope string_scope.
#[local] Open Scope Z_scope.

(** ** JavaScript values *)

(** [!!x] for an optional string: defined and not empty. *)
Definition truthy (x : option string) : bool :=
  match x with
  | Some s => negb (String.eqb s "")
  | None => false
  end.

(** [x || Constants.EMPTY_STRING]. *)
Definition orEmpty (x : option string) : string :=
  match x with
  | Some s => s
  | None => ""
  end.

(** ** Numbers

    The numbers of the pipeline are counts of seconds and of milliseconds.
    A [Finite z] stands for the double of value [z], which [z] is when it
    has at most 53 significant bits and lies under 2^1024; the sign of a
    zero is not kept, as no operation below tells the two zeros apart, and
    numbers with a fractional part are left out. *)
Inductive Number : Type :=
| Finite (z : Z)
| Infinity (negative : bool)
| NaN.

Coercion Finite : Z >-> Number.

(** 2^53: up to it every integer is a double. *)
Definition maxExact : Z := 9007199254740992.

(** The nearest integer with 53 significant bits to [n >= 0], ties to the
    even significand. *)
Definition roundMagnitude (n : Z) : Z :=
  if n <=? maxExact then n
  else
    let shift := Z.log2 n - 52 in
    let significand := Z.shiftr n shift in
    let rest := n - Z.shiftl significand shift in
    let half := Z.shiftl 1 (shift - 1) in
    let rounded :=
      if (half <? rest) || ((rest =? half) && Z.odd significand)
      then significand + 1 else significand in
    Z.shiftl rounded shift.

(** The double nearest to the integer [z]; an infinity from 2^1024 on. *)
Definition roundNumber (z : Z) : Number :=
  let m := roundMagnitude (Z.abs z) in
  if m <=? maxExact then Finite (Z.sgn z * m)
  else if 2 ^ 1024 <=? m then Infinity (z <? 0)
  else Finite (Z.sgn z * m).

(** [a + b] on numbers. *)
Definition jsAdd (a b : Number) : Number :=
  match a, b with
  | NaN, _ | _, NaN => NaN
  | Infinity s, Infinity t => if Bool.eqb s t then Infinity s else NaN
  | Infinity s, Finite _ | Finite _, Infinity s => Infinity s
  | Finite x, Finite y => roundNumber (x + y)
  end.

(** [a * b] on numbers. *)
Definition jsMul (a b : Number) : Number :=
  match a, b with
  | NaN, _ | _, NaN => NaN
  | Infinity s, Infinity t => Infinity (xorb s t)
  | Infinity s, Finite y | Finite y, Infinity s =>
      if y =? 0 then NaN else Infinity (xorb s (y <? 0))
  | Finite x, Finite y => roundNumber (x * y)
  end.

(** [!!n] for a number: neither zero nor [NaN]. *)
Definition truthyNumber (n : Number) : bool :=
  match n with
  | Finite z => negb (z =? 0)
  | Infinity _ => true
  | NaN => false
  end.

(** [n || 0] for an optional number of seconds. *)
Definition orZero (n : option Number) : Number :=
  match n with
  | Some v => if truthyNumber v then v else Finite 0
  | None => Finite 0
  end.

(** [Number(n)] for a number. *)
Definition toNumber (n : Number) : Number := n.

(** A [Date]: its time value in milliseconds, or an invalid date. *)
Inductive Date : Type :=
| TimeValue (ms : Z)
| InvalidDate.

(** [new Date(value)]: the time value is clipped at 8.64e15 milliseconds
    either way of the epoch. *)
Definition newDate (value : Number) : Date :=
  match value with
  | Finite ms =>
      if Z.abs ms <=? 8640000000000000 then TimeValue ms else InvalidDate
  | Infinity _ | NaN => InvalidDate
  end.

(** A template-literal hole [${x}]: [undefined] prints as such. *)
Definition hole (x : option string) : string :=
  match x with
  | Some s => s
  | None => "undefined"
  end.

(** ** Errors

    The kinds of error that the pipeline itself raises, [URIError] for the
    built-in it calls, and [Thrown] for an exception raised inside a
    collaborator, whatever its kind. *)

Inductive AuthError : Type :=
| StateNotFoundError (missing : string)
| StateMismatchError
| NonceMismatchError
| InvalidCacheEnvironmentError
| ClientInfoEmptyError
| ResourceRequestParametersRequiredError
| InteractionRequiredAuthError (errorCode errorMessage subError : option string)
| ServerError (errorCode errorMessage subError : option string)
| URIError
| Thrown (payload : string).

Inductive Result (A : Type) : Type :=
| Ok (a : A)
| Throw (e : AuthError).
Arguments Ok {A} a.
Arguments Throw {A} e.

#[export] Instance Result_ret : MRet Result := fun _ a => Ok a.
#[export] Instance Result_bind : MBind Result := fun _ _ k r =>
  match r with
  | Ok a => k a
  | Throw e => Throw e
  end.
#[export] Instance Result_fmap : FMap Result := fun _ _ f r =>
  match r with
  | Ok a => Ok (f a)
  | Throw e => Throw e
  end.

(** What a call to a collaborator gives: the value it returns, or the
    exception it raises. *)
Inductive Reply (A : Type) : Type :=
| Returns (a : A)
| Raises (payload : string).
Arguments Returns {A} a.
Arguments Raises {A} payload.

Definition call {A : Type} (r : Reply A) : Result A :=
  match r with
  | Returns a => Ok a
  | Raises payload => Throw (Thrown payload)
  end.

(** ** [decodeURIComponent]

    The built-in of ECMAScript (its [Decode] operation with an empty set of
    preserved escapes), on the UTF-8 bytes of the string: a byte other than
    [%] is copied; [%XY] with a value under 128 yields that byte; a leading
    byte announcing [n] octets must be followed by [n - 1] further escapes,
    and the [n] octets must be the UTF-8 encoding of one code point, which
    are then the bytes of the decoded character.  Every other use of [%] is
    a [URIError]. *)

Definition hexDigit (c : ascii) : option N :=
  let n := N_of_ascii c in
  if ((48 <=? n) && (n <=? 57))%N then Some (n - 48)%N
  else if ((65 <=? n) && (n <=? 70))%N then Some (n - 55)%N
  else if ((97 <=? n) && (n <=? 102))%N then Some (n - 87)%N
  else None.

Definition parseHexOctet (h l : ascii) : option N :=
  match hexDigit h, hexDigit l with
  | Some a, Some b => Some (16 * a + b)%N
  | _, _ => None
  end.

(** Number of leading one bits of an octet, capped at 5. *)
Definition leadingOnes (b : N) : nat :=
  if (b <? 128)%N then 0%nat
  else if (b <? 192)%N then 1%nat
  else if (b <? 224)%N then 2%nat
  else if (b <? 240)%N then 3%nat
  else if (b <? 248)%N then 4%nat
  else 5%nat.

Definition inRange (lo hi b : N) : bool := ((lo <=? b) && (b <=? hi))%N.

(** The octets are the UTF-8 encoding of one code point outside ASCII: no
    overlong form, no surrogate, nothing above U+10FFFF. *)
Definition validUtf8 (octets : list N) : bool :=
  match octets with
  | [b0; b1] => inRange 194 223 b0 && inRange 128 191 b1
  | [b0; b1; b2] =>
      (if (b0 =? 224)%N then inRange 160 191 b1
       else if (b0 =? 237)%N then inRange 128 159 b1
       else inRange 225 239 b0 && inRange 128 191 b1)
      && inRange 128 191 b2
  | [b0; b1; b2; b3] =>
      (if (b0 =? 240)%N then inRange 144 191 b1
       else if (b0 =? 244)%N then inRange 128 143 b1
       else inRange 241 243 b0 && inRange 128 191 b1)
      && inRange 128 191 b2 && inRange 128 191 b3
  | _ => false
  end.

Fixpoint bytesToString (octets : list N) (tail : string) : string :=
  match octets with
  | [] => tail
  | b :: bs => String (ascii_of_N b) (bytesToString bs tail)
  end.

(** [decodeFrom need octets s]: [need] continuation escapes are still
    expected for the character whose first octets are [octets]. *)
Fixpoint decodeFrom (need : nat) (octets : list N) (s : string) : option string :=
  match s with
  | EmptyString => match need with O => Some EmptyString | S _ => None end
  | String c rest =>
      if Ascii.eqb c "%" then
        match rest with
        | String h (String l rest') =>
            match parseHexOctet h l with
            | None => None
            | Some b =>
                match need with
                | O =>
                    match leadingOnes b with
                    | O => String (ascii_of_N b) <$> decodeFrom 0 [] rest'
                    | S O => None
                    | S (S k) =>
                        if (k <=? 2)%nat then decodeFrom (S k) [b] rest' else None
                    end
                | S O =>
                    let os := (octets ++ [b])%list in
                    if validUtf8 os
                    then bytesToString os <$> decodeFrom 0 [] rest'
                    else None
                | S (S k as m) => decodeFrom m (octets ++ [b])%list rest'
                end
            end
        | _ => None
        end
      else
        match need with
        | O => String c <$> decodeFrom 0 [] rest
        | S _ => None
        end
  end.

Definition decodeURIComponent (s : string) : Result string :=
  match decodeFrom 0 [] s with
  | Some d => Ok d
  | None => Throw URIError
  end.

(** ** Data of the pipeline *)

Module AuthCode.
(** Modelled from the spec: the type of [./ServerAuthorizationCodeResponse]
    is not part of the sources; the callback payload of the authorization
    endpoint has the fields [state, error?, error_description?, suberror?,
    client_info?], and the code tests [state] for presence too. *)
Record ServerAuthorizationCodeResponse : Type := {
  state : option string;
  client_info : option string;
  error : option string;
  error_description : option string;
  suberror : option string
}.
End AuthCode.

Module Token.
(** Modelled from the spec: the type of [./ServerAuthorizationTokenResponse]
    is not part of the sources; the JSON payload of the token endpoint has
    these optional fields, [expires_in] and [ext_expires_in] being integers
    and [error_codes] a sequence. *)
Record ServerAuthorizationTokenResponse : Type := {
  token_type : option string;
  scope : option string;
  expires_in : option Number;
  ext_expires_in : option Number;
  access_token : option string;
  refresh_token : option string;
  id_token : option string;
  client_info : option string;
  foci : option string;
  error : option string;
  error_description : option string;
  error_codes : option (list string);
  suberror : option string;
  timestamp : option string;
  trace_id : option string;
  correlation_id : option string
}.
End Token.

(** Modelled from the spec: the claims of an identity token are not
    declared in the sources; they hold at least [oid?, sub?, tid?,
    nonce?], which are the claims that the pipeline reads. *)
Record TokenClaims : Type := {
  oid : option string;
  sub : option string;
  tid : option string;
  nonce : option string
}.

(** The claims object [{}]. *)
Definition noClaims : TokenClaims :=
  {| oid := None; sub := None; tid := None; nonce := None |}.

(** Modelled from the spec: the class [AuthToken] of [account/AuthToken] is
    not part of the sources; an identity token object holds the raw token
    string it was built from and the claims parsed from it. *)
Record AuthToken : Type := {
  rawToken : string;
  claims : TokenClaims
}.

(** Modelled from the spec: the types of [utils/ProtocolUtils] are not part
    of the sources; the library-internal portion of the request state
    carries the timestamp of the original request. *)
Record LibraryStateObject : Type := {
  ts : Number
}.

(** Modelled from the spec: the request state splits into the portion of
    the library and the portion of the caller, which is echoed verbatim. *)
Record RequestStateObject : Type := {
  userRequestState : string;
  libraryState : LibraryStateObject
}.

(** Modelled from the spec: the enumeration [AuthorityType] and the class
    [Authority] of [authority/] are not part of the sources; the spec gives
    the authority as [{authorityType: enum{AAD, ADFS, B2C, Generic},
    protocolMode: string, tenant: string, environment: derivable-string}]. *)
Inductive AuthorityType : Type := Aad | Adfs | B2C | Generic.

#[export] Instance AuthorityType_eq_dec : EqDecision AuthorityType.
Proof. solve_decision. Defined.

(** Modelled from the spec: the authority descriptor, see [AuthorityType];
    its environment is derived ahead of the pipeline. *)
Record Authority : Type := {
  authorityType : AuthorityType;
  protocolMode : string;
  tenant : string;
  environment : string
}.

(** Modelled from the spec: [Authority.generateEnvironmentFromAuthority] is
    not part of the sources; it resolves the environment of the
    authority. *)
Definition generateEnvironmentFromAuthority (authority : Authority) : string :=
  environment authority.

(** Modelled from the spec: the constant [THE_FAMILY_ID] of
    [utils/Constants] is not part of the sources; the spec gives the
    reserved family of client IDs as ["1"]. *)
Definition THE_FAMILY_ID : string := "1".

(** Modelled from the spec: [StringUtils.isEmpty] of [utils/StringUtils] is
    not part of the sources; a raw field is empty when it is missing or the
    empty string. *)
Definition isEmpty (x : option string) : bool := negb (truthy x).

(** ** Scope sets *)

Module ScopeSet.
(** Modelled from the spec: the class [ScopeSet] of [request/ScopeSet] is
    not part of the sources.  A scope set is an ordered sequence of
    scopes; it is stored as a space-delimited scope string
    ([printScopes]), and such a string is split back into the ordered
    sequence of its scopes ([fromString]), a scope being a non-empty run
    of characters other than the space. *)
Definition t : Type := list string.

(** The scope read so far, if there is one. *)
Definition flush (cur : string) : list string :=
  if String.eqb cur "" then [] else [cur].

(** The scopes of [cur ++ s], where [cur] is a scope read in part. *)
Fixpoint splitFrom (cur : string) (s : string) : list string :=
  match s with
  | EmptyString => flush cur
  | String c rest =>
      if Ascii.eqb c " "
      then (flush cur ++ splitFrom "" rest)%list
      else splitFrom (cur ++ String c "") rest
  end.

(** Modelled from the spec: [ScopeSet.fromString] is not part of the
    sources; the space-delimited scope string split into the ordered
    sequence of its scopes. *)
Definition fromString (inputScopeString : string) : t :=
  splitFrom "" inputScopeString.

(** Modelled from the spec: [new ScopeSet(inputScopes)] is not part of the
    sources; the scope set of the given scopes, in their order. *)
Definition ofArray (inputScopes : list string) : t := inputScopes.

(** Modelled from the spec: [asArray] is not part of the sources; the
    ordered sequence of the scopes. *)
Definition asArray (s : t) : list string := s.

(** [Array.prototype.join(" ")]. *)
Fixpoint join (l : list string) : string :=
  match l with
  | [] => ""
  | [x] => x
  | x :: rest => x ++ " " ++ join rest
  end.

(** Modelled from the spec: [printScopes] is not part of the sources; the
    space-delimited scope string of the scopes. *)
Definition printScopes (s : t) : string := join (asArray s).
End ScopeSet.

(** ** Credential entities *)

Module IdTokenEntity.
(** Modelled from the spec: the entity classes of [cache/entities] are
    not part of the sources; each factory stores its arguments in the
    fields of the record it creates. *)
Record t : Type := createIdTokenEntity {
  homeAccountId : string;
  environment : string;
  secret : string;
  clientId : string;
  realm : string;
  oboAssertion : option string
}.
End IdTokenEntity.

Module AccessTokenEntity.
(** Modelled from the spec: see [IdTokenEntity]; [target] is the
    space-delimited scope string, the expirations are in seconds. *)
Record t : Type := createAccessTokenEntity {
  homeAccountId : string;
  environment : string;
  secret : string;
  clientId : string;
  realm : string;
  target : string;
  expiresOn : Number;
  extendedExpiresOn : Number;
  tokenType : option string;
  oboAssertion : option string
}.
End AccessTokenEntity.

Module RefreshTokenEntity.
(** Modelled from the spec: see [IdTokenEntity]. *)
Record t : Type := createRefreshTokenEntity {
  homeAccountId : string;
  environment : string;
  secret : string;
  clientId : string;
  familyId : option string;
  oboAssertion : option string
}.
End RefreshTokenEntity.

Module AppMetadataEntity.
(** Modelled from the spec: see [IdTokenEntity]. *)
Record t : Type := createAppMetadataEntity {
  clientId : string;
  environment : string;
  familyId : option string
}.
End AppMetadataEntity.

(** ** The collaborators

    What the pipeline calls in modules that are not part of the sources and
    that the spec leaves to external collaborators: the crypto object and
    the parsers built on it, the classification of server errors, the
    account entity and the state of the credential store. *)

Class Collaborators : Type := {
  ICrypto : Type;
  ISerializableTokenCache : Type;
  (** the state of the credential store and of its persistence *)
  Storage : Type;
  AccountEntity : Type;
  AccountInfo : Type;
  ClientInfo : Type;
  (** [AuthenticationScheme.POP] *)
  POP : string;
  (** [buildClientInfo(rawClientInfo, crypto)] of [account/ClientInfo] *)
  buildClientInfo : string -> ICrypto -> Reply ClientInfo;
  (** [InteractionRequiredAuthError.isInteractionRequiredError] *)
  isInteractionRequiredError :
    option string -> option string -> option string -> bool;
  (** the parsing of the claims in [new AuthToken(rawToken, crypto)] *)
  extractTokenClaims : string -> ICrypto -> Reply TokenClaims;
  (** [ProtocolUtils.parseRequestState(crypto, state)] *)
  parseRequestState : ICrypto -> string -> Reply RequestStateObject;
  (** [new PopTokenGenerator(crypto).signPopToken(secret, method, uri)] *)
  signPopToken : ICrypto -> string -> string -> string -> Reply string;
  (** the static methods and the methods of [AccountEntity] *)
  generateHomeAccountId :
    string -> AuthorityType -> ICrypto -> option AuthToken -> string;
  createAccount :
    string -> string -> Authority -> AuthToken -> option string ->
    Reply AccountEntity;
  createGenericAccount :
    Authority -> string -> AuthToken -> option string -> AccountEntity;
  generateAccountKey : AccountEntity -> string;
  getAccountInfo : AccountEntity -> AccountInfo
}.

(** [new AuthToken(rawToken, crypto)]. *)
Definition newAuthToken `{Collaborators} (raw : string) (crypto : ICrypto)
  : Result AuthToken :=
  c ← call (extractTokenClaims raw crypto);
  mret {| rawToken := raw; claims := c |}.

(** Modelled from the spec: the class [CacheRecord] of [cache/entities] is
    not part of the sources; the aggregate of the five entities derived
    from one token response, each optional, in the order of the arguments
    of its constructor. *)
Record CacheRecord `{Collaborators} : Type := {
  account : option AccountEntity;
  idToken : option IdTokenEntity.t;
  accessToken : option AccessTokenEntity.t;
  refreshToken : option RefreshTokenEntity.t;
  appMetadata : option AppMetadataEntity.t
}.

Module AuthenticationResult.
(** Modelled from the spec: the type of [./AuthenticationResult] is not
    part of the sources; its fields are those of the object that
    [generateAuthenticationResult] returns; [expiresOn = None] is [null]
    and [extExpiresOn = None] is [undefined]. *)
Record t `{Collaborators} : Type := {
  uniqueId : string;
  tenantId : string;
  scopes : list string;
  account : option AccountInfo;
  idToken : string;
  idTokenClaims : TokenClaims;
  accessToken : string;
  fromCache : bool;
  expiresOn : option Date;
  extExpiresOn : option Date;
  familyId : string;
  tokenType : string;
  state : string
}.
End AuthenticationResult.

(** The interfaces of the store and of the persistence plugin: a method
    reads or changes the [Storage] and may throw. *)
Record CacheManager `{Collaborators} : Type := {
  getAccount : Storage -> string -> option AccountEntity;
  saveCacheRecord : Storage -> CacheRecord -> Reply unit * Storage
}.

Record TokenCacheContext `{Collaborators} : Type := {
  tokenCache : ISerializableTokenCache;
  hasChanged : bool
}.

Record ICachePlugin `{Collaborators} : Type := {
  beforeCacheAccess : TokenCacheContext -> Storage -> Reply unit * Storage;
  afterCacheAccess : TokenCacheContext -> Storage -> Reply unit * Storage
}.

(** The fields of a [ResponseHandler]. *)
Record ResponseHandler `{Collaborators} : Type := {
  clientId : string;
  cacheStorage : CacheManager;
  cryptoObj : ICrypto;
  homeAccountIdentifier : string;
  serializableCache : option ISerializableTokenCache;
  persistencePlugin : option ICachePlugin
}.

(** [this.homeAccountIdentifier = id]. *)
Definition setHomeAccountIdentifier `{Collaborators}
    (this : ResponseHandler) (id : string) : ResponseHandler :=
  {| clientId := clientId this;
     cacheStorage := cacheStorage this;
     cryptoObj := cryptoObj this;
     homeAccountIdentifier := id;
     serializableCache := serializableCache this;
     persistencePlugin := persistencePlugin this |}.

(** ** The state and exception monad of the commit

    The journal lists, in order, the calls made to the persistence plugin
    and to the store.  A frame is the world together with the local
    variable [cacheContext] of [handleServerTokenResponse], which the
    [finally] block reads whatever way the [try] block was left. *)

Inductive CacheEvent : Type :=
| EvBeforeCacheAccess
| EvGetAccount
| EvSaveCacheRecord
| EvAfterCacheAccess.

#[export] Instance CacheEvent_eq_dec : EqDecision CacheEvent.
Proof. solve_decision. Defined.

Record World `{Collaborators} : Type := {
  storage : Storage;
  journal : list CacheEvent
}.

Record Frame `{Collaborators} : Type := {
  world : World;
  cacheContext : option TokenCacheContext
}.

Definition M `{Collaborators} (A : Type) : Type := Frame -> Result A * Frame.

#[export] Instance M_ret `{Collaborators} : MRet M := fun _ a f => (Ok a, f).
#[export] Instance M_bind `{Collaborators} : MBind M := fun _ _ k m f =>
  match m f with
  | (Ok a, f') => k a f'
  | (Throw e, f') => (Throw e, f')
  end.

Section Monad.
Context `{Collaborators}.

(** A pure computation that may throw. *)
Definition liftR {A : Type} (r : Result A) : M A := fun f => (r, f).

(** [try { body } finally { fin }]: [fin] runs however [body] ends, and
    an exception of [fin] replaces the completion of [body]. *)
Definition tryFinally {A : Type} (body : M A) (fin : M unit) : M A := fun f =>
  let (r, f1) := body f in
  match fin f1 with
  | (Ok _, f2) => (r, f2)
  | (Throw e, f2) => (Throw e, f2)
  end.

Definition setCacheContext (ctx : option TokenCacheContext) : M unit := fun f =>
  (Ok tt, {| world := world f; cacheContext := ctx |}).

Definition getCacheContext : M (option TokenCacheContext) := fun f =>
  (Ok (cacheContext f), f).

(** Enter a call in the journal. *)
Definition note (ev : CacheEvent) : M unit := fun f =>
  (Ok tt,
   {| world := {| storage := storage (world f);
                  journal := (journal (world f) ++ [ev])%list |};
      cacheContext := cacheContext f |}).

(** A call that may change the storage and may throw. *)
Definition perform (op : Storage -> Reply unit * Storage) : M unit := fun f =>
  let (r, st) := op (storage (world f)) in
  (call r, {| world := {| storage := st; journal := journal (world f) |};
         cacheContext := cacheContext f |}).

(** A call that reads the storage. *)
Definition inspect {A : Type} (q : Storage -> A) : M A := fun f =>
  (Ok (q (storage (world f))), f).

End Monad.

(** ** The methods of [ResponseHandler] *)

Section Pipeline.
Context `{Collaborators}.

(** [a || b] on strings, [b] already a string. *)
Definition orElse (a : option string) (b : string) : string :=
  if truthy a then orEmpty a else b.

Definition validateServerAuthorizationCodeResponse
    (serverResponseHash : AuthCode.ServerAuthorizationCodeResponse)
    (cachedState : string) (cryptoObj : ICrypto) : Result unit :=
  let state := AuthCode.state serverResponseHash in
  if negb (truthy state) || negb (truthy (Some cachedState)) then
    Throw (if negb (truthy state)
           then StateNotFoundError "Server State"
           else StateNotFoundError "Cached State")
  else
    decodedState ← decodeURIComponent (orEmpty state);
    decodedCached ← decodeURIComponent cachedState;
    if negb (String.eqb decodedState decodedCached) then
      Throw StateMismatchError
    else
      let error := AuthCode.error serverResponseHash in
      let error_description := AuthCode.error_description serverResponseHash in
      let suberror := AuthCode.suberror serverResponseHash in
      if truthy error || truthy error_description || truthy suberror then
        if isInteractionRequiredError error error_description suberror then
          Throw (InteractionRequiredAuthError
                   (Some (orEmpty error)) error_description suberror)
        else
          Throw (ServerError (Some (orEmpty error)) error_description suberror)
      else if truthy (AuthCode.client_info serverResponseHash) then
        _ ← call (buildClientInfo
                    (orEmpty (AuthCode.client_info serverResponseHash))
                    cryptoObj);
        mret tt
      else mret tt.

(** [Array.prototype.toString] in a template literal. *)
Definition holeCodes (codes : option (list string)) : string :=
  match codes with
  | Some l => String.concat "," l
  | None => "undefined"
  end.

Definition validateTokenResponse
    (serverResponse : Token.ServerAuthorizationTokenResponse) : Result unit :=
  let error := Token.error serverResponse in
  let error_description := Token.error_description serverResponse in
  let suberror := Token.suberror serverResponse in
  if truthy error || truthy error_description || truthy suberror then
    if isInteractionRequiredError error error_description suberror then
      Throw (InteractionRequiredAuthError error error_description suberror)
    else
      let errString :=
        holeCodes (Token.error_codes serverResponse) ++ " - [" ++
        hole (Token.timestamp serverResponse) ++ "]: " ++
        hole error_description ++ " - Correlation ID: " ++
        hole (Token.correlation_id serverResponse) ++ " - Trace ID: " ++
        hole (Token.trace_id serverResponse) in
      Throw (ServerError error (Some errString) None)
  else mret tt.

Definition generateAccountEntity (this : ResponseHandler)
    (serverTokenResponse : Token.ServerAuthorizationTokenResponse)
    (idToken : AuthToken) (authority : Authority)
    (oboAssertion : option string) : Result AccountEntity :=
  let authorityType := authorityType authority in
  if decide (authorityType = Adfs) then
    Ok (createGenericAccount authority (homeAccountIdentifier this) idToken
          oboAssertion)
  else if isEmpty (Token.client_info serverTokenResponse)
          && String.eqb (protocolMode authority) "AAD" then
    Throw ClientInfoEmptyError
  else if truthy (Token.client_info serverTokenResponse) then
    call (createAccount (orEmpty (Token.client_info serverTokenResponse))
            (homeAccountIdentifier this) authority idToken oboAssertion)
  else
    Ok (createGenericAccount authority (homeAccountIdentifier this) idToken
          oboAssertion).

(** [currentTime] is what [TimeUtils.nowSeconds()] returns, a rounded
    count of seconds. *)
Definition generateCacheRecord (this : ResponseHandler) (currentTime : Z)
    (serverTokenResponse : Token.ServerAuthorizationTokenResponse)
    (authority : Authority) (idTokenObj : option AuthToken)
    (libraryState : option LibraryStateObject)
    (requestScopes : option (list string)) (oboAssertion : option string)
  : Result CacheRecord :=
  let env := generateEnvironmentFromAuthority authority in
  if isEmpty (Some env) then Throw InvalidCacheEnvironmentError
  else
    identity ←
      match idTokenObj with
      | Some tok =>
          if negb (isEmpty (Token.id_token serverTokenResponse)) then
            let cachedIdToken :=
              IdTokenEntity.createIdTokenEntity
                (homeAccountIdentifier this) env
                (orEmpty (Token.id_token serverTokenResponse))
                (clientId this)
                (orEmpty (tid (claims tok)))
                oboAssertion in
            cachedAccount ←
              generateAccountEntity this serverTokenResponse tok authority
                oboAssertion;
            mret (Some cachedIdToken, Some cachedAccount)
          else mret (None, None)
      | None => mret (None, None)
      end;
    let cachedAccessToken :=
      if negb (isEmpty (Token.access_token serverTokenResponse)) then
        let responseScopes :=
          if truthy (Token.scope serverTokenResponse)
          then ScopeSet.fromString (orEmpty (Token.scope serverTokenResponse))
          else ScopeSet.ofArray (default [] requestScopes) in
        let timestamp :=
          match libraryState with
          | Some ls => ts ls
          | None => Finite currentTime
          end in
        let tokenExpirationSeconds :=
          jsAdd timestamp (orZero (Token.expires_in serverTokenResponse)) in
        let extendedTokenExpirationSeconds :=
          jsAdd tokenExpirationSeconds
            (orZero (Token.ext_expires_in serverTokenResponse)) in
        Some (AccessTokenEntity.createAccessTokenEntity
                (homeAccountIdentifier this) env
                (orEmpty (Token.access_token serverTokenResponse))
                (clientId this)
                (match idTokenObj with
                 | Some tok => orEmpty (tid (claims tok))
                 | None => tenant authority
                 end)
                (ScopeSet.printScopes responseScopes)
                tokenExpirationSeconds
                extendedTokenExpirationSeconds
                (Token.token_type serverTokenResponse)
                oboAssertion)
      else None in
    let cachedRefreshToken :=
      if negb (isEmpty (Token.refresh_token serverTokenResponse)) then
        Some (RefreshTokenEntity.createRefreshTokenEntity
                (homeAccountIdentifier this) env
                (orEmpty (Token.refresh_token serverTokenResponse))
                (clientId this)
                (Token.foci serverTokenResponse)
                oboAssertion)
      else None in
    let cachedAppMetadata :=
      if negb (isEmpty (Token.foci serverTokenResponse)) then
        Some (AppMetadataEntity.createAppMetadataEntity
                (clientId this) env (Token.foci serverTokenResponse))
      else None in
    mret {| account := snd identity;
            idToken := fst identity;
            accessToken := cachedAccessToken;
            refreshToken := cachedRefreshToken;
            appMetadata := cachedAppMetadata |}.

(** The static method; the signing of a proof-of-possession token is the
    one call of it that may throw besides its own check. *)
Definition generateAuthenticationResult (cryptoObj : ICrypto)
    (cacheRecord : CacheRecord) (fromTokenCache : bool)
    (idTokenObj : option AuthToken) (requestState : option RequestStateObject)
    (resourceRequestMethod resourceRequestUri : option string)
  : Result AuthenticationResult.t :=
  token ←
    match accessToken cacheRecord with
    | Some entity =>
        signedOrSecret ←
          (if decide (AccessTokenEntity.tokenType entity = Some POP) then
             if negb (truthy resourceRequestMethod)
                || negb (truthy resourceRequestUri) then
               Throw ResourceRequestParametersRequiredError
             else
               call (signPopToken cryptoObj (AccessTokenEntity.secret entity)
                       (orEmpty resourceRequestMethod)
                       (orEmpty resourceRequestUri))
           else Ok (AccessTokenEntity.secret entity));
        mret (signedOrSecret,
              ScopeSet.asArray (ScopeSet.fromString (AccessTokenEntity.target entity)),
              Some (newDate
                      (jsMul (toNumber (AccessTokenEntity.expiresOn entity))
                         1000)),
              Some (newDate
                      (jsMul
                         (toNumber (AccessTokenEntity.extendedExpiresOn entity))
                         1000)))
    | None => mret (EmptyString, [], None, None)
    end;
  let '(accessTokenValue, responseScopes, expiresOn, extExpiresOn) := token in
  let familyId :=
    match appMetadata cacheRecord with
    | Some md =>
        if decide (AppMetadataEntity.familyId md = Some THE_FAMILY_ID)
        then THE_FAMILY_ID else ""
    | None => ""
    end in
  let uid :=
    orElse (idTokenObj ≫= fun tok => oid (claims tok))
      (orElse (idTokenObj ≫= fun tok => sub (claims tok)) "") in
  let tid := orEmpty (idTokenObj ≫= fun tok => tid (claims tok)) in
  mret {| AuthenticationResult.uniqueId := uid;
          AuthenticationResult.tenantId := tid;
          AuthenticationResult.scopes := responseScopes;
          AuthenticationResult.account := getAccountInfo <$> account cacheRecord;
          AuthenticationResult.idToken :=
            match idTokenObj with
            | Some tok => rawToken tok
            | None => ""
            end;
          AuthenticationResult.idTokenClaims :=
            match idTokenObj with
            | Some tok => claims tok
            | None => noClaims
            end;
          AuthenticationResult.accessToken := accessTokenValue;
          AuthenticationResult.fromCache := fromTokenCache;
          AuthenticationResult.expiresOn := expiresOn;
          AuthenticationResult.extExpiresOn := extExpiresOn;
          AuthenticationResult.familyId := familyId;
          AuthenticationResult.tokenType :=
            orEmpty (accessToken cacheRecord ≫= AccessTokenEntity.tokenType);
          AuthenticationResult.state :=
            match requestState with
            | Some rs => userRequestState rs
            | None => ""
            end |}.

(** [this.persistencePlugin && this.serializableCache]. *)
Definition persistence (this : ResponseHandler)
  : option (ICachePlugin * ISerializableTokenCache) :=
  match persistencePlugin this, serializableCache this with
  | Some plugin, Some cache => Some (plugin, cache)
  | _, _ => None
  end.

(** How the [try] block of [handleServerTokenResponse] is left when it
    does not throw: at its end, or by its [return null]. *)
Inductive Completion : Type := Normal | ReturnNull.

Definition tryBlock (this : ResponseHandler) (cacheRecord : CacheRecord)
    (handlingRefreshTokenResponse : bool) : M Completion :=
  match persistence this with
  | Some (plugin, cache) =>
      let ctx := {| tokenCache := cache; hasChanged := true |} in
      setCacheContext (Some ctx);;
      note EvBeforeCacheAccess;;
      perform (beforeCacheAccess plugin ctx)
  | None => mret tt
  end;;
  guard ←
    match handlingRefreshTokenResponse, account cacheRecord with
    | true, Some entity =>
        let key := generateAccountKey entity in
        note EvGetAccount;;
        found ← inspect (fun st => getAccount (cacheStorage this) st key);
        match found with
        | None => mret ReturnNull
        | Some _ => mret Normal
        end
    | _, _ => mret Normal
    end;
  match guard with
  | ReturnNull => mret ReturnNull
  | Normal =>
      note EvSaveCacheRecord;;
      perform (fun st => saveCacheRecord (cacheStorage this) st cacheRecord);;
      mret Normal
  end.

Definition finallyBlock (this : ResponseHandler) : M unit :=
  ctx ← getCacheContext;
  match persistence this, ctx with
  | Some (plugin, _), Some ctx =>
      note EvAfterCacheAccess;;
      perform (afterCacheAccess plugin ctx)
  | _, _ => mret tt
  end.

(** The identity token object and the nonce check. *)
Definition parseIdToken (this : ResponseHandler)
    (serverTokenResponse : Token.ServerAuthorizationTokenResponse)
    (cachedNonce : option string) : Result (option AuthToken) :=
  if truthy (Token.id_token serverTokenResponse) then
    idTokenObj ←
      newAuthToken (orEmpty (Token.id_token serverTokenResponse))
        (cryptoObj this);
    if truthy cachedNonce then
      if decide (nonce (claims idTokenObj) <> cachedNonce)
      then Throw NonceMismatchError
      else mret (Some idTokenObj)
    else mret (Some idTokenObj)
  else mret None.

(** The statements of [handleServerTokenResponse] up to the derivation of
    the cache record: the handler with its home account identifier set, the
    identity token object, the request state and the record. *)
Definition deriveRecord (this : ResponseHandler) (currentTime : Z)
    (serverTokenResponse : Token.ServerAuthorizationTokenResponse)
    (authority : Authority) (cachedNonce cachedState : option string)
    (requestScopes : option (list string)) (oboAssertion : option string)
  : Result (ResponseHandler * option AuthToken * option RequestStateObject
            * CacheRecord) :=
  idTokenObj ← parseIdToken this serverTokenResponse cachedNonce;
  let this :=
    setHomeAccountIdentifier this
      (generateHomeAccountId
         (orEmpty (Token.client_info serverTokenResponse))
         (authorityType authority) (cryptoObj this) idTokenObj) in
  requestStateObj ←
    (if truthy cachedState
     then Some <$> call (parseRequestState (cryptoObj this) (orEmpty cachedState))
     else mret None);
  cacheRecord ←
    generateCacheRecord this currentTime serverTokenResponse authority
      idTokenObj (libraryState <$> requestStateObj) requestScopes oboAssertion;
  mret (this, idTokenObj, requestStateObj, cacheRecord).

(** An absent [handlingRefreshTokenResponse] is [false]. *)
Definition handleServerTokenResponse (this : ResponseHandler) (currentTime : Z)
    (serverTokenResponse : Token.ServerAuthorizationTokenResponse)
    (authority : Authority)
    (resourceRequestMethod resourceRequestUri : option string)
    (cachedNonce cachedState : option string)
    (requestScopes : option (list string)) (oboAssertion : option string)
    (handlingRefreshTokenResponse : bool)
  : M (option AuthenticationResult.t) :=
  derived ←
    liftR (deriveRecord this currentTime serverTokenResponse authority
             cachedNonce cachedState requestScopes oboAssertion);
  let '(this, idTokenObj, requestStateObj, cacheRecord) := derived in
  setCacheContext None;;
  completion ←
    tryFinally (tryBlock this cacheRecord handlingRefreshTokenResponse)
      (finallyBlock this);
  match completion with
  | ReturnNull => mret None
  | Normal =>
      liftR (Some <$>
             generateAuthenticationResult (cryptoObj this) cacheRecord false
               idTokenObj requestStateObj resourceRequestMethod
               resourceRequestUri)
  end.

(** A call of a method from outside: what it returns or throws, and the
    world it leaves. *)
Definition run {A : Type} (m : M A) (w : World) : Result A * World :=
  let (r, f) := m {| world := w; cacheContext := None |} in
  (r, world f).

End Pipeline.

(** ** Notions used to state the properties *)

Section Notions.
Context `{Collaborators}.

(** The response carries [error], [error_description] or [suberror]. *)
Definition carriesError (r : AuthCode.ServerAuthorizationCodeResponse) : bool :=
  truthy (AuthCode.error r) || truthy (AuthCode.error_description r)
  || truthy (AuthCode.suberror r).

(** The classified error of a response that carries error fields. *)
Definition classified (r : AuthCode.ServerAuthorizationCodeResponse)
  : AuthError :=
  if isInteractionRequiredError (AuthCode.error r)
       (AuthCode.error_description r) (AuthCode.suberror r)
  then InteractionRequiredAuthError (Some (orEmpty (AuthCode.error r)))
         (AuthCode.error_description r) (AuthCode.suberror r)
  else ServerError (Some (orEmpty (AuthCode.error r)))
         (AuthCode.error_description r) (AuthCode.suberror r).

(** What the before-access hook of the handler does to the storage; nothing
    when persistence is not enabled. *)
Definition beforeAccess (this : ResponseHandler) (st : Storage)
  : Reply unit * Storage :=
  match persistence this with
  | Some (plugin, cache) =>
      beforeCacheAccess plugin {| tokenCache := cache; hasChanged := true |} st
  | None => (Returns tt, st)
  end.

(** The same for the after-access hook. *)
Definition afterAccess (this : ResponseHandler) (st : Storage)
  : Reply unit * Storage :=
  match persistence this with
  | Some (plugin, cache) =>
      afterCacheAccess plugin {| tokenCache := cache; hasChanged := true |} st
  | None => (Returns tt, st)
  end.

(** The journal of calls to the store made between the two hooks. *)
Definition bracket (this : ResponseHandler) (calls : list CacheEvent)
  : list CacheEvent :=
  match persistence this with
  | Some _ => (EvBeforeCacheAccess :: calls ++ [EvAfterCacheAccess])%list
  | None => calls
  end.

(** A call to the store, as opposed to a call to a hook. *)
Definition storeCall (ev : CacheEvent) : Prop :=
  ev = EvGetAccount \/ ev = EvSaveCacheRecord.

End Notions.

Fixpoint noSpace (s : string) : bool :=
  match s with
  | EmptyString => true
  | String c rest => negb (Ascii.eqb c " ") && noSpace rest
  end.

(** A scope: a non-empty string without a space. *)
Definition isScope (s : string) : bool := negb (String.eqb s "") && noSpace s.

(** A string without a percent sign, which [decodeURIComponent] leaves as
    it is. *)
Fixpoint noPercent (s : string) : bool :=
  match s with
  | EmptyString => true
  | String c rest => negb (Ascii.eqb c "%") && noPercent rest
  end.

(** A call to the store, as a test. *)
Definition isStoreCall (ev : CacheEvent) : bool :=
  match ev with
  | EvGetAccount | EvSaveCacheRecord => true
  | EvBeforeCacheAccess | EvAfterCacheAccess => false
  end.

(** The token response carries [error], [error_description] or
    [suberror]. *)
Definition tokenCarriesError
    (resp : Token.ServerAuthorizationTokenResponse) : bool :=
  truthy (Token.error resp) || truthy (Token.error_description resp)
  || truthy (Token.suberror resp).

(** The message of the server error of [validateTokenResponse]. *)
Definition serverErrorMessage
    (resp : Token.ServerAuthorizationTokenResponse) : string :=
  holeCodes (Token.error_codes resp) ++ " - [" ++
  hole (Token.timestamp resp) ++ "]: " ++
  hole (Token.error_description resp) ++ " - Correlation ID: " ++
  hole (Token.correlation_id resp) ++ " - Trace ID: " ++
  hole (Token.trace_id resp).

(** ** Reference collaborators

    An in-memory store over a finite map from account keys to accounts, and
    simple stand-ins for the crypto object and the account entity, to run
    the pipeline on concrete inputs.  The identity tokens of this crypto
    object are the strings ["sub tid nonce"] and ["sub tid"], the latter
    without a nonce claim. *)

Module Reference.

Record Account : Type := {
  accountHome : string;
  accountEnvironment : string
}.

Definition parseClaims (raw : string) : Reply TokenClaims :=
  match ScopeSet.fromString raw with
  | [s; t; n] =>
      Returns {| oid := None; sub := Some s; tid := Some t; nonce := Some n |}
  | [s; t] =>
      Returns {| oid := None; sub := Some s; tid := Some t; nonce := None |}
  | _ => Raises "token_parsing_error"
  end.

#[export] Instance collaborators : Collaborators := {|
  ICrypto := unit;
  ISerializableTokenCache := unit;
  Storage := gmap string Account;
  AccountEntity := Account;
  AccountInfo := string;
  ClientInfo := string;
  POP := "pop";
  buildClientInfo := fun raw _ => Returns raw;
  isInteractionRequiredError := fun error _ _ =>
    bool_decide (error = Some "interaction_required");
  extractTokenClaims := fun raw _ => parseClaims raw;
  parseRequestState := fun _ st =>
    Returns {| userRequestState := st; libraryState := {| ts := 1000 |} |};
  signPopToken := fun _ secret method uri =>
    Returns (method ++ " " ++ uri ++ " " ++ secret);
  generateHomeAccountId := fun clientInfo authType _ idTokenObj =>
    if bool_decide (authType = Adfs) || String.eqb clientInfo ""
    then orEmpty (idTokenObj ≫= fun tok => sub (claims tok))
    else clientInfo;
  createAccount := fun _ home authority _ _ =>
    Returns {| accountHome := home;
               accountEnvironment := environment authority |};
  createGenericAccount := fun authority home _ _ =>
    {| accountHome := home; accountEnvironment := environment authority |};
  generateAccountKey := fun a =>
    accountHome a ++ "-" ++ accountEnvironment a;
  getAccountInfo := accountHome
|}.

(** The store: an account is filed under its key. *)
Definition lookupAccount (st : gmap string Account) (key : string)
  : option Account := st !! key.

Definition fileAccount (st : gmap string Account)
    (cacheRecord : @CacheRecord collaborators)
  : Reply unit * gmap string Account :=
  (Returns tt,
   match account cacheRecord with
   | Some a => <[generateAccountKey a := a]> st
   | None => st
   end).

Definition memoryStore : @CacheManager collaborators :=
  @Build_CacheManager collaborators lookupAccount fileAccount.

(** A store whose write fails. *)
Definition failWrite (st : gmap string Account)
    (cacheRecord : @CacheRecord collaborators)
  : Reply unit * gmap string Account :=
  (Raises "store_write_failed", st).

Definition brokenStore : @CacheManager collaborators :=
  @Build_CacheManager collaborators lookupAccount failWrite.

(** A plugin whose hooks leave the store as it is. *)
Definition idleHook (ctx : @TokenCacheContext collaborators)
    (st : gmap string Account) : Reply unit * gmap string Account :=
  (Returns tt, st).

Definition plainPlugin : @ICachePlugin collaborators :=
  @Build_ICachePlugin collaborators idleHook idleHook.

Definition handler (store : @CacheManager collaborators)
    (plugin : option (@ICachePlugin collaborators))
  : @ResponseHandler collaborators := {|
  clientId := "client";
  cacheStorage := store;
  cryptoObj := tt;
  homeAccountIdentifier := "";
  serializableCache := Some tt;
  persistencePlugin := plugin
|}.

Definition crypto : @ICrypto collaborators := tt.

(** The handler over the in-memory store, with the idle plugin. *)
Definition plainHandler : @ResponseHandler collaborators :=
  handler memoryStore (Some plainPlugin).

Definition aad : Authority := {|
  authorityType := Aad;
  protocolMode := "AAD";
  tenant := "contoso";
  environment := "login.example.com"
|}.

Definition aadOidc : Authority := {|
  authorityType := Aad;
  protocolMode := "OIDC";
  tenant := "contoso";
  environment := "login.example.com"
|}.

Definition adfs : Authority := {|
  authorityType := Adfs;
  protocolMode := "AAD";
  tenant := "adfs";
  environment := "adfs.example.com"
|}.

(** A token response with an identity token, an access token, a scope
    string and client info as given, and lifetimes of 3600 and 600
    seconds. *)
Definition response (idTok accessTok scopeString clientInfo : option string)
  : Token.ServerAuthorizationTokenResponse := {|
  Token.token_type := Some "Bearer"; Token.scope := scopeString;
  Token.expires_in := Some (Finite 3600);
  Token.ext_expires_in := Some (Finite 600);
  Token.access_token := accessTok;
  Token.refresh_token := Some "rt-secret";
  Token.id_token := idTok;
  Token.client_info := clientInfo; Token.foci := None;
  Token.error := None; Token.error_description := None;
  Token.error_codes := None; Token.suberror := None;
  Token.timestamp := None; Token.trace_id := None;
  Token.correlation_id := None
|}.

(** A response with lifetimes as given. *)
Definition expiring (expires extended : option Number)
  : Token.ServerAuthorizationTokenResponse := {|
  Token.token_type := Some "Bearer";
  Token.scope := Some "user.read mail.read";
  Token.expires_in := expires;
  Token.ext_expires_in := extended;
  Token.access_token := Some "at-secret";
  Token.refresh_token := Some "rt-secret";
  Token.id_token := Some "alice contoso n1";
  Token.client_info := Some "uid.utid"; Token.foci := None;
  Token.error := None; Token.error_description := None;
  Token.error_codes := None; Token.suberror := None;
  Token.timestamp := None; Token.trace_id := None;
  Token.correlation_id := None
|}.

(** The response of a refresh, with the nonce ["n1"] in its identity
    token. *)
Definition refreshed : Token.ServerAuthorizationTokenResponse :=
  response (Some "alice contoso n1") (Some "at-secret")
    (Some "user.read mail.read") (Some "uid.utid").

(** The same with an identity token that has no nonce claim. *)
Definition withoutNonce : Token.ServerAuthorizationTokenResponse :=
  response (Some "alice contoso") (Some "at-secret")
    (Some "user.read mail.read") (Some "uid.utid").

(** A response without client info. *)
Definition withoutClientInfo : Token.ServerAuthorizationTokenResponse :=
  response (Some "alice contoso n1") (Some "at-secret")
    (Some "user.read mail.read") None.

(** A response with a scope string and an identity token but no access
    token. *)
Definition identityOnly : Token.ServerAuthorizationTokenResponse :=
  response (Some "alice contoso n1") None (Some "openid") (Some "uid.utid").

(** A response without a scope string. *)
Definition withoutScope : Token.ServerAuthorizationTokenResponse :=
  response (Some "alice contoso n1") (Some "at-secret") None
    (Some "uid.utid").

Definition aliceToken : AuthToken := {|
  rawToken := "alice contoso n1";
  claims := {| oid := None; sub := Some "alice"; tid := Some "contoso";
               nonce := Some "n1" |}
|}.

Definition emptyWorld : @World collaborators :=
  {| storage := ∅; journal := [] |}.

Definition alice : Account :=
  {| accountHome := "uid.utid"; accountEnvironment := "login.example.com" |}.

Definition worldWithAlice : @World collaborators :=
  {| storage := {["uid.utid-login.example.com" := alice]}; journal := [] |}.

(** A record whose access token is a proof-of-possession token. *)
Definition popEntity : AccessTokenEntity.t :=
  AccessTokenEntity.createAccessTokenEntity "uid.utid" "login.example.com"
    "at-secret" "client" "contoso" "user.read" 4600 5200 (Some "pop") None.

Definition popRecord : @CacheRecord collaborators := {|
  account := None; idToken := None; accessToken := Some popEntity;
  refreshToken := None; appMetadata := None
|}.

(** A record with an account only. *)
Definition accountRecord : @CacheRecord collaborators := {|
  account := Some alice; idToken := None; accessToken := None;
  refreshToken := None; appMetadata := None
|}.

(** Callbacks of the authorization endpoint. *)
Definition callback (st err : option string)
  : AuthCode.ServerAuthorizationCodeResponse := {|
  AuthCode.state := st; AuthCode.client_info := None;
  AuthCode.error := err; AuthCode.error_description := None;
  AuthCode.suberror := None
|}.

(** A hook that raises. *)
Definition raisingHook (payload : string)
    (ctx : @TokenCacheContext collaborators) (st : gmap string Account)
  : Reply unit * gmap string Account :=
  (Raises payload, st).

(** A plugin whose before-access hook raises. *)
Definition beforeRaisingPlugin : @ICachePlugin collaborators :=
  @Build_ICachePlugin collaborators (raisingHook "before_failed") idleHook.

(** A plugin whose after-access hook raises. *)
Definition afterRaisingPlugin : @ICachePlugin collaborators :=
  @Build_ICachePlugin collaborators idleHook (raisingHook "after_failed").

(** The handler over the in-memory store without a plugin. *)
Definition bareHandler : @ResponseHandler collaborators :=
  handler memoryStore None.

(** A hook that leaves a seal in the store, which tells whether the
    account of alice was in the store when the hook was called. *)
Definition sealHook (ctx : @TokenCacheContext collaborators)
    (st : gmap string Account) : Reply unit * gmap string Account :=
  (Returns tt,
   <["seal" :=
       {| accountHome :=
            match st !! "uid.utid-login.example.com" with
            | Some _ => "sealed with the account"
            | None => "sealed without the account"
            end;
          accountEnvironment := "" |}]> st).

(** A plugin whose after-access hook seals the store. *)
Definition sealingPlugin : @ICachePlugin collaborators :=
  @Build_ICachePlugin collaborators idleHook sealHook.

(** A response with a proof-of-possession access token. *)
Definition popResponse : Token.ServerAuthorizationTokenResponse := {|
  Token.token_type := Some "pop"; Token.scope := Some "user.read";
  Token.expires_in := Some (Finite 3600);
  Token.ext_expires_in := Some (Finite 600);
  Token.access_token := Some "at-secret";
  Token.refresh_token := None;
  Token.id_token := Some "alice contoso n1";
  Token.client_info := Some "uid.utid"; Token.foci := None;
  Token.error := None; Token.error_description := None;
  Token.error_codes := None; Token.suberror := None;
  Token.timestamp := None; Token.trace_id := None;
  Token.correlation_id := None
|}.

(** A response of a client of the family of client ids. *)
Definition familyResponse : Token.ServerAuthorizationTokenResponse := {|
  Token.token_type := Some "Bearer"; Token.scope := Some "user.read";
  Token.expires_in := Some (Finite 3600);
  Token.ext_expires_in := Some (Finite 600);
  Token.access_token := Some "at-secret";
  Token.refresh_token := Some "rt-secret";
  Token.id_token := Some "alice contoso n1";
  Token.client_info := Some "uid.utid"; Token.foci := Some "1";
  Token.error := None; Token.error_description := None;
  Token.error_codes := None; Token.suberror := None;
  Token.timestamp := None; Token.trace_id := None;
  Token.correlation_id := None
|}.

(** An error response of the token endpoint. *)
Definition failedResponse : Token.ServerAuthorizationTokenResponse := {|
  Token.token_type := None; Token.scope := None;
  Token.expires_in := None; Token.ext_expires_in := None;
  Token.access_token := None; Token.refresh_token := None;
  Token.id_token := None; Token.client_info := None; Token.foci := None;
  Token.error := Some "invalid_grant";
  Token.error_description := Some "expired";
  Token.error_codes := Some ["70000"; "70001"];
  Token.suberror := Some "bad_token";
  Token.timestamp := Some "2026-01-01"; Token.trace_id := Some "t-1";
  Token.correlation_id := None
|}.

(** An identity token object whose [oid] claim is the empty string. *)
Definition emptyOidToken : AuthToken := {|
  rawToken := "raw";
  claims := {| oid := Some ""; sub := Some "alice"; tid := None;
               nonce := None |}
|}.

End Reference.

(** * Properties *)

(** ** Truthiness *)

Lemma truthy_Some (s : string) : truthy (Some s) = true <-> s <> "".
Proof.
  unfold truthy. destruct (String.eqb_spec s ""); simpl; split; congruence.
Qed.

Lemma truthy_false_Some (s : string) : truthy (Some s) = false <-> s = "".
Proof.
  unfold truthy. destruct (String.eqb_spec s ""); simpl; split; congruence.
Qed.

Lemma truthy_true_inv (x : option string) :
  truthy x = true -> exists s, x = Some s /\ s <> "".
Proof.
  destruct x as [s|]; simpl; [|discriminate].
  intros Hs. exists s. split; [reflexivity|]. now apply truthy_Some.
Qed.

Lemma orElse_empty (x : option string) : orElse x "" = orEmpty x.
Proof.
  unfold orElse, truthy, orEmpty. destruct x as [s|]; [|reflexivity].
  destruct (String.eqb_spec s ""); simpl; congruence.
Qed.

(** ** Numbers *)

Lemma roundNumber_exact (z : Z) :
  Z.abs z <= maxExact -> roundNumber z = Finite z.
Proof.
  intros Hz. unfold roundNumber, roundMagnitude.
  apply Z.leb_le in Hz. rewrite Hz, Hz. f_equal.
  rewrite Z.mul_comm. apply Z.abs_sgn.
Qed.

(** Within 2^53 a sum of integers is exact. *)
Lemma jsAdd_exact (x y : Z) :
  Z.abs (x + y) <= maxExact -> jsAdd (Finite x) (Finite y) = Finite (x + y).
Proof. apply roundNumber_exact. Qed.

(** Within 2^53 a product of integers is exact. *)
Lemma jsMul_exact (x y : Z) :
  Z.abs (x * y) <= maxExact -> jsMul (Finite x) (Finite y) = Finite (x * y).
Proof. apply roundNumber_exact. Qed.

(** Beyond 2^53 the rounded magnitude stays beyond 2^53. *)
Lemma roundMagnitude_large (n : Z) :
  maxExact < n -> maxExact <= roundMagnitude n.
Proof.
  intros Hn. unfold roundMagnitude.
  destruct (Z.leb_spec n maxExact) as [Hle|_]; [lia|].
  assert (0 < n) as Hpos by (unfold maxExact in Hn; lia).
  pose proof (Z.log2_spec n Hpos) as [Hlow _].
  assert (53 <= Z.log2 n) as Hlog.
  { change 53 with (Z.log2 (2 ^ 53)).
    apply Z.log2_le_mono. unfold maxExact in Hn. lia. }
  set (shift := Z.log2 n - 52) in *.
  assert (1 <= shift) as Hshift by (unfold shift; lia).
  set (significand := Z.shiftr n shift).
  assert (2 ^ 52 <= significand) as Hsig.
  { unfold significand. rewrite Z.shiftr_div_pow2 by lia.
    apply Z.div_le_lower_bound; [apply Z.pow_pos_nonneg; lia|].
    rewrite Z.mul_comm, <- Z.pow_add_r by lia.
    replace (52 + shift) with (Z.log2 n) by (unfold shift; lia).
    exact Hlow. }
  match goal with
  | |- _ <= Z.shiftl ?r shift => assert (2 ^ 52 <= r) as Hr
  end.
  { destruct (_ || _); lia. }
  rewrite Z.shiftl_mul_pow2 by lia.
  assert (2 ^ 1 <= 2 ^ shift) as Hpow by (apply Z.pow_le_mono_r; lia).
  change (2 ^ 1) with 2 in Hpow.
  unfold maxExact. change 9007199254740992 with (2 ^ 52 * 2). nia.
Qed.

(** A count of seconds within 8.64e12 gives the date of its
    milliseconds. *)
Lemma newDate_of_seconds (s : Z) :
  Z.abs s <= 8640000000000 ->
  newDate (jsMul (toNumber (Finite s)) 1000) = TimeValue (s * 1000).
Proof.
  intros Hs. unfold toNumber.
  rewrite jsMul_exact by (unfold maxExact; lia).
  unfold newDate.
  destruct (Z.leb_spec (Z.abs (s * 1000)) 8640000000000000); [reflexivity|lia].
Qed.

(** Rounding keeps a number beyond any bound below 2^53 that its
    magnitude exceeds. *)
Lemma roundNumber_beyond (z bound : Z) :
  0 <= bound -> bound < maxExact -> bound < Z.abs z ->
  match roundNumber z with
  | Finite v => bound < Z.abs v
  | Infinity _ | NaN => True
  end.
Proof.
  intros Hb Hmax Hz. unfold roundNumber.
  assert (bound < roundMagnitude (Z.abs z)) as Hm.
  { destruct (Z.leb_spec (Z.abs z) maxExact) as [Hle|Hgt].
    - unfold roundMagnitude. apply Z.leb_le in Hle. rewrite Hle. exact Hz.
    - pose proof (roundMagnitude_large _ Hgt). lia. }
  assert (Z.abs (Z.sgn z * roundMagnitude (Z.abs z))
          = roundMagnitude (Z.abs z)) as Habs.
  { rewrite Z.abs_mul.
    assert (Z.abs (Z.sgn z) = 1) as -> by (destruct z; simpl in *; lia).
    lia. }
  destruct (_ <=? maxExact); [rewrite Habs; exact Hm|].
  destruct (2 ^ 1024 <=? _); [exact I|]. rewrite Habs. exact Hm.
Qed.

(** A count of seconds beyond 8.64e12 gives an invalid date. *)
Lemma newDate_of_seconds_invalid (s : Z) :
  8640000000000 < Z.abs s ->
  newDate (jsMul (toNumber (Finite s)) 1000) = InvalidDate.
Proof.
  intros Hs. unfold toNumber, jsMul.
  pose proof (roundNumber_beyond (s * 1000) 8640000000000000) as Hr.
  destruct (roundNumber (s * 1000)) as [v| |]; [|reflexivity..].
  unfold newDate.
  destruct (Z.leb_spec (Z.abs v) 8640000000000000) as [Hv|_]; [|reflexivity].
  unfold maxExact in Hr. lia.
Qed.

(** ** Validation of the authorization-code response *)

Section AuthCodeValidation.
Context `{Collaborators}.
Implicit Types (r : AuthCode.ServerAuthorizationCodeResponse)
  (cachedState : string) (crypto : ICrypto).

(** With both states present, validation is decided by the decoding of the
    two states, then by their comparison, then by the error fields. *)
Lemma validate_states_present r cachedState crypto :
  truthy (AuthCode.state r) = true ->
  cachedState <> "" ->
  validateServerAuthorizationCodeResponse r cachedState crypto =
    (decodedState ← decodeURIComponent (orEmpty (AuthCode.state r));
     decodedCached ← decodeURIComponent cachedState;
     if negb (String.eqb decodedState decodedCached) then Throw StateMismatchError
     else if carriesError r then Throw (classified r)
     else if truthy (AuthCode.client_info r) then
       _ ← call (buildClientInfo (orEmpty (AuthCode.client_info r)) crypto);
       mret tt
     else mret tt).
Proof.
  intros Hs Hc. apply truthy_Some in Hc.
  unfold validateServerAuthorizationCodeResponse, carriesError, classified.
  rewrite Hs, Hc. simpl.
  destruct (decodeURIComponent (orEmpty (AuthCode.state r))) as [d1|e];
    [|reflexivity]. simpl.
  destruct (decodeURIComponent cachedState) as [d2|e]; [|reflexivity]. simpl.
  destruct (negb (d1 =? d2)%string); [reflexivity|].
  destruct (truthy (AuthCode.error r) || truthy (AuthCode.error_description r)
            || truthy (AuthCode.suberror r)); [|reflexivity].
  destruct (isInteractionRequiredError _ _ _); reflexivity.
Qed.

(** C9: when the state of the response or the cached state is missing or
    empty, validation fails with the state-not-found error, which names the
    server state when that one is missing and the cached state otherwise;
    and validation fails with the state-mismatch error only when both
    states are present, both decode, and the decoded states differ. *)
Theorem state_not_found_before_mismatch r cachedState crypto :
  (truthy (AuthCode.state r) = false ->
   validateServerAuthorizationCodeResponse r cachedState crypto
   = Throw (StateNotFoundError "Server State"))
  /\ (truthy (AuthCode.state r) = true -> cachedState = "" ->
      validateServerAuthorizationCodeResponse r cachedState crypto
      = Throw (StateNotFoundError "Cached State"))
  /\ (validateServerAuthorizationCodeResponse r cachedState crypto
      = Throw StateMismatchError ->
      truthy (AuthCode.state r) = true /\ cachedState <> "" /\
      exists d1 d2,
        decodeURIComponent (orEmpty (AuthCode.state r)) = Ok d1 /\
        decodeURIComponent cachedState = Ok d2 /\ d1 <> d2).
Proof.
  split; [|split].
  - intros Hs. unfold validateServerAuthorizationCodeResponse.
    rewrite Hs. reflexivity.
  - intros Hs ->. unfold validateServerAuthorizationCodeResponse.
    rewrite Hs. reflexivity.
  - intros Hv.
    destruct (truthy (AuthCode.state r)) eqn:Hs.
    2:{ unfold validateServerAuthorizationCodeResponse in Hv.
        rewrite Hs in Hv. discriminate. }
    destruct (String.eqb_spec cachedState "") as [->|Hc].
    { unfold validateServerAuthorizationCodeResponse in Hv.
      rewrite Hs in Hv. discriminate. }
    split; [reflexivity|]. split; [assumption|].
    rewrite validate_states_present in Hv by assumption.
    destruct (decodeURIComponent (orEmpty (AuthCode.state r))) as [d1|e] eqn:E1.
    2:{ simpl in Hv. unfold decodeURIComponent in E1.
        destruct (decodeFrom _ _ _); congruence. }
    destruct (decodeURIComponent cachedState) as [d2|e] eqn:E2.
    2:{ simpl in Hv. unfold decodeURIComponent in E2.
        destruct (decodeFrom _ _ _); congruence. }
    simpl in Hv. exists d1, d2. split; [reflexivity|]. split; [reflexivity|].
    destruct (String.eqb_spec d1 d2) as [->|Hne]; [|assumption].
    simpl in Hv. exfalso.
    destruct (carriesError r).
    + unfold classified in Hv.
      destruct (isInteractionRequiredError _ _ _); discriminate.
    + destruct (truthy (AuthCode.client_info r)); [|discriminate].
      destruct (buildClientInfo _ _); discriminate.
Qed.

(** C3, as amended: with both states present and decoded, a response that
    carries an error field fails with its classified error when the decoded
    states are equal, and with the state-mismatch error when they differ:
    the error fields are inspected after the comparison of the states. *)
Theorem error_fields_after_state_comparison r cachedState crypto d1 d2 :
  truthy (AuthCode.state r) = true ->
  cachedState <> "" ->
  decodeURIComponent (orEmpty (AuthCode.state r)) = Ok d1 ->
  decodeURIComponent cachedState = Ok d2 ->
  carriesError r = true ->
  validateServerAuthorizationCodeResponse r cachedState crypto
  = Throw (if decide (d1 = d2) then classified r else StateMismatchError).
Proof.
  intros Hs Hc E1 E2 He.
  rewrite validate_states_present by assumption.
  rewrite E1, E2. simpl. rewrite He.
  destruct (String.eqb_spec d1 d2); destruct (decide (d1 = d2));
    simpl; congruence.
Qed.

End AuthCodeValidation.

(** ** Assembly of the cache record *)

Section Assembly.
Context `{Collaborators}.
Implicit Types (this : ResponseHandler)
  (resp : Token.ServerAuthorizationTokenResponse) (authority : Authority).

(** C5, as amended: an ADFS authority always gets the generic account
    derived from the claims alone.  Any other authority with an empty
    [client_info] fails with the client-info-empty error when its protocol
    mode is ["AAD"] and gets the generic account when its protocol mode is
    another one; with a non-empty [client_info] its account is the one the
    account factory derives from the client info and the claims. *)
Theorem account_derivation_by_authority this resp (idToken : AuthToken)
    authority (oboAssertion : option string) :
  let generic :=
    createGenericAccount authority (homeAccountIdentifier this) idToken
      oboAssertion in
  (authorityType authority = Adfs ->
   generateAccountEntity this resp idToken authority oboAssertion = Ok generic)
  /\ (authorityType authority <> Adfs ->
      isEmpty (Token.client_info resp) = true ->
      protocolMode authority = "AAD" ->
      generateAccountEntity this resp idToken authority oboAssertion
      = Throw ClientInfoEmptyError)
  /\ (authorityType authority <> Adfs ->
      isEmpty (Token.client_info resp) = true ->
      protocolMode authority <> "AAD" ->
      generateAccountEntity this resp idToken authority oboAssertion
      = Ok generic)
  /\ (authorityType authority <> Adfs ->
      isEmpty (Token.client_info resp) = false ->
      generateAccountEntity this resp idToken authority oboAssertion
      = call (createAccount (orEmpty (Token.client_info resp))
                (homeAccountIdentifier this) authority idToken oboAssertion)).
Proof.
  intros generic. unfold generateAccountEntity.
  repeat split.
  - intros Ha. destruct (decide _); [reflexivity|contradiction].
  - intros Ha He Hp. destruct (decide _); [contradiction|].
    rewrite He, Hp. reflexivity.
  - intros Ha He Hp. destruct (decide _); [contradiction|].
    rewrite He. apply String.eqb_neq in Hp. rewrite Hp. simpl.
    unfold isEmpty in He. apply negb_true_iff in He. rewrite He. reflexivity.
  - intros Ha He. destruct (decide _); [contradiction|].
    rewrite He. simpl.
    unfold isEmpty in He. apply negb_false_iff in He. rewrite He. reflexivity.
Qed.

(** The access-token entity of an assembled record. *)
Lemma generateCacheRecord_accessToken this currentTime resp authority
    idTokenObj libraryState requestScopes oboAssertion cacheRecord :
  generateCacheRecord this currentTime resp authority idTokenObj libraryState
    requestScopes oboAssertion = Ok cacheRecord ->
  isEmpty (Token.access_token resp) = false ->
  exists entity,
    accessToken cacheRecord = Some entity /\
    AccessTokenEntity.secret entity = orEmpty (Token.access_token resp) /\
    AccessTokenEntity.target entity =
      ScopeSet.printScopes
        (if truthy (Token.scope resp)
         then ScopeSet.fromString (orEmpty (Token.scope resp))
         else ScopeSet.ofArray (default [] requestScopes)) /\
    AccessTokenEntity.expiresOn entity =
      jsAdd
        (match libraryState with
         | Some ls => ts ls
         | None => Finite currentTime
         end)
        (orZero (Token.expires_in resp)) /\
    AccessTokenEntity.extendedExpiresOn entity =
      jsAdd
        (jsAdd
           (match libraryState with
            | Some ls => ts ls
            | None => Finite currentTime
            end)
           (orZero (Token.expires_in resp)))
        (orZero (Token.ext_expires_in resp)).
Proof.
  unfold generateCacheRecord. intros Hg Hat.
  destruct (isEmpty (Some (generateEnvironmentFromAuthority authority)));
    [discriminate|].
  rewrite Hat in Hg. simpl in Hg.
  match type of Hg with
  | (mbind _ ?m = _) => destruct m as [identity|e]; simpl in Hg; [|discriminate]
  end.
  injection Hg as <-. simpl. eexists. split; [reflexivity|].
  simpl. repeat split; reflexivity.
Qed.

(** Without an access token in the response there is no such entity. *)
Lemma generateCacheRecord_no_accessToken this currentTime resp authority
    idTokenObj libraryState requestScopes oboAssertion cacheRecord :
  generateCacheRecord this currentTime resp authority idTokenObj libraryState
    requestScopes oboAssertion = Ok cacheRecord ->
  isEmpty (Token.access_token resp) = true ->
  accessToken cacheRecord = None.
Proof.
  unfold generateCacheRecord. intros Hg Hat.
  destruct (isEmpty (Some (generateEnvironmentFromAuthority authority)));
    [discriminate|].
  rewrite Hat in Hg. simpl in Hg.
  match type of Hg with
  | (mbind _ ?m = _) => destruct m as [identity|e]; simpl in Hg; [|discriminate]
  end.
  injection Hg as <-. reflexivity.
Qed.


End Assembly.

(** ** Building of the result *)

Section ResultBuilding.
Context `{Collaborators}.

(** C7: for a record whose access-token entity has the proof-of-possession
    token type, the building of the result fails with the
    resource-request-parameters-required error when the method or the URI
    of the resource request is missing; with both, the access token of the
    result is what the signer returns for the stored secret, the method and
    the URI, so that it is the stored secret only if the signer returns
    that. *)
Theorem pop_token_is_signed (crypto : ICrypto) (cacheRecord : CacheRecord)
    (fromTokenCache : bool) (idTokenObj : option AuthToken)
    (requestState : option RequestStateObject)
    (method uri : option string) (entity : AccessTokenEntity.t) :
  accessToken cacheRecord = Some entity ->
  AccessTokenEntity.tokenType entity = Some POP ->
  (truthy method = false \/ truthy uri = false ->
   generateAuthenticationResult crypto cacheRecord fromTokenCache idTokenObj
     requestState method uri
   = Throw ResourceRequestParametersRequiredError)
  /\ (truthy method = true -> truthy uri = true ->
      forall signed,
        signPopToken crypto (AccessTokenEntity.secret entity)
          (orEmpty method) (orEmpty uri) = Returns signed ->
        exists result,
          generateAuthenticationResult crypto cacheRecord fromTokenCache
            idTokenObj requestState method uri = Ok result /\
          AuthenticationResult.accessToken result = signed /\
          (signed <> AccessTokenEntity.secret entity ->
           AuthenticationResult.accessToken result
           <> AccessTokenEntity.secret entity)).
Proof.
  intros Hat Hpop. unfold generateAuthenticationResult. rewrite Hat.
  destruct (decide (AccessTokenEntity.tokenType entity = Some POP));
    [|contradiction].
  split.
  - intros Hmissing.
    assert (negb (truthy method) || negb (truthy uri) = true) as ->.
    { destruct Hmissing as [-> | ->]; simpl; [reflexivity|].
      apply orb_true_r. }
    reflexivity.
  - intros Hm Hu signed Hsign. rewrite Hm, Hu. simpl. rewrite Hsign. simpl.
    eexists. split; [reflexivity|]. simpl. split; [reflexivity|].
    intros Hne. exact Hne.
Qed.

(** C10: for a record without an access-token entity the building of the
    result succeeds, and the result has the empty string as access token,
    no scopes, [null] as expiration, no extended expiration and the empty
    string as token type. *)
Theorem result_without_access_token (crypto : ICrypto)
    (cacheRecord : CacheRecord) (fromTokenCache : bool)
    (idTokenObj : option AuthToken) (requestState : option RequestStateObject)
    (method uri : option string) :
  accessToken cacheRecord = None ->
  exists result,
    generateAuthenticationResult crypto cacheRecord fromTokenCache idTokenObj
      requestState method uri = Ok result /\
    AuthenticationResult.accessToken result = "" /\
    AuthenticationResult.scopes result = [] /\
    AuthenticationResult.expiresOn result = None /\
    AuthenticationResult.extExpiresOn result = None /\
    AuthenticationResult.tokenType result = "".
Proof.
  intros Hat. unfold generateAuthenticationResult. rewrite Hat. simpl.
  eexists. split; [reflexivity|]. simpl. repeat split; reflexivity.
Qed.

End ResultBuilding.

(** ** Scope strings *)

Lemma append_empty_l (s : string) : ("" ++ s)%string = s.
Proof. reflexivity. Qed.

Lemma append_String (c : ascii) (a b : string) :
  (String c a ++ b)%string = String c (a ++ b).
Proof. reflexivity. Qed.

Lemma append_empty_r (s : string) : (s ++ "")%string = s.
Proof.
  induction s as [|c s IH]; [reflexivity|].
  rewrite append_String. congruence.
Qed.

Lemma append_assoc (a b c : string) :
  ((a ++ b) ++ c)%string = (a ++ (b ++ c))%string.
Proof.
  induction a as [|x a IH]; [reflexivity|].
  rewrite !append_String. congruence.
Qed.

Lemma noSpace_append (a b : string) :
  noSpace (a ++ b) = noSpace a && noSpace b.
Proof.
  induction a as [|c a IH]; [reflexivity|].
  rewrite append_String. simpl. rewrite IH. apply andb_assoc.
Qed.

Lemma flush_scope (cur : string) :
  noSpace cur = true -> Forall (fun x => isScope x = true) (ScopeSet.flush cur).
Proof.
  intros Hn. unfold ScopeSet.flush.
  destruct (String.eqb cur "") eqn:E; constructor; [|constructor].
  unfold isScope. rewrite E, Hn. reflexivity.
Qed.

(** A word without a space is read into the current scope. *)
Lemma splitFrom_word (w cur rest : string) :
  noSpace w = true ->
  ScopeSet.splitFrom cur (w ++ rest) = ScopeSet.splitFrom (cur ++ w) rest.
Proof.
  revert cur. induction w as [|c w IH]; intros cur Hn.
  - now rewrite append_empty_l, append_empty_r.
  - simpl in Hn. apply andb_true_iff in Hn as [Hc Hw].
    apply negb_true_iff in Hc. rewrite append_String. simpl. rewrite Hc.
    rewrite IH by assumption. rewrite append_assoc. reflexivity.
Qed.

(** Every piece that the splitting yields is a scope. *)
Lemma splitFrom_scopes (s cur : string) :
  noSpace cur = true ->
  Forall (fun x => isScope x = true) (ScopeSet.splitFrom cur s).
Proof.
  revert cur. induction s as [|c s IH]; intros cur Hn; simpl.
  - now apply flush_scope.
  - destruct (Ascii.eqb c " ") eqn:Ec.
    + apply Forall_app. split; [now apply flush_scope|]. now apply IH.
    + apply IH. rewrite noSpace_append, Hn. simpl. now rewrite Ec.
Qed.

(** Splitting the printed form of a sequence of scopes gives it back. *)
Lemma fromString_join (l : list string) :
  Forall (fun x => isScope x = true) l ->
  ScopeSet.fromString (ScopeSet.join l) = l.
Proof.
  unfold ScopeSet.fromString.
  induction l as [|x l IH]; intros Hl; [reflexivity|].
  apply Forall_cons_iff in Hl as [Hx Hl].
  unfold isScope in Hx. apply andb_true_iff in Hx as [Hne Hns].
  apply negb_true_iff in Hne.
  destruct l as [|y l].
  - simpl. rewrite <- (append_empty_r x) at 1.
    rewrite splitFrom_word by assumption. rewrite append_empty_l. simpl.
    unfold ScopeSet.flush. now rewrite Hne.
  - change (ScopeSet.join (x :: y :: l))
      with (x ++ String " " (ScopeSet.join (y :: l)))%string.
    rewrite splitFrom_word by assumption. rewrite append_empty_l. simpl.
    unfold ScopeSet.flush at 1. rewrite Hne. simpl.
    f_equal. now apply IH.
Qed.

(** Printing the scopes of a scope string and splitting again changes
    nothing. *)
Lemma fromString_printScopes_fromString (s : string) :
  ScopeSet.fromString (ScopeSet.printScopes (ScopeSet.fromString s))
  = ScopeSet.fromString s.
Proof.
  unfold ScopeSet.printScopes, ScopeSet.asArray.
  apply fromString_join. unfold ScopeSet.fromString.
  now apply splitFrom_scopes.
Qed.

(** ** From the response to the result *)

Section RoundTrip.
Context `{Collaborators}.

Lemma parseIdToken_rawToken (this : ResponseHandler)
    (resp : Token.ServerAuthorizationTokenResponse)
    (cachedNonce : option string) (idTokenObj : option AuthToken) :
  parseIdToken this resp cachedNonce = Ok idTokenObj ->
  match idTokenObj with
  | Some tok => rawToken tok
  | None => ""
  end = orEmpty (Token.id_token resp).
Proof.
  unfold parseIdToken, newAuthToken. intros Hp.
  destruct (truthy (Token.id_token resp)) eqn:Et.
  - destruct (extractTokenClaims _ _) as [c|p]; simpl in Hp; [|discriminate].
    destruct (truthy cachedNonce).
    + destruct (decide _); [discriminate|].
      injection Hp as <-. reflexivity.
    + injection Hp as <-. reflexivity.
  - injection Hp as <-.
    destruct (Token.id_token resp) as [s|]; [|reflexivity].
    apply truthy_false_Some in Et. now subst.
Qed.

(** What [deriveRecord] returns besides the record. *)
Lemma deriveRecord_inv (this : ResponseHandler) (currentTime : Z)
    (resp : Token.ServerAuthorizationTokenResponse) (authority : Authority)
    (cachedNonce cachedState : option string)
    (requestScopes : option (list string)) (oboAssertion : option string)
    this' idTokenObj requestStateObj cacheRecord :
  deriveRecord this currentTime resp authority cachedNonce cachedState
    requestScopes oboAssertion
  = Ok (this', idTokenObj, requestStateObj, cacheRecord) ->
  parseIdToken this resp cachedNonce = Ok idTokenObj /\
  this' = setHomeAccountIdentifier this
            (generateHomeAccountId (orEmpty (Token.client_info resp))
               (authorityType authority) (cryptoObj this) idTokenObj) /\
  generateCacheRecord this' currentTime resp authority idTokenObj
    (libraryState <$> requestStateObj) requestScopes oboAssertion
  = Ok cacheRecord.
Proof.
  unfold deriveRecord. intros Hd.
  destruct (parseIdToken this resp cachedNonce) as [tok|e]; simpl in Hd;
    [|discriminate].
  match type of Hd with
  | (mbind _ ?m = _) => destruct m as [rs|e]; simpl in Hd; [|discriminate]
  end.
  match type of Hd with
  | (mbind _ ?m = _) => destruct m as [rec|e] eqn:Hg; simpl in Hd; [|discriminate]
  end.
  injection Hd as <- <- <- <-. auto.
Qed.

(** The scopes and the identity token of a result that was built. *)
Lemma generateAuthenticationResult_inv (crypto : ICrypto)
    (cacheRecord : CacheRecord) (fromTokenCache : bool)
    (idTokenObj : option AuthToken) (requestState : option RequestStateObject)
    (method uri : option string) (result : AuthenticationResult.t) :
  generateAuthenticationResult crypto cacheRecord fromTokenCache idTokenObj
    requestState method uri = Ok result ->
  AuthenticationResult.scopes result
  = match accessToken cacheRecord with
    | Some entity =>
        ScopeSet.asArray (ScopeSet.fromString (AccessTokenEntity.target entity))
    | None => []
    end
  /\ AuthenticationResult.idToken result
     = match idTokenObj with
       | Some tok => rawToken tok
       | None => ""
       end.
Proof.
  unfold generateAuthenticationResult. intros Hr.
  destruct (accessToken cacheRecord) as [entity|]; simpl in Hr.
  - destruct (decide (AccessTokenEntity.tokenType entity = Some POP)).
    + destruct (negb (truthy method) || negb (truthy uri)); [discriminate|].
      destruct (signPopToken _ _ _ _) as [signed|p]; simpl in Hr;
        [|discriminate].
      injection Hr as <-. split; reflexivity.
    + simpl in Hr. injection Hr as <-. split; reflexivity.
  - injection Hr as <-. split; reflexivity.
Qed.

(** C8, as amended: the record assembled from a response and the result
    built from that record give back the raw identity token of the response
    as the identity token of the result, the empty string when there is
    none.  For a response with a non-empty access token, the scopes of
    the result are the ordered sequence of the scopes in the scope string of
    the response when that string is not empty, and otherwise of the scopes
    in the space-joined scopes of the request, which are the scopes of the
    request themselves when each of them is a non-empty string without a
    space.  For a response without an access token the scopes of the result
    are empty. *)
Theorem scopes_and_id_token_round_trip (this : ResponseHandler)
    (currentTime : Z) (resp : Token.ServerAuthorizationTokenResponse)
    (authority : Authority) (cachedNonce cachedState : option string)
    (requestScopes : option (list string)) (oboAssertion : option string)
    (method uri : option string)
    this' idTokenObj requestStateObj cacheRecord result :
  deriveRecord this currentTime resp authority cachedNonce cachedState
    requestScopes oboAssertion
  = Ok (this', idTokenObj, requestStateObj, cacheRecord) ->
  generateAuthenticationResult (cryptoObj this') cacheRecord false idTokenObj
    requestStateObj method uri = Ok result ->
  AuthenticationResult.idToken result = orEmpty (Token.id_token resp)
  /\ (isEmpty (Token.access_token resp) = false ->
      AuthenticationResult.scopes result
      = (if truthy (Token.scope resp)
         then ScopeSet.fromString (orEmpty (Token.scope resp))
         else ScopeSet.fromString (ScopeSet.join (default [] requestScopes)))
      /\ (truthy (Token.scope resp) = false ->
          Forall (fun x => isScope x = true) (default [] requestScopes) ->
          AuthenticationResult.scopes result = default [] requestScopes))
  /\ (isEmpty (Token.access_token resp) = true ->
      AuthenticationResult.scopes result = []).
Proof.
  intros Hd Hr.
  apply deriveRecord_inv in Hd as (Hp & _ & Hg).
  apply generateAuthenticationResult_inv in Hr as [Hscopes Hid].
  split; [|split].
  - rewrite Hid.
    exact (parseIdToken_rawToken this resp cachedNonce idTokenObj Hp).
  - intros Hat.
    destruct (generateCacheRecord_accessToken _ _ _ _ _ _ _ _ _ Hg Hat)
      as (entity & He & _ & Htarget & _).
    rewrite He in Hscopes. rewrite Hscopes.
    assert (ScopeSet.asArray
              (ScopeSet.fromString (AccessTokenEntity.target entity))
            = if truthy (Token.scope resp)
              then ScopeSet.fromString (orEmpty (Token.scope resp))
              else ScopeSet.fromString
                     (ScopeSet.join (default [] requestScopes)))
      as Hs.
    { rewrite Htarget. unfold ScopeSet.asArray at 1.
      destruct (truthy (Token.scope resp)).
      - apply fromString_printScopes_fromString.
      - reflexivity. }
    split; [exact Hs|].
    intros Hsc Hwf. rewrite Hs, Hsc. now apply fromString_join.
  - intros Hat.
    rewrite (generateCacheRecord_no_accessToken _ _ _ _ _ _ _ _ _ Hg Hat)
      in Hscopes.
    exact Hscopes.
Qed.

End RoundTrip.

(** ** The commit *)

Section Commit.
Context `{Collaborators}.

Ltac unfold_commit :=
  cbv [tryFinally tryBlock finallyBlock liftR setCacheContext getCacheContext
       note perform inspect mbind M_bind mret M_ret call]; simpl.

Ltac split_reply :=
  match goal with
  | |- context [beforeCacheAccess ?p ?c ?s] =>
      destruct (beforeCacheAccess p c s) as [[[]|?] ?]
  | |- context [afterCacheAccess ?p ?c ?s] =>
      destruct (afterCacheAccess p c s) as [[[]|?] ?]
  | |- context [saveCacheRecord ?m ?s ?r] =>
      destruct (saveCacheRecord m s r) as [[[]|?] ?]
  | |- context [getAccount ?m ?s ?k] =>
      destruct (getAccount m s k)
  end; simpl.

Ltac pick_between :=
  let try_with l :=
    (exists l; split;
     [simpl; tauto | rewrite ?app_nil_r, <- ?app_assoc; reflexivity]) in
  first [ try_with (@nil CacheEvent)
        | try_with [EvGetAccount]
        | try_with [EvSaveCacheRecord]
        | try_with [EvGetAccount; EvSaveCacheRecord] ].

(** The calls of a commit: at most a lookup and then at most a write,
    between the two hooks when persistence is enabled. *)
Lemma commit_journal (this : ResponseHandler) (cacheRecord : CacheRecord)
    (refresh : bool) (w : World) :
  exists between,
    In between [[]; [EvGetAccount]; [EvSaveCacheRecord];
                [EvGetAccount; EvSaveCacheRecord]] /\
    journal (world (snd (tryFinally (tryBlock this cacheRecord refresh)
                           (finallyBlock this)
                           {| world := w; cacheContext := None |})))
    = (journal w ++ bracket this between)%list.
Proof.
  destruct w as [st j]. unfold bracket.
  unfold_commit.
  destruct (persistence this) as [[plugin cache]|];
    destruct refresh, (account cacheRecord) as [entity|]; simpl;
    repeat split_reply; pick_between.
Qed.

(** A commit throws nothing but what a collaborator raised. *)
Lemma commit_throws (this : ResponseHandler) (cacheRecord : CacheRecord)
    (refresh : bool) (f : Frame) (e : AuthError) :
  fst (tryFinally (tryBlock this cacheRecord refresh) (finallyBlock this) f)
  = Throw e ->
  exists payload, e = Thrown payload.
Proof.
  destruct f as [[st j] ctx].
  unfold_commit.
  destruct (persistence this) as [[plugin cache]|];
    destruct refresh, (account cacheRecord) as [entity|]; simpl;
    repeat split_reply; 
    try destruct ctx; simpl; repeat split_reply;
    intros Hr; try discriminate; injection Hr as <-; eauto.
Qed.

(** The pipeline when the derivation of the record succeeded. *)
Lemma run_handle_derived (this : ResponseHandler) (currentTime : Z)
    (resp : Token.ServerAuthorizationTokenResponse) (authority : Authority)
    (method uri cachedNonce cachedState : option string)
    (requestScopes : option (list string)) (oboAssertion : option string)
    (refresh : bool) (w : World)
    this' idTokenObj requestStateObj cacheRecord :
  deriveRecord this currentTime resp authority cachedNonce cachedState
    requestScopes oboAssertion
  = Ok (this', idTokenObj, requestStateObj, cacheRecord) ->
  run (handleServerTokenResponse this currentTime resp authority method uri
         cachedNonce cachedState requestScopes oboAssertion refresh) w
  = let (r, f) :=
      tryFinally (tryBlock this' cacheRecord refresh) (finallyBlock this')
        {| world := w; cacheContext := None |} in
    (match r with
     | Ok ReturnNull => Ok None
     | Ok Normal =>
         Some <$> generateAuthenticationResult (cryptoObj this') cacheRecord
                    false idTokenObj requestStateObj method uri
     | Throw e => Throw e
     end, world f).
Proof.
  intros Hd. unfold run, handleServerTokenResponse.
  cbv [liftR mbind M_bind setCacheContext mret M_ret]. rewrite Hd. simpl.
  destruct (tryFinally _ _ _) as [[[|]|e] f]; reflexivity.
Qed.

(** The pipeline when the derivation of the record failed. *)
Lemma run_handle_underived (this : ResponseHandler) (currentTime : Z)
    (resp : Token.ServerAuthorizationTokenResponse) (authority : Authority)
    (method uri cachedNonce cachedState : option string)
    (requestScopes : option (list string)) (oboAssertion : option string)
    (refresh : bool) (w : World) (e : AuthError) :
  deriveRecord this currentTime resp authority cachedNonce cachedState
    requestScopes oboAssertion = Throw e ->
  run (handleServerTokenResponse this currentTime resp authority method uri
         cachedNonce cachedState requestScopes oboAssertion refresh) w
  = (Throw e, w).
Proof.
  intros Hd. unfold run, handleServerTokenResponse.
  cbv [liftR mbind M_bind]. rewrite Hd. reflexivity.
Qed.

(** C1: in a commit that is part of a silent refresh and whose record
    carries an account, once the before-access hook has returned: if the
    lookup of the key of that account finds no account, the store is called
    for that lookup only, so that nothing is written, and the pipeline
    returns [null] when the after-access hook returns; if the lookup finds
    an account, the write of the record is the next call, and when the
    write and the after-access hook return the pipeline returns what the
    building of the result from that record gives. *)
Theorem refresh_race_guard (this : ResponseHandler) (currentTime : Z)
    (resp : Token.ServerAuthorizationTokenResponse) (authority : Authority)
    (method uri cachedNonce cachedState : option string)
    (requestScopes : option (list string)) (oboAssertion : option string)
    (w : World) this' idTokenObj requestStateObj cacheRecord
    (entity : AccountEntity) (st1 : Storage) :
  deriveRecord this currentTime resp authority cachedNonce cachedState
    requestScopes oboAssertion
  = Ok (this', idTokenObj, requestStateObj, cacheRecord) ->
  account cacheRecord = Some entity ->
  beforeAccess this' (storage w) = (Returns tt, st1) ->
  let pipeline :=
    run (handleServerTokenResponse this currentTime resp authority method uri
           cachedNonce cachedState requestScopes oboAssertion true) w in
  (getAccount (cacheStorage this') st1 (generateAccountKey entity) = None ->
   journal (snd pipeline) = (journal w ++ bracket this' [EvGetAccount])%list
   /\ forall st2,
        afterAccess this' st1 = (Returns tt, st2) ->
        pipeline
        = (Ok None,
           {| storage := st2;
              journal := (journal w ++ bracket this' [EvGetAccount])%list |}))
  /\ (forall found,
        getAccount (cacheStorage this') st1 (generateAccountKey entity)
        = Some found ->
        journal (snd pipeline)
        = (journal w ++ bracket this' [EvGetAccount; EvSaveCacheRecord])%list
        /\ forall st2 st3,
             saveCacheRecord (cacheStorage this') st1 cacheRecord
             = (Returns tt, st2) ->
             afterAccess this' st2 = (Returns tt, st3) ->
             pipeline
             = (Some <$> generateAuthenticationResult (cryptoObj this')
                           cacheRecord false idTokenObj requestStateObj
                           method uri,
                {| storage := st3;
                   journal :=
                     (journal w
                      ++ bracket this' [EvGetAccount; EvSaveCacheRecord])%list
                |})).
Proof.
  intros Hd Hacc Hb pipeline. subst pipeline.
  rewrite (run_handle_derived _ _ _ _ _ _ _ _ _ _ _ _ _ _ _ _ Hd).
  destruct w as [st j]. simpl in Hb.
  unfold beforeAccess in Hb. unfold afterAccess, bracket.
  split.
  - intros Hget. revert Hb.
    unfold_commit. rewrite Hacc.
    destruct (persistence this') as [[plugin cache]|]; simpl.
    + intros ->. simpl. rewrite Hget. simpl. split.
      * split_reply; rewrite <- !app_assoc; reflexivity.
      * intros st2 ->. simpl. rewrite <- !app_assoc. reflexivity.
    + intros [= <-]. rewrite Hget. simpl. split; [reflexivity|].
      intros st2 [= <-]. reflexivity.
  - intros found Hget. revert Hb.
    unfold_commit. rewrite Hacc.
    destruct (persistence this') as [[plugin cache]|]; simpl.
    + intros ->. simpl. rewrite Hget. simpl. split.
      * repeat split_reply; rewrite <- !app_assoc; reflexivity.
      * intros st2 st3 Hsave. rewrite Hsave. simpl. intros ->. simpl.
        rewrite <- !app_assoc. reflexivity.
    + intros [= <-]. rewrite Hget. simpl. split.
      * split_reply; rewrite <- !app_assoc; reflexivity.
      * intros st2 st3 Hsave. rewrite Hsave. simpl.
        intros [= <-]. rewrite <- !app_assoc. reflexivity.
Qed.

(** C2: in every run of the pipeline that reaches the commit with
    persistence enabled, the before-access hook is the first call and the
    after-access hook is called once, as the last call, on the storage that
    the commit left, on every way out: when the before-access hook raised,
    on the storage that hook left; when the refresh guard found no account,
    after the lookup, on the storage the before-access hook left; and when
    the write was attempted, after the write, on the storage the write left,
    whether the write returned or raised.  The world of the run is the
    storage that the after-access hook leaves, with these calls. *)
Theorem after_access_exactly_once (this : ResponseHandler) (currentTime : Z)
    (resp : Token.ServerAuthorizationTokenResponse) (authority : Authority)
    (method uri cachedNonce cachedState : option string)
    (requestScopes : option (list string)) (oboAssertion : option string)
    (refresh : bool) (w : World) this' idTokenObj requestStateObj cacheRecord
    (plugin : ICachePlugin) (cache : ISerializableTokenCache) :
  deriveRecord this currentTime resp authority cachedNonce cachedState
    requestScopes oboAssertion
  = Ok (this', idTokenObj, requestStateObj, cacheRecord) ->
  persistence this' = Some (plugin, cache) ->
  let ctx := {| tokenCache := cache; hasChanged := true |} in
  let pipeline :=
    run (handleServerTokenResponse this currentTime resp authority method uri
           cachedNonce cachedState requestScopes oboAssertion refresh) w in
  let before := beforeCacheAccess plugin ctx (storage w) in
  let written :=
    saveCacheRecord (cacheStorage this') (snd before) cacheRecord in
  let closed (st : Storage) (between : list CacheEvent) : World :=
    {| storage := snd (afterCacheAccess plugin ctx st);
       journal :=
         (journal w
          ++ EvBeforeCacheAccess :: between ++ [EvAfterCacheAccess])%list |} in
  (forall payload,
     fst before = Raises payload -> snd pipeline = closed (snd before) [])
  /\ (fst before = Returns tt ->
      (forall entity,
         refresh = true -> account cacheRecord = Some entity ->
         getAccount (cacheStorage this') (snd before)
           (generateAccountKey entity) = None ->
         snd pipeline = closed (snd before) [EvGetAccount])
      /\ (forall entity found,
            refresh = true -> account cacheRecord = Some entity ->
            getAccount (cacheStorage this') (snd before)
              (generateAccountKey entity) = Some found ->
            snd pipeline
            = closed (snd written) [EvGetAccount; EvSaveCacheRecord])
      /\ (refresh = false \/ account cacheRecord = None ->
          snd pipeline = closed (snd written) [EvSaveCacheRecord])).
Proof.
  intros Hd Hp ctx pipeline before written closed.
  subst pipeline before written closed ctx.
  rewrite (run_handle_derived _ _ _ _ _ _ _ _ _ _ _ _ _ _ _ _ Hd).
  destruct w as [st j]. unfold_commit. rewrite Hp. simpl.
  destruct (beforeCacheAccess plugin _ st) as [[[]|payload] st1]; simpl.
  - split; [intros ? [=]|]. intros _. split; [|split].
    + intros entity Hr Ha Hget. subst refresh. rewrite Ha. simpl.
      rewrite Hget. simpl.
      destruct (afterCacheAccess plugin _ st1) as [[[]|?] ?]; simpl;
        rewrite <- !app_assoc; reflexivity.
    + intros entity found Hr Ha Hget. subst refresh. rewrite Ha. simpl.
      rewrite Hget. simpl.
      destruct (saveCacheRecord _ st1 cacheRecord) as [[[]|?] st2]; simpl;
        destruct (afterCacheAccess plugin _ st2) as [[[]|?] ?]; simpl;
        rewrite <- !app_assoc; reflexivity.
    + intros Hplain.
      assert (match refresh, account cacheRecord with
              | true, Some _ => False
              | _, _ => True
              end) as Hcase.
      { destruct Hplain as [->| ->]; [exact I|]. now destruct refresh. }
      destruct refresh, (account cacheRecord); try contradiction; simpl;
        destruct (saveCacheRecord _ st1 cacheRecord) as [[[]|?] st2]; simpl;
        destruct (afterCacheAccess plugin _ st2) as [[[]|?] ?]; simpl;
        rewrite <- !app_assoc; reflexivity.
  - split; [|intros [=]]. intros ? _.
    destruct (afterCacheAccess plugin _ st1) as [[[]|?] ?]; simpl;
      rewrite <- !app_assoc; reflexivity.
Qed.

End Commit.

(** ** The nonce of the identity token *)

Section Nonce.
Context `{Collaborators}.

(** The nonce check, for a response whose identity token parses. *)
Lemma parseIdToken_parsed (this : ResponseHandler)
    (resp : Token.ServerAuthorizationTokenResponse)
    (cachedNonce : option string) (c : TokenClaims) :
  truthy (Token.id_token resp) = true ->
  extractTokenClaims (orEmpty (Token.id_token resp)) (cryptoObj this)
  = Returns c ->
  parseIdToken this resp cachedNonce
  = if truthy cachedNonce && bool_decide (nonce c <> cachedNonce)
    then Throw NonceMismatchError
    else Ok (Some {| rawToken := orEmpty (Token.id_token resp);
                     claims := c |}).
Proof.
  intros Ht Hc. unfold parseIdToken, newAuthToken. rewrite Ht, Hc. simpl.
  destruct (truthy cachedNonce); [|reflexivity]. simpl.
  destruct (decide (nonce c <> cachedNonce)) as [Hn|Hn].
  - now rewrite bool_decide_eq_true_2.
  - now rewrite bool_decide_eq_false_2.
Qed.

(** The errors of the assembly of the record. *)
Lemma generateCacheRecord_throws (this : ResponseHandler) (currentTime : Z)
    (resp : Token.ServerAuthorizationTokenResponse) (authority : Authority)
    (idTokenObj : option AuthToken) (libraryState : option LibraryStateObject)
    (requestScopes : option (list string)) (oboAssertion : option string)
    (e : AuthError) :
  generateCacheRecord this currentTime resp authority idTokenObj libraryState
    requestScopes oboAssertion = Throw e ->
  e = InvalidCacheEnvironmentError \/ e = ClientInfoEmptyError
  \/ exists payload, e = Thrown payload.
Proof.
  unfold generateCacheRecord.
  destruct (isEmpty (Some (generateEnvironmentFromAuthority authority))).
  { intros [= <-]. auto. }
  destruct idTokenObj as [tok|]; simpl; [|discriminate].
  destruct (negb (isEmpty (Token.id_token resp))); simpl; [|discriminate].
  unfold generateAccountEntity.
  destruct (decide _); simpl; [discriminate|].
  destruct (isEmpty (Token.client_info resp) && _); simpl.
  { intros [= <-]. auto. }
  destruct (truthy (Token.client_info resp)); simpl; [|discriminate].
  destruct (createAccount _ _ _ _ _) as [a|payload]; simpl; [discriminate|].
  intros [= <-]. eauto.
Qed.

(** The errors of the building of the result. *)
Lemma generateAuthenticationResult_throws (crypto : ICrypto)
    (cacheRecord : CacheRecord) (fromTokenCache : bool)
    (idTokenObj : option AuthToken) (requestState : option RequestStateObject)
    (method uri : option string) (e : AuthError) :
  generateAuthenticationResult crypto cacheRecord fromTokenCache idTokenObj
    requestState method uri = Throw e ->
  e = ResourceRequestParametersRequiredError
  \/ exists payload, e = Thrown payload.
Proof.
  unfold generateAuthenticationResult.
  destruct (accessToken cacheRecord) as [entity|]; simpl; [|discriminate].
  destruct (decide _); simpl; [|discriminate].
  destruct (negb (truthy method) || negb (truthy uri)); simpl.
  { intros [= <-]. auto. }
  destruct (signPopToken _ _ _ _) as [signed|payload]; simpl; [discriminate|].
  intros [= <-]. eauto.
Qed.

(** The pipeline raises the nonce-mismatch error nowhere but in the nonce
    check. *)
Lemma nonce_mismatch_source (this : ResponseHandler) (currentTime : Z)
    (resp : Token.ServerAuthorizationTokenResponse) (authority : Authority)
    (method uri cachedNonce cachedState : option string)
    (requestScopes : option (list string)) (oboAssertion : option string)
    (refresh : bool) (w : World) :
  fst (run (handleServerTokenResponse this currentTime resp authority method
              uri cachedNonce cachedState requestScopes oboAssertion refresh)
         w) = Throw NonceMismatchError ->
  parseIdToken this resp cachedNonce = Throw NonceMismatchError.
Proof.
  destruct (deriveRecord this currentTime resp authority cachedNonce
              cachedState requestScopes oboAssertion)
    as [[[[this' idTokenObj] requestStateObj] cacheRecord]|e] eqn:Hd.
  - rewrite (run_handle_derived _ _ _ _ _ _ _ _ _ _ _ _ _ _ _ _ Hd).
    destruct (tryFinally _ _ _) as [[[|]|e] f] eqn:Hc; simpl.
    + destruct (generateAuthenticationResult _ _ _ _ _ _ _) as [r|e] eqn:Hr;
        simpl; [discriminate|].
      intros [= ->].
      apply generateAuthenticationResult_throws in Hr as [Hr|[p Hr]];
        discriminate.
    + discriminate.
    + intros [= ->].
      pose proof (commit_throws this' cacheRecord refresh
                    {| world := w; cacheContext := None |}
                    NonceMismatchError) as Ht.
      rewrite Hc in Ht. destruct (Ht eq_refl) as [p Hp]. discriminate.
  - rewrite (run_handle_underived _ _ _ _ _ _ _ _ _ _ _ _ _ Hd). simpl.
    intros [= ->]. revert Hd. unfold deriveRecord.
    destruct (parseIdToken this resp cachedNonce) as [tok|e]; simpl.
    + destruct (truthy cachedState); simpl.
      * destruct (parseRequestState _ _) as [rs|p]; simpl; [|discriminate].
        match goal with
        | |- context [generateCacheRecord ?a ?b ?c ?d ?e ?f ?g ?h] =>
            destruct (generateCacheRecord a b c d e f g h) as [rec|e'] eqn:Hg
        end; simpl; [discriminate|].
        intros [= ->].
        apply generateCacheRecord_throws in Hg as [Hg|[Hg|[p Hg]]];
          discriminate.
      * match goal with
        | |- context [generateCacheRecord ?a ?b ?c ?d ?e ?f ?g ?h] =>
            destruct (generateCacheRecord a b c d e f g h) as [rec|e'] eqn:Hg
        end; simpl; [discriminate|].
        intros [= ->].
        apply generateCacheRecord_throws in Hg as [Hg|[Hg|[p Hg]]];
          discriminate.
    + intros [= ->]. reflexivity.
Qed.

(** C4, as amended: for a token response whose identity token parses, the
    pipeline fails with the nonce-mismatch error exactly when a non-empty
    cached nonce was supplied and the nonce claim of the token is not that
    nonce, be it another nonce or no nonce at all; without a cached nonce,
    or with an empty one, there is no nonce error. *)
Theorem nonce_mismatch_exactly (this : ResponseHandler) (currentTime : Z)
    (resp : Token.ServerAuthorizationTokenResponse) (authority : Authority)
    (method uri cachedNonce cachedState : option string)
    (requestScopes : option (list string)) (oboAssertion : option string)
    (refresh : bool) (w : World) (c : TokenClaims) :
  truthy (Token.id_token resp) = true ->
  extractTokenClaims (orEmpty (Token.id_token resp)) (cryptoObj this)
  = Returns c ->
  fst (run (handleServerTokenResponse this currentTime resp authority method
              uri cachedNonce cachedState requestScopes oboAssertion refresh)
         w) = Throw NonceMismatchError
  <-> truthy cachedNonce = true /\ nonce c <> cachedNonce.
Proof.
  intros Ht Hc. split.
  - intros Hr. apply nonce_mismatch_source in Hr.
    rewrite (parseIdToken_parsed this resp cachedNonce c Ht Hc) in Hr.
    destruct (truthy cachedNonce); simpl in Hr; [|discriminate].
    split; [reflexivity|].
    destruct (bool_decide (nonce c <> cachedNonce)) eqn:Hb; [|discriminate].
    now apply bool_decide_eq_true_1 in Hb.
  - intros [Hn Hne].
    rewrite (run_handle_underived _ _ _ _ _ _ _ _ _ _ _ _ NonceMismatchError);
      [reflexivity|].
    unfold deriveRecord.
    rewrite (parseIdToken_parsed this resp cachedNonce c Ht Hc), Hn.
    now rewrite bool_decide_eq_true_2.
Qed.

End Nonce.

(** * Further properties of the validation *)

Lemma decodeFrom_noPercent (s : string) :
  noPercent s = true -> decodeFrom 0 [] s = Some s.
Proof.
  induction s as [|c s IH]; intros Hn; [reflexivity|].
  simpl in Hn. apply andb_true_iff in Hn as [Hc Hs].
  apply negb_true_iff in Hc. simpl. rewrite Hc, (IH Hs). reflexivity.
Qed.

Lemma decodeURIComponent_throws (s : string) (e : AuthError) :
  decodeURIComponent s = Throw e -> e = URIError.
Proof.
  unfold decodeURIComponent. destruct (decodeFrom 0 [] s); congruence.
Qed.

Section ValidationMore.
Context `{Collaborators}.
Implicit Types (r : AuthCode.ServerAuthorizationCodeResponse)
  (cachedState : string) (crypto : ICrypto)
  (resp : Token.ServerAuthorizationTokenResponse).

(** X1: the validation of a token response succeeds exactly when the
    response carries none of [error], [error_description] and [suberror];
    otherwise it throws the interaction-required error with the three
    fields as they are when the classifier accepts them, and else the
    server error with the error code as it is, the formatted message and no
    sub-error. *)
Theorem token_response_valid_iff_no_error resp :
  (validateTokenResponse resp = Ok tt <-> tokenCarriesError resp = false)
  /\ (tokenCarriesError resp = true ->
      validateTokenResponse resp
      = Throw (if isInteractionRequiredError (Token.error resp)
                    (Token.error_description resp) (Token.suberror resp)
               then InteractionRequiredAuthError (Token.error resp)
                      (Token.error_description resp) (Token.suberror resp)
               else ServerError (Token.error resp)
                      (Some (serverErrorMessage resp)) None)).
Proof.
  unfold validateTokenResponse, tokenCarriesError, serverErrorMessage.
  destruct (truthy (Token.error resp) || truthy (Token.error_description resp)
            || truthy (Token.suberror resp)).
  - split.
    + split; [|discriminate].
      destruct (isInteractionRequiredError _ _ _); discriminate.
    + intros _. destruct (isInteractionRequiredError _ _ _); reflexivity.
  - split; [|discriminate]. split; reflexivity.
Qed.

(** X2: the validation of an authorization-code response succeeds exactly
    when both states are present, both decode to one and the same string,
    the response carries no error field, and its client info, when there is
    one, is decoded by the client-info parser. *)
Theorem auth_code_response_valid_iff r cachedState crypto :
  validateServerAuthorizationCodeResponse r cachedState crypto = Ok tt
  <-> truthy (AuthCode.state r) = true /\ cachedState <> "" /\
      (exists d, decodeURIComponent (orEmpty (AuthCode.state r)) = Ok d /\
                 decodeURIComponent cachedState = Ok d) /\
      carriesError r = false /\
      (truthy (AuthCode.client_info r) = true ->
       exists info,
         buildClientInfo (orEmpty (AuthCode.client_info r)) crypto
         = Returns info).
Proof.
  split.
  - intros Hv.
    destruct (truthy (AuthCode.state r)) eqn:Hs.
    2:{ unfold validateServerAuthorizationCodeResponse in Hv.
        rewrite Hs in Hv. discriminate. }
    destruct (String.eqb_spec cachedState "") as [->|Hc].
    { unfold validateServerAuthorizationCodeResponse in Hv.
      rewrite Hs in Hv. discriminate. }
    rewrite validate_states_present in Hv by assumption.
    destruct (decodeURIComponent (orEmpty (AuthCode.state r))) as [d1|e];
      [|discriminate].
    destruct (decodeURIComponent cachedState) as [d2|e]; [|discriminate].
    simpl in Hv.
    destruct (String.eqb_spec d1 d2) as [->|Hne]; [|discriminate].
    simpl in Hv.
    destruct (carriesError r); [discriminate|].
    repeat split; try assumption.
    + exists d2. split; reflexivity.
    + intros Hci. rewrite Hci in Hv.
      destruct (buildClientInfo _ _) as [info|p]; [|discriminate].
      exists info. reflexivity.
  - intros (Hs & Hc & (d & Hd1 & Hd2) & He & Hci).
    rewrite validate_states_present by assumption.
    rewrite Hd1, Hd2. simpl. rewrite String.eqb_refl. simpl. rewrite He.
    destruct (truthy (AuthCode.client_info r)); [|reflexivity].
    destruct (Hci eq_refl) as [info ->]. reflexivity.
Qed.

(** X3: with both states present, an escape that [decodeURIComponent]
    rejects in one of them makes the validation throw the [URIError] of
    the built-in, whatever else the response carries. *)
Theorem malformed_state_is_uri_error r cachedState crypto (e : AuthError) :
  truthy (AuthCode.state r) = true ->
  cachedState <> "" ->
  decodeURIComponent (orEmpty (AuthCode.state r)) = Throw e
  \/ decodeURIComponent cachedState = Throw e ->
  validateServerAuthorizationCodeResponse r cachedState crypto
  = Throw URIError.
Proof.
  intros Hs Hc Hbad.
  rewrite validate_states_present by assumption.
  destruct (decodeURIComponent (orEmpty (AuthCode.state r))) as [d1|e1] eqn:E1.
  - destruct Hbad as [Hbad|Hbad]; [discriminate|].
    rewrite Hbad. simpl. now rewrite (decodeURIComponent_throws _ _ Hbad).
  - simpl. now rewrite (decodeURIComponent_throws _ _ E1).
Qed.

(** X4: two states without a percent sign are compared as they are: the
    validation throws the state-mismatch error exactly when they differ. *)
Theorem plain_states_compared_verbatim r cachedState crypto (s : string) :
  AuthCode.state r = Some s ->
  s <> "" -> cachedState <> "" ->
  noPercent s = true -> noPercent cachedState = true ->
  validateServerAuthorizationCodeResponse r cachedState crypto
  = Throw StateMismatchError
  <-> s <> cachedState.
Proof.
  intros Hst Hs Hc Hns Hnc.
  assert (truthy (AuthCode.state r) = true) as Ht.
  { rewrite Hst. now apply truthy_Some. }
  rewrite validate_states_present by assumption.
  rewrite Hst. simpl. unfold decodeURIComponent.
  rewrite (decodeFrom_noPercent s Hns), (decodeFrom_noPercent _ Hnc). simpl.
  destruct (String.eqb_spec s cachedState) as [->|Hne]; simpl.
  - split; [|congruence]. intros Hv. exfalso.
    destruct (carriesError r).
    + unfold classified in Hv.
      destruct (isInteractionRequiredError _ _ _); discriminate.
    + destruct (truthy (AuthCode.client_info r)); [|discriminate].
      destruct (buildClientInfo _ _); discriminate.
  - split; [intros _; assumption | reflexivity].
Qed.

End ValidationMore.

(** * Further properties of the assembly and of the result *)

Section AssemblyMore.
Context `{Collaborators}.
Implicit Types (this : ResponseHandler)
  (resp : Token.ServerAuthorizationTokenResponse) (authority : Authority).

(** The fields of an assembled record. *)
Lemma generateCacheRecord_fields this currentTime resp authority idTokenObj
    libraryState requestScopes oboAssertion cacheRecord :
  generateCacheRecord this currentTime resp authority idTokenObj libraryState
    requestScopes oboAssertion = Ok cacheRecord ->
  let env := generateEnvironmentFromAuthority authority in
  idToken cacheRecord
  = (if isEmpty (Token.id_token resp) then None
     else (fun tok =>
             IdTokenEntity.createIdTokenEntity (homeAccountIdentifier this)
               env (orEmpty (Token.id_token resp)) (clientId this)
               (orEmpty (tid (claims tok))) oboAssertion) <$> idTokenObj)
  /\ (is_Some (account cacheRecord) <-> is_Some (idToken cacheRecord))
  /\ (exists expires extended,
        accessToken cacheRecord
        = if isEmpty (Token.access_token resp) then None
          else Some (AccessTokenEntity.createAccessTokenEntity
                       (homeAccountIdentifier this) env
                       (orEmpty (Token.access_token resp)) (clientId this)
                       (match idTokenObj with
                        | Some tok => orEmpty (tid (claims tok))
                        | None => tenant authority
                        end)
                       (ScopeSet.printScopes
                          (if truthy (Token.scope resp)
                           then ScopeSet.fromString
                                  (orEmpty (Token.scope resp))
                           else ScopeSet.ofArray (default [] requestScopes)))
                       expires extended (Token.token_type resp)
                       oboAssertion))
  /\ refreshToken cacheRecord
     = (if isEmpty (Token.refresh_token resp) then None
        else Some (RefreshTokenEntity.createRefreshTokenEntity
                     (homeAccountIdentifier this) env
                     (orEmpty (Token.refresh_token resp)) (clientId this)
                     (Token.foci resp) oboAssertion))
  /\ appMetadata cacheRecord
     = (if isEmpty (Token.foci resp) then None
        else Some (AppMetadataEntity.createAppMetadataEntity (clientId this)
                     env (Token.foci resp))).
Proof.
  intros Hg. cbv zeta. unfold generateCacheRecord in Hg.
  destruct (isEmpty (Some (generateEnvironmentFromAuthority authority)));
    [discriminate|].
  assert (forall (A : Type) (b : bool) (x : A),
            (if negb b then Some x else None) = (if b then None else Some x))
    as Hif by (intros A [] x; reflexivity).
  destruct idTokenObj as [tok|]; simpl in Hg.
  - destruct (isEmpty (Token.id_token resp)); simpl in Hg.
    + injection Hg as <-. simpl.
      repeat split; try solve [intros [? [=]]]; try solve [apply Hif].
      do 2 eexists. apply Hif.
    + destruct (generateAccountEntity _ _ _ _ _) as [acc|e]; simpl in Hg;
        [|discriminate].
      injection Hg as <-. simpl.
      repeat split; try solve [intros _; eauto]; try solve [apply Hif].
      do 2 eexists. apply Hif.
  - injection Hg as <-. simpl.
    repeat split; try solve [intros [? [=]]]; try solve [apply Hif].
    + now destruct (isEmpty (Token.id_token resp)).
    + do 2 eexists. apply Hif.
Qed.

(** X5: in an assembled record an entity is there exactly when its raw
    field of the response is not empty (and, for the identity-token entity,
    the identity token was parsed); the account is there exactly when the
    identity-token entity is; and the secret of an entity is that raw
    field, hence never empty. *)
Theorem entities_follow_raw_fields this currentTime resp authority idTokenObj
    (libraryState : option LibraryStateObject) requestScopes oboAssertion
    cacheRecord :
  generateCacheRecord this currentTime resp authority idTokenObj libraryState
    requestScopes oboAssertion = Ok cacheRecord ->
  (is_Some (idToken cacheRecord)
   <-> isEmpty (Token.id_token resp) = false /\ is_Some idTokenObj)
  /\ (is_Some (account cacheRecord) <-> is_Some (idToken cacheRecord))
  /\ (is_Some (accessToken cacheRecord)
      <-> isEmpty (Token.access_token resp) = false)
  /\ (is_Some (refreshToken cacheRecord)
      <-> isEmpty (Token.refresh_token resp) = false)
  /\ (is_Some (appMetadata cacheRecord)
      <-> isEmpty (Token.foci resp) = false)
  /\ (forall e, idToken cacheRecord = Some e ->
        IdTokenEntity.secret e = orEmpty (Token.id_token resp)
        /\ IdTokenEntity.secret e <> "")
  /\ (forall e, accessToken cacheRecord = Some e ->
        AccessTokenEntity.secret e = orEmpty (Token.access_token resp)
        /\ AccessTokenEntity.secret e <> "")
  /\ (forall e, refreshToken cacheRecord = Some e ->
        RefreshTokenEntity.secret e = orEmpty (Token.refresh_token resp)
        /\ RefreshTokenEntity.secret e <> "").
Proof.
  intros Hg.
  assert (forall x, isEmpty x = false -> orEmpty x <> "") as Hne.
  { intros x Hx. unfold isEmpty in Hx. apply negb_false_iff in Hx.
    destruct (truthy_true_inv x Hx) as (s & -> & Hs). exact Hs. }
  destruct (generateCacheRecord_fields _ _ _ _ _ _ _ _ _ Hg)
    as (Hid & Hacc & (ex & ext & Hat) & Hrt & Ham).
  rewrite Hid, Hat, Hrt, Ham.
  split; [|split; [|split; [|split; [|split; [|split; [|split]]]]]].
  - destruct (isEmpty (Token.id_token resp)), idTokenObj as [tok|]; simpl;
      split; intros Hx;
      first [ solve [destruct Hx as [? [=]]]
            | solve [destruct Hx as [[=] _]]
            | solve [destruct Hx as [_ [? [=]]]]
            | solve [split; [reflexivity | eauto]]
            | solve [eauto] ].
  - rewrite <- Hid. exact Hacc.
  - destruct (isEmpty (Token.access_token resp)); split; intros Hx;
      first [ discriminate
            | reflexivity
            | solve [eauto]
            | solve [destruct Hx as [? Hx']; discriminate] ].
  - destruct (isEmpty (Token.refresh_token resp)); split; intros Hx;
      first [ discriminate
            | reflexivity
            | solve [eauto]
            | solve [destruct Hx as [? Hx']; discriminate] ].
  - destruct (isEmpty (Token.foci resp)); split; intros Hx;
      first [ discriminate
            | reflexivity
            | solve [eauto]
            | solve [destruct Hx as [? Hx']; discriminate] ].
  - intros e He.
    destruct (isEmpty (Token.id_token resp)) eqn:E; [discriminate|].
    destruct idTokenObj as [tok|]; [|discriminate].
    injection He as <-. simpl. split; [reflexivity|]. now apply Hne.
  - intros e He.
    destruct (isEmpty (Token.access_token resp)) eqn:E; [discriminate|].
    injection He as <-. simpl. split; [reflexivity|]. now apply Hne.
  - intros e He.
    destruct (isEmpty (Token.refresh_token resp)) eqn:E; [discriminate|].
    injection He as <-. simpl. split; [reflexivity|]. now apply Hne.
Qed.

(** X6: the home account identifier is computed once, from the client info,
    the authority type and the identity token, and every entity derived in
    the call carries it, together with the environment of the authority and
    the client id of the handler. *)
Theorem entities_share_identifiers this currentTime resp authority
    (cachedNonce cachedState : option string)
    (requestScopes : option (list string)) (oboAssertion : option string)
    this' idTokenObj requestStateObj cacheRecord :
  deriveRecord this currentTime resp authority cachedNonce cachedState
    requestScopes oboAssertion
  = Ok (this', idTokenObj, requestStateObj, cacheRecord) ->
  let home :=
    generateHomeAccountId (orEmpty (Token.client_info resp))
      (authorityType authority) (cryptoObj this) idTokenObj in
  let env := generateEnvironmentFromAuthority authority in
  homeAccountIdentifier this' = home
  /\ (forall e, idToken cacheRecord = Some e ->
        IdTokenEntity.homeAccountId e = home
        /\ IdTokenEntity.environment e = env
        /\ IdTokenEntity.clientId e = clientId this)
  /\ (forall e, accessToken cacheRecord = Some e ->
        AccessTokenEntity.homeAccountId e = home
        /\ AccessTokenEntity.environment e = env
        /\ AccessTokenEntity.clientId e = clientId this)
  /\ (forall e, refreshToken cacheRecord = Some e ->
        RefreshTokenEntity.homeAccountId e = home
        /\ RefreshTokenEntity.environment e = env
        /\ RefreshTokenEntity.clientId e = clientId this)
  /\ (forall e, appMetadata cacheRecord = Some e ->
        AppMetadataEntity.environment e = env
        /\ AppMetadataEntity.clientId e = clientId this).
Proof.
  intros Hd home env.
  apply deriveRecord_inv in Hd as (_ & -> & Hg).
  destruct (generateCacheRecord_fields _ _ _ _ _ _ _ _ _ Hg)
    as (Hid & _ & (ex & ext & Hat) & Hrt & Ham).
  rewrite Hid, Hat, Hrt, Ham. simpl.
  split; [reflexivity|].
  split; [|split; [|split]].
  - intros e He.
    destruct (isEmpty (Token.id_token resp)); [discriminate|].
    destruct idTokenObj as [tok|]; [|discriminate].
    injection He as <-. repeat split; reflexivity.
  - intros e He.
    destruct (isEmpty (Token.access_token resp)); [discriminate|].
    injection He as <-. repeat split; reflexivity.
  - intros e He.
    destruct (isEmpty (Token.refresh_token resp)); [discriminate|].
    injection He as <-. repeat split; reflexivity.
  - intros e He.
    destruct (isEmpty (Token.foci resp)); [discriminate|].
    injection He as <-. repeat split; reflexivity.
Qed.

(** X7: the identity-token entity and the access-token entity of one
    record have the same realm, the tenant claim of the identity token or
    the empty string; an access-token entity assembled without an identity
    token has the tenant of the authority as realm. *)
Theorem realms_agree this currentTime resp authority idTokenObj
    (libraryState : option LibraryStateObject) requestScopes oboAssertion
    cacheRecord :
  generateCacheRecord this currentTime resp authority idTokenObj libraryState
    requestScopes oboAssertion = Ok cacheRecord ->
  (forall i a,
     idToken cacheRecord = Some i -> accessToken cacheRecord = Some a ->
     IdTokenEntity.realm i = AccessTokenEntity.realm a)
  /\ (forall a tok,
        idTokenObj = Some tok -> accessToken cacheRecord = Some a ->
        AccessTokenEntity.realm a = orEmpty (tid (claims tok)))
  /\ (forall a,
        idTokenObj = None -> accessToken cacheRecord = Some a ->
        AccessTokenEntity.realm a = tenant authority).
Proof.
  intros Hg.
  destruct (generateCacheRecord_fields _ _ _ _ _ _ _ _ _ Hg)
    as (Hid & _ & (ex & ext & Hat) & _).
  rewrite Hid, Hat.
  split; [|split].
  - intros i a Hi Ha.
    destruct (isEmpty (Token.id_token resp)); [discriminate|].
    destruct idTokenObj as [tok|]; [|discriminate].
    destruct (isEmpty (Token.access_token resp)); [discriminate|].
    injection Hi as <-. injection Ha as <-. reflexivity.
  - intros a tok -> Ha.
    destruct (isEmpty (Token.access_token resp)); [discriminate|].
    injection Ha as <-. reflexivity.
  - intros a -> Ha.
    destruct (isEmpty (Token.access_token resp)); [discriminate|].
    injection Ha as <-. reflexivity.
Qed.

End AssemblyMore.

Section ResultMore.
Context `{Collaborators}.

(** The fields of a result that was built, the access token apart. *)
Lemma generateAuthenticationResult_fields (crypto : ICrypto)
    (cacheRecord : CacheRecord) (fromTokenCache : bool)
    (idTokenObj : option AuthToken) (requestState : option RequestStateObject)
    (method uri : option string) (result : AuthenticationResult.t) :
  generateAuthenticationResult crypto cacheRecord fromTokenCache idTokenObj
    requestState method uri = Ok result ->
  AuthenticationResult.uniqueId result
  = orElse (idTokenObj ≫= fun tok => oid (claims tok))
      (orElse (idTokenObj ≫= fun tok => sub (claims tok)) "")
  /\ AuthenticationResult.tenantId result
     = orEmpty (idTokenObj ≫= fun tok => tid (claims tok))
  /\ AuthenticationResult.account result
     = (getAccountInfo <$> account cacheRecord)
  /\ AuthenticationResult.idTokenClaims result
     = match idTokenObj with Some tok => claims tok | None => noClaims end
  /\ AuthenticationResult.fromCache result = fromTokenCache
  /\ AuthenticationResult.expiresOn result
     = ((fun e =>
           newDate (jsMul (toNumber (AccessTokenEntity.expiresOn e)) 1000))
        <$> accessToken cacheRecord)
  /\ AuthenticationResult.extExpiresOn result
     = ((fun e =>
           newDate
             (jsMul (toNumber (AccessTokenEntity.extendedExpiresOn e)) 1000))
        <$> accessToken cacheRecord)
  /\ AuthenticationResult.familyId result
     = match appMetadata cacheRecord with
       | Some md =>
           if decide (AppMetadataEntity.familyId md = Some THE_FAMILY_ID)
           then THE_FAMILY_ID else ""
       | None => ""
       end
  /\ AuthenticationResult.tokenType result
     = orEmpty (accessToken cacheRecord ≫= AccessTokenEntity.tokenType)
  /\ AuthenticationResult.state result
     = match requestState with
       | Some rs => userRequestState rs
       | None => ""
       end.
Proof.
  unfold generateAuthenticationResult. intros Hr.
  destruct (accessToken cacheRecord) as [entity|]; simpl in Hr.
  - destruct (decide (AccessTokenEntity.tokenType entity = Some POP)).
    + destruct (negb (truthy method) || negb (truthy uri)); [discriminate|].
      destruct (signPopToken _ _ _ _) as [signed|p]; simpl in Hr;
        [|discriminate].
      injection Hr as <-. repeat split; reflexivity.
    + simpl in Hr. injection Hr as <-. repeat split; reflexivity.
  - injection Hr as <-. repeat split; reflexivity.
Qed.

(** A record without a proof-of-possession entity always gives a result. *)
Lemma result_building_bearer_aux (crypto : ICrypto)
    (cacheRecord : CacheRecord) (fromTokenCache : bool)
    (idTokenObj : option AuthToken) (requestState : option RequestStateObject)
    (method uri : option string) :
  (forall entity, accessToken cacheRecord = Some entity ->
     AccessTokenEntity.tokenType entity <> Some POP) ->
  exists result,
    generateAuthenticationResult crypto cacheRecord fromTokenCache
      idTokenObj requestState method uri = Ok result /\
    AuthenticationResult.accessToken result
    = match accessToken cacheRecord with
      | Some entity => AccessTokenEntity.secret entity
      | None => ""
      end.
Proof.
  unfold generateAuthenticationResult. intros Hbearer.
  destruct (accessToken cacheRecord) as [entity|]; simpl.
  - destruct (decide (AccessTokenEntity.tokenType entity = Some POP))
      as [Hpop|Hpop]; [now destruct (Hbearer entity eq_refl)|].
    simpl. eexists. split; reflexivity.
  - eexists. split; reflexivity.
Qed.

(** X8: the building of a result fails for no record but one whose
    access-token entity has the proof-of-possession token type, and then
    either with the resource-request-parameters-required error, the method
    or the URI missing, or with what the signer raised; for any other
    record it succeeds, with the stored secret (or the empty string) as
    access token. *)
Theorem result_building_fails_only_for_pop (crypto : ICrypto)
    (cacheRecord : CacheRecord) (fromTokenCache : bool)
    (idTokenObj : option AuthToken) (requestState : option RequestStateObject)
    (method uri : option string) :
  (forall e,
     generateAuthenticationResult crypto cacheRecord fromTokenCache idTokenObj
       requestState method uri = Throw e ->
     exists entity,
       accessToken cacheRecord = Some entity /\
       AccessTokenEntity.tokenType entity = Some POP /\
       ((e = ResourceRequestParametersRequiredError /\
         (truthy method = false \/ truthy uri = false))
        \/ exists payload,
             e = Thrown payload /\
             signPopToken crypto (AccessTokenEntity.secret entity)
               (orEmpty method) (orEmpty uri) = Raises payload))
  /\ ((forall entity, accessToken cacheRecord = Some entity ->
         AccessTokenEntity.tokenType entity <> Some POP) ->
      exists result,
        generateAuthenticationResult crypto cacheRecord fromTokenCache
          idTokenObj requestState method uri = Ok result /\
        AuthenticationResult.accessToken result
        = match accessToken cacheRecord with
          | Some entity => AccessTokenEntity.secret entity
          | None => ""
          end).
Proof.
  unfold generateAuthenticationResult. split.
  - intros e.
    destruct (accessToken cacheRecord) as [entity|]; simpl; [|discriminate].
    destruct (decide (AccessTokenEntity.tokenType entity = Some POP))
      as [Hpop|Hpop]; simpl; [|discriminate].
    destruct (truthy method) eqn:Hm; simpl.
    + destruct (truthy uri) eqn:Hu; simpl.
      * destruct (signPopToken _ _ _ _) as [signed|p] eqn:Hs; simpl;
          [discriminate|].
        intros [= <-]. exists entity. repeat split; [assumption|].
        right. exists p. split; [reflexivity|assumption].
      * intros [= <-]. exists entity. repeat split; [assumption|].
        left. split; [reflexivity|]. now right.
    + intros [= <-]. exists entity. repeat split; [assumption|].
      left. split; [reflexivity|]. now left.
  - fold (generateAuthenticationResult crypto cacheRecord fromTokenCache
            idTokenObj requestState method uri).
    apply result_building_bearer_aux.
Qed.

(** X9: for a response whose token type is not the proof-of-possession
    scheme, the result built from the record assembled from it never
    fails, whatever the resource request, and its access token is the
    access token of the response as it is (the empty string when there is
    none). *)
Theorem bearer_token_round_trip (this : ResponseHandler) (currentTime : Z)
    (resp : Token.ServerAuthorizationTokenResponse) (authority : Authority)
    (idTokenObj : option AuthToken) (libraryState : option LibraryStateObject)
    (requestScopes : option (list string)) (oboAssertion : option string)
    (crypto : ICrypto) (fromTokenCache : bool)
    (requestState : option RequestStateObject) (method uri : option string)
    (cacheRecord : CacheRecord) :
  generateCacheRecord this currentTime resp authority idTokenObj libraryState
    requestScopes oboAssertion = Ok cacheRecord ->
  Token.token_type resp <> Some POP ->
  exists result,
    generateAuthenticationResult crypto cacheRecord fromTokenCache idTokenObj
      requestState method uri = Ok result /\
    AuthenticationResult.accessToken result
    = orEmpty (Token.access_token resp).
Proof.
  intros Hg Hbearer.
  destruct (generateCacheRecord_fields _ _ _ _ _ _ _ _ _ Hg)
    as (_ & _ & (ex & ext & Hat) & _).
  destruct (result_building_bearer_aux crypto cacheRecord fromTokenCache
              idTokenObj requestState method uri) as (result & Hr & Htok).
  { intros entity He. rewrite Hat in He.
    destruct (isEmpty (Token.access_token resp)); [discriminate|].
    injection He as <-. exact Hbearer. }
  exists result. split; [exact Hr|]. rewrite Htok, Hat.
  destruct (isEmpty (Token.access_token resp)) eqn:E; [|reflexivity].
  unfold isEmpty in E. apply negb_true_iff in E.
  destruct (Token.access_token resp) as [s|]; [|reflexivity].
  apply truthy_false_Some in E. now subst.
Qed.

End ResultMore.

Section PipelineMore.
Context `{Collaborators}.
Implicit Types (this : ResponseHandler)
  (resp : Token.ServerAuthorizationTokenResponse) (authority : Authority).

(** X10: the expirations of the result are the dates made from 1000 times
    the expirations of the access-token entity.  For a response with an
    access token, as long as the base timestamp plus [expires_in], and that
    plus [ext_expires_in], are counts of seconds within 8.64e12, the dates
    are valid and their time values are 1000 times those sums; a sum
    beyond 8.64e12 (and within 2^53) gives an invalid date.  For a
    response without an access token there is neither date. *)
Theorem result_expirations_in_milliseconds this currentTime resp authority
    idTokenObj (libraryState : option LibraryStateObject) requestScopes
    oboAssertion (crypto : ICrypto) (fromTokenCache : bool)
    (requestState : option RequestStateObject) (method uri : option string)
    cacheRecord result :
  generateCacheRecord this currentTime resp authority idTokenObj libraryState
    requestScopes oboAssertion = Ok cacheRecord ->
  generateAuthenticationResult crypto cacheRecord fromTokenCache idTokenObj
    requestState method uri = Ok result ->
  let base :=
    match libraryState with
    | Some ls => ts ls
    | None => Finite currentTime
    end in
  (isEmpty (Token.access_token resp) = false ->
   forall T e x : Z,
     base = Finite T ->
     orZero (Token.expires_in resp) = Finite e ->
     orZero (Token.ext_expires_in resp) = Finite x ->
     (Z.abs (T + e) <= 8640000000000 ->
      AuthenticationResult.expiresOn result
      = Some (TimeValue ((T + e) * 1000)))
     /\ (Z.abs (T + e) <= 8640000000000 ->
         Z.abs (T + e + x) <= 8640000000000 ->
         AuthenticationResult.extExpiresOn result
         = Some (TimeValue ((T + e + x) * 1000)))
     /\ (8640000000000 < Z.abs (T + e) -> Z.abs (T + e) <= maxExact ->
         AuthenticationResult.expiresOn result = Some InvalidDate))
  /\ (isEmpty (Token.access_token resp) = true ->
      AuthenticationResult.expiresOn result = None
      /\ AuthenticationResult.extExpiresOn result = None).
Proof.
  intros Hg Hr base.
  apply generateAuthenticationResult_fields in Hr
    as (_ & _ & _ & _ & _ & Hexp & Hext & _).
  rewrite Hexp, Hext. split.
  - intros Hat T e x HT He Hx.
    destruct (generateCacheRecord_accessToken _ _ _ _ _ _ _ _ _ Hg Hat)
      as (entity & Hentity & _ & _ & Hon & Hextended).
    fold base in Hon, Hextended.
    rewrite Hentity. simpl. rewrite Hon, Hextended, HT, He, Hx.
    split; [|split].
    + intros Hsum.
      rewrite jsAdd_exact by (unfold maxExact; lia).
      now rewrite newDate_of_seconds.
    + intros Hsum Hsum'.
      rewrite (jsAdd_exact T e) by (unfold maxExact; lia).
      rewrite jsAdd_exact by (unfold maxExact; lia).
      now rewrite newDate_of_seconds.
    + intros Hbeyond Hsum.
      rewrite jsAdd_exact by exact Hsum.
      now rewrite newDate_of_seconds_invalid.
  - intros Hat.
    rewrite (generateCacheRecord_no_accessToken _ _ _ _ _ _ _ _ _ Hg Hat).
    split; reflexivity.
Qed.

(** X11: the family id of the result is the reserved family id when the
    [foci] of the response is that very id, and the empty string for any
    other [foci] and for none. *)
Theorem family_id_is_sentinel_or_empty this currentTime resp authority
    idTokenObj (libraryState : option LibraryStateObject) requestScopes
    oboAssertion (crypto : ICrypto) (fromTokenCache : bool)
    (requestState : option RequestStateObject) (method uri : option string)
    cacheRecord result :
  generateCacheRecord this currentTime resp authority idTokenObj libraryState
    requestScopes oboAssertion = Ok cacheRecord ->
  generateAuthenticationResult crypto cacheRecord fromTokenCache idTokenObj
    requestState method uri = Ok result ->
  (Token.foci resp = Some THE_FAMILY_ID ->
   AuthenticationResult.familyId result = THE_FAMILY_ID)
  /\ (Token.foci resp <> Some THE_FAMILY_ID ->
      AuthenticationResult.familyId result = "").
Proof.
  intros Hg Hr.
  apply generateAuthenticationResult_fields in Hr
    as (_ & _ & _ & _ & _ & _ & _ & Hfam & _).
  destruct (generateCacheRecord_fields _ _ _ _ _ _ _ _ _ Hg)
    as (_ & _ & _ & _ & Ham).
  rewrite Hfam, Ham. split.
  - intros ->.
    replace (isEmpty (Some THE_FAMILY_ID)) with false by reflexivity.
    reflexivity.
  - intros Hne. destruct (isEmpty (Token.foci resp)); [reflexivity|].
    simpl.
    match goal with
    | |- context [decide ?P] => destruct (decide P)
    end; [contradiction|reflexivity].
Qed.

(** X12: the unique id of the result is the [oid] claim when that claim is
    not empty and else the [sub] claim, an empty [oid] not hiding the
    [sub]; the tenant id is the [tid] claim; without an identity token the
    unique id, the tenant id and the identity token of the result are
    empty and its claims are the empty object. *)
Theorem unique_id_prefers_oid (crypto : ICrypto) (cacheRecord : CacheRecord)
    (fromTokenCache : bool) (idTokenObj : option AuthToken)
    (requestState : option RequestStateObject) (method uri : option string)
    (result : AuthenticationResult.t) :
  generateAuthenticationResult crypto cacheRecord fromTokenCache idTokenObj
    requestState method uri = Ok result ->
  (forall tok, idTokenObj = Some tok ->
     (truthy (oid (claims tok)) = true ->
      AuthenticationResult.uniqueId result = orEmpty (oid (claims tok)))
     /\ (truthy (oid (claims tok)) = false ->
         AuthenticationResult.uniqueId result = orEmpty (sub (claims tok)))
     /\ AuthenticationResult.tenantId result = orEmpty (tid (claims tok))
     /\ AuthenticationResult.idTokenClaims result = claims tok)
  /\ (idTokenObj = None ->
      AuthenticationResult.uniqueId result = ""
      /\ AuthenticationResult.tenantId result = ""
      /\ AuthenticationResult.idToken result = ""
      /\ AuthenticationResult.idTokenClaims result = noClaims).
Proof.
  intros Hr.
  destruct (generateAuthenticationResult_inv _ _ _ _ _ _ _ _ Hr) as (_ & Hid).
  apply generateAuthenticationResult_fields in Hr
    as (Huid & Htid & _ & Hclaims & _).
  rewrite Huid, Htid, Hclaims, Hid. split.
  - intros tok ->. simpl. split; [|split; [|split]].
    + intros Ho. unfold orElse at 1. rewrite Ho. reflexivity.
    + intros Ho. unfold orElse at 1. rewrite Ho. apply orElse_empty.
    + reflexivity.
    + reflexivity.
  - intros ->. repeat split; reflexivity.
Qed.

(** The identity token object is there exactly when the response has an
    identity token. *)
Lemma parseIdToken_presence this resp (cachedNonce : option string)
    (idTokenObj : option AuthToken) :
  parseIdToken this resp cachedNonce = Ok idTokenObj ->
  (is_Some idTokenObj <-> truthy (Token.id_token resp) = true).
Proof.
  unfold parseIdToken, newAuthToken. intros Hp.
  destruct (truthy (Token.id_token resp)).
  - destruct (extractTokenClaims _ _) as [c|p]; simpl in Hp; [|discriminate].
    destruct (truthy cachedNonce).
    + destruct (decide _); [discriminate|].
      injection Hp as <-. split; eauto.
    + injection Hp as <-. split; eauto.
  - injection Hp as <-. split; [intros [? [=]] | discriminate].
Qed.

(** The request state is there exactly when a cached state was given. *)
Lemma deriveRecord_requestState this currentTime resp authority
    (cachedNonce cachedState : option string)
    (requestScopes : option (list string)) (oboAssertion : option string)
    this' idTokenObj requestStateObj cacheRecord :
  deriveRecord this currentTime resp authority cachedNonce cachedState
    requestScopes oboAssertion
  = Ok (this', idTokenObj, requestStateObj, cacheRecord) ->
  if truthy cachedState
  then exists rs,
         parseRequestState (cryptoObj this) (orEmpty cachedState) = Returns rs
         /\ requestStateObj = Some rs
  else requestStateObj = None.
Proof.
  unfold deriveRecord. intros Hd.
  destruct (parseIdToken this resp cachedNonce) as [tok|e]; simpl in Hd;
    [|discriminate].
  destruct (truthy cachedState); simpl in Hd.
  - destruct (parseRequestState _ _) as [rs|p]; simpl in Hd; [|discriminate].
    match type of Hd with
    | (mbind _ ?m = _) => destruct m as [rec|e]; simpl in Hd; [|discriminate]
    end.
    injection Hd as <- <- <- <-. eauto.
  - match type of Hd with
    | (mbind _ ?m = _) => destruct m as [rec|e]; simpl in Hd; [|discriminate]
    end.
    injection Hd as <- <- <- <-. reflexivity.
Qed.

(** A result of the pipeline is the result built from the derived record. *)
Lemma run_result_inv this currentTime resp authority
    (method uri cachedNonce cachedState : option string)
    (requestScopes : option (list string)) (oboAssertion : option string)
    (refresh : bool) (w : World) (result : AuthenticationResult.t) :
  fst (run (handleServerTokenResponse this currentTime resp authority method
              uri cachedNonce cachedState requestScopes oboAssertion refresh)
         w) = Ok (Some result) ->
  exists this' idTokenObj requestStateObj cacheRecord,
    deriveRecord this currentTime resp authority cachedNonce cachedState
      requestScopes oboAssertion
    = Ok (this', idTokenObj, requestStateObj, cacheRecord) /\
    generateAuthenticationResult (cryptoObj this') cacheRecord false
      idTokenObj requestStateObj method uri = Ok result.
Proof.
  destruct (deriveRecord this currentTime resp authority cachedNonce
              cachedState requestScopes oboAssertion)
    as [[[[this' idTokenObj] requestStateObj] cacheRecord]|e] eqn:Hd.
  - rewrite (run_handle_derived _ _ _ _ _ _ _ _ _ _ _ _ _ _ _ _ Hd).
    destruct (tryFinally _ _ _) as [[[|]|e] f]; simpl; try discriminate.
    destruct (generateAuthenticationResult _ _ _ _ _ _ _) as [r|e] eqn:Hr;
      simpl; [|discriminate].
    intros [= <-]. eauto 10.
  - rewrite (run_handle_underived _ _ _ _ _ _ _ _ _ _ _ _ _ Hd). discriminate.
Qed.

(** X13: a result of the pipeline is never marked as coming from the
    cache, and its state is the part of the caller in the parsed cached
    state, or the empty string when no cached state was given. *)
Theorem pipeline_result_is_fresh this currentTime resp authority
    (method uri cachedNonce cachedState : option string)
    (requestScopes : option (list string)) (oboAssertion : option string)
    (refresh : bool) (w : World) (result : AuthenticationResult.t) :
  fst (run (handleServerTokenResponse this currentTime resp authority method
              uri cachedNonce cachedState requestScopes oboAssertion refresh)
         w) = Ok (Some result) ->
  AuthenticationResult.fromCache result = false
  /\ (truthy cachedState = false -> AuthenticationResult.state result = "")
  /\ (truthy cachedState = true ->
      exists rs,
        parseRequestState (cryptoObj this) (orEmpty cachedState) = Returns rs
        /\ AuthenticationResult.state result = userRequestState rs).
Proof.
  intros Hrun.
  apply run_result_inv in Hrun as (this' & tok & rso & rec & Hd & Hr).
  apply deriveRecord_requestState in Hd.
  apply generateAuthenticationResult_fields in Hr
    as (_ & _ & _ & _ & Hfc & _ & _ & _ & _ & Hst).
  split; [exact Hfc|]. rewrite Hst. split.
  - intros Hc. rewrite Hc in Hd. now subst.
  - intros Hc. rewrite Hc in Hd. destruct Hd as (rs & Hp & ->). eauto.
Qed.

(** X14: a result of the pipeline has an account exactly when the response
    had an identity token, which is exactly when the identity token of the
    result is not empty. *)
Theorem result_account_iff_id_token this currentTime resp authority
    (method uri cachedNonce cachedState : option string)
    (requestScopes : option (list string)) (oboAssertion : option string)
    (refresh : bool) (w : World) (result : AuthenticationResult.t) :
  fst (run (handleServerTokenResponse this currentTime resp authority method
              uri cachedNonce cachedState requestScopes oboAssertion refresh)
         w) = Ok (Some result) ->
  (is_Some (AuthenticationResult.account result)
   <-> truthy (Token.id_token resp) = true)
  /\ (AuthenticationResult.idToken result <> ""
      <-> truthy (Token.id_token resp) = true).
Proof.
  intros Hrun.
  apply run_result_inv in Hrun as (this' & tok & rso & rec & Hd & Hr).
  apply deriveRecord_inv in Hd as (Hp & _ & Hg).
  pose proof (parseIdToken_presence _ _ _ _ Hp) as Hpres.
  pose proof (parseIdToken_rawToken _ _ _ _ Hp) as Hraw.
  destruct (generateCacheRecord_fields _ _ _ _ _ _ _ _ _ Hg)
    as (Hid & Hacc & _).
  destruct (generateAuthenticationResult_inv _ _ _ _ _ _ _ _ Hr) as (_ & Hrid).
  apply generateAuthenticationResult_fields in Hr as (_ & _ & Hra & _).
  rewrite Hra, Hrid, Hraw. split.
  - rewrite fmap_is_Some, Hacc, Hid.
    unfold isEmpty.
    destruct (truthy (Token.id_token resp)); simpl.
    + rewrite fmap_is_Some. tauto.
    + split; [intros [? [=]] | discriminate].
  - destruct (Token.id_token resp) as [s|]; simpl.
    + destruct (String.eqb_spec s ""); simpl; split; congruence.
    + split; [congruence | discriminate].
Qed.

(** X15: a response without an identity token passes the nonce check even
    when a cached nonce is supplied: the pipeline does not fail with the
    nonce-mismatch error. *)
Theorem no_id_token_no_nonce_check this currentTime resp authority
    (method uri cachedNonce cachedState : option string)
    (requestScopes : option (list string)) (oboAssertion : option string)
    (refresh : bool) (w : World) :
  truthy (Token.id_token resp) = false ->
  fst (run (handleServerTokenResponse this currentTime resp authority method
              uri cachedNonce cachedState requestScopes oboAssertion refresh)
         w) <> Throw NonceMismatchError.
Proof.
  intros Ht Hrun. apply nonce_mismatch_source in Hrun.
  unfold parseIdToken in Hrun. rewrite Ht in Hrun. discriminate.
Qed.

End PipelineMore.

(** * Further properties of the commit *)

Section CommitMore.
Context `{Collaborators}.
Implicit Types (this : ResponseHandler)
  (resp : Token.ServerAuthorizationTokenResponse) (authority : Authority).

Ltac open_commit :=
  cbv [tryFinally tryBlock finallyBlock liftR setCacheContext getCacheContext
       note perform inspect mbind M_bind mret M_ret call]; simpl.

Ltac case_reply :=
  match goal with
  | |- context [beforeCacheAccess ?p ?c ?s] =>
      destruct (beforeCacheAccess p c s) as [[[]|?] ?] eqn:?
  | |- context [afterCacheAccess ?p ?c ?s] =>
      destruct (afterCacheAccess p c s) as [[[]|?] ?] eqn:?
  | |- context [saveCacheRecord ?m ?s ?r] =>
      destruct (saveCacheRecord m s r) as [[[]|?] ?] eqn:?
  | |- context [getAccount ?m ?s ?k] =>
      destruct (getAccount m s k) eqn:?
  end; simpl.

(** The handler that [deriveRecord] returns has the store and the
    persistence of the handler it was given. *)
Lemma deriveRecord_handler this currentTime resp authority
    (cachedNonce cachedState : option string)
    (requestScopes : option (list string)) (oboAssertion : option string)
    this' idTokenObj requestStateObj cacheRecord :
  deriveRecord this currentTime resp authority cachedNonce cachedState
    requestScopes oboAssertion
  = Ok (this', idTokenObj, requestStateObj, cacheRecord) ->
  persistence this' = persistence this
  /\ cacheStorage this' = cacheStorage this
  /\ cryptoObj this' = cryptoObj this.
Proof.
  intros Hd. apply deriveRecord_inv in Hd as (_ & -> & _).
  repeat split; reflexivity.
Qed.

(** The errors of the derivation of the record. *)
Lemma deriveRecord_throws this currentTime resp authority
    (cachedNonce cachedState : option string)
    (requestScopes : option (list string)) (oboAssertion : option string)
    (e : AuthError) :
  deriveRecord this currentTime resp authority cachedNonce cachedState
    requestScopes oboAssertion = Throw e ->
  e = NonceMismatchError \/ e = InvalidCacheEnvironmentError
  \/ e = ClientInfoEmptyError \/ exists payload, e = Thrown payload.
Proof.
  unfold deriveRecord.
  destruct (parseIdToken this resp cachedNonce) as [tok|e0] eqn:Hp; simpl.
  - destruct (truthy cachedState); simpl.
    + destruct (parseRequestState _ _) as [rs|p]; simpl.
      * match goal with
        | |- context [generateCacheRecord ?a ?b ?c ?d ?e ?f ?g ?h] =>
            destruct (generateCacheRecord a b c d e f g h) as [rec|e'] eqn:Hg
        end; simpl; [discriminate|].
        intros [= ->].
        apply generateCacheRecord_throws in Hg as [Hg|[Hg|Hg]]; auto.
      * intros [= <-]. eauto 10.
    + match goal with
      | |- context [generateCacheRecord ?a ?b ?c ?d ?e ?f ?g ?h] =>
          destruct (generateCacheRecord a b c d e f g h) as [rec|e'] eqn:Hg
      end; simpl; [discriminate|].
      intros [= ->].
      apply generateCacheRecord_throws in Hg as [Hg|[Hg|Hg]]; auto.
  - intros [= <-]. revert Hp. unfold parseIdToken, newAuthToken.
    destruct (truthy (Token.id_token resp)); [|discriminate].
    destruct (extractTokenClaims _ _) as [c|p]; simpl.
    + destruct (truthy cachedNonce); [|discriminate].
      destruct (decide _); [|discriminate].
      intros [= <-]. auto.
    + intros [= <-]. eauto 10.
Qed.

(** Where an error of the pipeline comes from. *)
Lemma run_throws this currentTime resp authority
    (method uri cachedNonce cachedState : option string)
    (requestScopes : option (list string)) (oboAssertion : option string)
    (refresh : bool) (w : World) (e : AuthError) :
  fst (run (handleServerTokenResponse this currentTime resp authority method
              uri cachedNonce cachedState requestScopes oboAssertion refresh)
         w) = Throw e ->
  deriveRecord this currentTime resp authority cachedNonce cachedState
    requestScopes oboAssertion = Throw e
  \/ (exists this' idTokenObj requestStateObj cacheRecord,
        deriveRecord this currentTime resp authority cachedNonce cachedState
          requestScopes oboAssertion
        = Ok (this', idTokenObj, requestStateObj, cacheRecord) /\
        ((exists payload, e = Thrown payload)
         \/ (e = ResourceRequestParametersRequiredError /\
             fst (tryFinally (tryBlock this' cacheRecord refresh)
                    (finallyBlock this')
                    {| world := w; cacheContext := None |}) = Ok Normal))).
Proof.
  destruct (deriveRecord this currentTime resp authority cachedNonce
              cachedState requestScopes oboAssertion)
    as [[[[this' idTokenObj] requestStateObj] cacheRecord]|e0] eqn:Hd.
  - rewrite (run_handle_derived _ _ _ _ _ _ _ _ _ _ _ _ _ _ _ _ Hd).
    intros Hrun. right. exists this', idTokenObj, requestStateObj, cacheRecord.
    split; [reflexivity|].
    destruct (tryFinally _ _ _) as [[[|]|e1] f] eqn:Hc; simpl in Hrun.
    + destruct (generateAuthenticationResult _ _ _ _ _ _ _) as [r|e1] eqn:Hr;
        simpl in Hrun; [discriminate|].
      injection Hrun as ->.
      apply generateAuthenticationResult_throws in Hr as [->|Hr]; auto.
    + discriminate.
    + injection Hrun as ->. left.
      pose proof (commit_throws this' cacheRecord refresh
                    {| world := w; cacheContext := None |} e) as Ht.
      rewrite Hc in Ht. exact (Ht eq_refl).
  - rewrite (run_handle_underived _ _ _ _ _ _ _ _ _ _ _ _ _ Hd). simpl.
    intros [= ->]. now left.
Qed.

(** A commit that reaches its end: both hooks and the write returned, the
    write was the last call to the store, and the world is the one the
    after-access hook left. *)
Lemma commit_normal_inv this (cacheRecord : CacheRecord) (refresh : bool)
    (w : World) :
  fst (tryFinally (tryBlock this cacheRecord refresh) (finallyBlock this)
         {| world := w; cacheContext := None |}) = Ok Normal ->
  exists st1 st2 st3 lookup,
    beforeAccess this (storage w) = (Returns tt, st1) /\
    saveCacheRecord (cacheStorage this) st1 cacheRecord = (Returns tt, st2) /\
    afterAccess this st2 = (Returns tt, st3) /\
    (lookup = [] \/ lookup = [EvGetAccount]) /\
    world (snd (tryFinally (tryBlock this cacheRecord refresh)
                  (finallyBlock this)
                  {| world := w; cacheContext := None |}))
    = {| storage := st3;
         journal :=
           (journal w ++ bracket this (lookup ++ [EvSaveCacheRecord]))%list |}.
Proof.
  destruct w as [st j]. unfold beforeAccess, afterAccess, bracket.
  open_commit.
  destruct (persistence this) as [[plugin cache]|];
    destruct refresh, (account cacheRecord) as [entity|]; simpl;
    repeat case_reply; intros Hn; try discriminate;
    rewrite <- ?app_assoc; simpl;
    do 3 eexists;
    first [ exists (@nil CacheEvent);
            repeat (split; [first [eassumption | reflexivity | now left]|]);
            reflexivity
          | exists [EvGetAccount];
            repeat (split; [first [eassumption | reflexivity | now right]|]);
            reflexivity ].
Qed.

(** X16: the pipeline fails with the nonce-mismatch, the
    invalid-cache-environment or the client-info-empty error only before
    the commit: no hook was called, nothing was looked up or written, and
    the world is as it was. *)
Theorem derivation_errors_leave_world this currentTime resp authority
    (method uri cachedNonce cachedState : option string)
    (requestScopes : option (list string)) (oboAssertion : option string)
    (refresh : bool) (w : World) (e : AuthError) :
  fst (run (handleServerTokenResponse this currentTime resp authority method
              uri cachedNonce cachedState requestScopes oboAssertion refresh)
         w) = Throw e ->
  e = NonceMismatchError \/ e = InvalidCacheEnvironmentError
  \/ e = ClientInfoEmptyError ->
  snd (run (handleServerTokenResponse this currentTime resp authority method
              uri cachedNonce cachedState requestScopes oboAssertion refresh)
         w) = w.
Proof.
  intros Hrun Hkind.
  apply run_throws in Hrun as [Hd|(? & ? & ? & ? & _ & [[p ->]|[-> _]])].
  - now rewrite (run_handle_underived _ _ _ _ _ _ _ _ _ _ _ _ _ Hd).
  - destruct Hkind as [?|[?|?]]; discriminate.
  - destruct Hkind as [?|[?|?]]; discriminate.
Qed.

(** X17: when the pipeline fails with the
    resource-request-parameters-required error, the record has already
    been written: the record was derived, the before-access hook returned,
    [saveCacheRecord] was called with the derived record on the storage that
    hook left and returned, the after-access hook returned, and the world
    of the run is the storage left by the write and then the after-access
    hook, with the write as the last call to the store. *)
Theorem pop_misuse_fails_after_write this currentTime resp authority
    (method uri cachedNonce cachedState : option string)
    (requestScopes : option (list string)) (oboAssertion : option string)
    (refresh : bool) (w : World) :
  fst (run (handleServerTokenResponse this currentTime resp authority method
              uri cachedNonce cachedState requestScopes oboAssertion refresh)
         w) = Throw ResourceRequestParametersRequiredError ->
  exists this' idTokenObj requestStateObj cacheRecord st1 st2 st3 lookup,
    deriveRecord this currentTime resp authority cachedNonce cachedState
      requestScopes oboAssertion
    = Ok (this', idTokenObj, requestStateObj, cacheRecord) /\
    beforeAccess this' (storage w) = (Returns tt, st1) /\
    saveCacheRecord (cacheStorage this') st1 cacheRecord = (Returns tt, st2) /\
    afterAccess this' st2 = (Returns tt, st3) /\
    (lookup = [] \/ lookup = [EvGetAccount]) /\
    snd (run (handleServerTokenResponse this currentTime resp authority
                method uri cachedNonce cachedState requestScopes oboAssertion
                refresh) w)
    = {| storage := st3;
         journal :=
           (journal w ++ bracket this' (lookup ++ [EvSaveCacheRecord]))%list |}.
Proof.
  intros Hrun.
  apply run_throws in Hrun
    as [Hd|(this' & tok & rs & rec & Hd & [[p [=]]|[_ Hn]])].
  - apply deriveRecord_throws in Hd as [?|[?|[?|[p ?]]]]; discriminate.
  - rewrite (run_handle_derived _ _ _ _ _ _ _ _ _ _ _ _ _ _ _ _ Hd).
    destruct (commit_normal_inv this' rec refresh w Hn)
      as (st1 & st2 & st3 & lookup & Hb & Hs & Ha & Hl & Hw).
    exists this', tok, rs, rec, st1, st2, st3, lookup.
    destruct (tryFinally _ _ _) as [r f].
    repeat (split; [assumption|]). exact Hw.
Qed.

(** X18: outside a silent refresh, and for a record without an account,
    the store is not asked for the account: once the before-access hook has
    returned, the write is the one call to the store, whether the account
    is in the store or not, and when the write and the after-access hook
    return the pipeline returns what the building of the result gives. *)
Theorem write_without_lookup this currentTime resp authority
    (method uri cachedNonce cachedState : option string)
    (requestScopes : option (list string)) (oboAssertion : option string)
    (refresh : bool) (w : World) this' idTokenObj requestStateObj cacheRecord
    (st1 : Storage) :
  deriveRecord this currentTime resp authority cachedNonce cachedState
    requestScopes oboAssertion
  = Ok (this', idTokenObj, requestStateObj, cacheRecord) ->
  refresh = false \/ account cacheRecord = None ->
  beforeAccess this' (storage w) = (Returns tt, st1) ->
  let pipeline :=
    run (handleServerTokenResponse this currentTime resp authority method uri
           cachedNonce cachedState requestScopes oboAssertion refresh) w in
  journal (snd pipeline)
  = (journal w ++ bracket this' [EvSaveCacheRecord])%list
  /\ forall st2 st3,
       saveCacheRecord (cacheStorage this') st1 cacheRecord
       = (Returns tt, st2) ->
       afterAccess this' st2 = (Returns tt, st3) ->
       pipeline
       = (Some <$> generateAuthenticationResult (cryptoObj this') cacheRecord
                     false idTokenObj requestStateObj method uri,
          {| storage := st3;
             journal :=
               (journal w ++ bracket this' [EvSaveCacheRecord])%list |}).
Proof.
  intros Hd Hguard Hb pipeline. subst pipeline.
  rewrite (run_handle_derived _ _ _ _ _ _ _ _ _ _ _ _ _ _ _ _ Hd).
  destruct w as [st j]. simpl in Hb.
  unfold beforeAccess in Hb. unfold afterAccess, bracket.
  assert (match refresh, account cacheRecord with
          | true, Some _ => False
          | _, _ => True
          end) as Hskip.
  { destruct Hguard as [->| ->]; [exact I|]. now destruct refresh. }
  revert Hb. open_commit.
  destruct (persistence this') as [[plugin cache]|]; simpl.
  - intros ->. simpl.
    destruct refresh, (account cacheRecord) as [entity|]; try contradiction;
      simpl;
      (split;
       [ repeat case_reply; rewrite <- !app_assoc; reflexivity
       | intros st2 st3 Hs; rewrite Hs; simpl; intros ->; simpl;
         rewrite <- !app_assoc; reflexivity ]).
  - intros [= <-].
    destruct refresh, (account cacheRecord) as [entity|]; try contradiction;
      simpl;
      (split;
       [ repeat case_reply; rewrite <- ?app_assoc; reflexivity
       | intros st2 st3 Hs; rewrite Hs; simpl; intros [= <-];
         rewrite <- ?app_assoc; reflexivity ]).
Qed.

End CommitMore.

Section HooksMore.
Context `{Collaborators}.
Implicit Types (this : ResponseHandler)
  (resp : Token.ServerAuthorizationTokenResponse) (authority : Authority).

Ltac open_commit :=
  cbv [tryFinally tryBlock finallyBlock liftR setCacheContext getCacheContext
       note perform inspect mbind M_bind mret M_ret call]; simpl.

Ltac case_reply :=
  match goal with
  | |- context [beforeCacheAccess ?p ?c ?s] =>
      destruct (beforeCacheAccess p c s) as [[[]|?] ?] eqn:?
  | |- context [afterCacheAccess ?p ?c ?s] =>
      destruct (afterCacheAccess p c s) as [[[]|?] ?] eqn:?
  | |- context [saveCacheRecord ?m ?s ?r] =>
      destruct (saveCacheRecord m s r) as [[[]|?] ?] eqn:?
  | |- context [getAccount ?m ?s ?k] =>
      destruct (getAccount m s k) eqn:?
  end; simpl.

(** X19: when the write to the store throws, the after-access hook is
    still called, on the storage that the write left, and when it returns
    the pipeline throws what the write raised: no result is built. *)
Theorem store_write_failure_propagates this currentTime resp authority
    (method uri cachedNonce cachedState : option string)
    (requestScopes : option (list string)) (oboAssertion : option string)
    (refresh : bool) (w : World) this' idTokenObj requestStateObj cacheRecord
    (st1 st2 st3 : Storage) (payload : string) :
  deriveRecord this currentTime resp authority cachedNonce cachedState
    requestScopes oboAssertion
  = Ok (this', idTokenObj, requestStateObj, cacheRecord) ->
  beforeAccess this' (storage w) = (Returns tt, st1) ->
  (refresh = false \/ account cacheRecord = None
   \/ exists entity found,
        account cacheRecord = Some entity /\
        getAccount (cacheStorage this') st1 (generateAccountKey entity)
        = Some found) ->
  saveCacheRecord (cacheStorage this') st1 cacheRecord
  = (Raises payload, st2) ->
  afterAccess this' st2 = (Returns tt, st3) ->
  let pipeline :=
    run (handleServerTokenResponse this currentTime resp authority method uri
           cachedNonce cachedState requestScopes oboAssertion refresh) w in
  fst pipeline = Throw (Thrown payload)
  /\ storage (snd pipeline) = st3
  /\ exists calls,
       journal (snd pipeline)
       = (journal w ++ bracket this' (calls ++ [EvSaveCacheRecord]))%list.
Proof.
  intros Hd Hb Hguard Hs Ha pipeline. subst pipeline.
  rewrite (run_handle_derived _ _ _ _ _ _ _ _ _ _ _ _ _ _ _ _ Hd).
  destruct w as [st j]. simpl in Hb.
  unfold beforeAccess in Hb. unfold afterAccess in Ha. unfold bracket.
  revert Hb Ha. open_commit.
  destruct (persistence this') as [[plugin cache]|]; simpl.
  - intros -> Ha. simpl.
    destruct refresh, (account cacheRecord) as [entity|] eqn:Hacc; simpl.
    + destruct Hguard as [[=]|[[=]|(e0 & found & [= <-] & Hget)]].
      rewrite Hget. simpl. rewrite Hs. simpl. rewrite Ha. simpl.
      repeat split. exists [EvGetAccount].
      rewrite <- !app_assoc. reflexivity.
    + rewrite Hs. simpl. rewrite Ha. simpl. repeat split. exists [].
      rewrite <- !app_assoc. reflexivity.
    + rewrite Hs. simpl. rewrite Ha. simpl. repeat split. exists [].
      rewrite <- !app_assoc. reflexivity.
    + rewrite Hs. simpl. rewrite Ha. simpl. repeat split. exists [].
      rewrite <- !app_assoc. reflexivity.
  - intros [= <-] [= <-].
    destruct refresh, (account cacheRecord) as [entity|] eqn:Hacc; simpl.
    + destruct Hguard as [[=]|[[=]|(e0 & found & [= <-] & Hget)]].
      rewrite Hget. simpl. rewrite Hs. simpl.
      repeat split. exists [EvGetAccount].
      rewrite <- !app_assoc. reflexivity.
    + rewrite Hs. simpl. repeat split. exists []. reflexivity.
    + rewrite Hs. simpl. repeat split. exists []. reflexivity.
    + rewrite Hs. simpl. repeat split. exists []. reflexivity.
Qed.

(** X20: when the before-access hook throws, the store is neither asked
    nor written, the after-access hook is still called, and the pipeline
    throws what the after-access hook raised if it raised, and else what
    the before-access hook raised. *)
Theorem before_hook_failure_skips_store this currentTime resp authority
    (method uri cachedNonce cachedState : option string)
    (requestScopes : option (list string)) (oboAssertion : option string)
    (refresh : bool) (w : World) this' idTokenObj requestStateObj cacheRecord
    (st1 st2 : Storage) (payload : string) (after : Reply unit) :
  deriveRecord this currentTime resp authority cachedNonce cachedState
    requestScopes oboAssertion
  = Ok (this', idTokenObj, requestStateObj, cacheRecord) ->
  beforeAccess this' (storage w) = (Raises payload, st1) ->
  afterAccess this' st1 = (after, st2) ->
  run (handleServerTokenResponse this currentTime resp authority method uri
         cachedNonce cachedState requestScopes oboAssertion refresh) w
  = (Throw (Thrown (match after with
                    | Raises later => later
                    | Returns _ => payload
                    end)),
     {| storage := st2;
        journal := (journal w
                    ++ [EvBeforeCacheAccess; EvAfterCacheAccess])%list |}).
Proof.
  intros Hd Hb Ha.
  rewrite (run_handle_derived _ _ _ _ _ _ _ _ _ _ _ _ _ _ _ _ Hd).
  destruct w as [st j]. simpl in Hb.
  unfold beforeAccess in Hb. unfold afterAccess in Ha.
  revert Hb Ha. open_commit.
  destruct (persistence this') as [[plugin cache]|]; simpl.
  - intros -> Ha. simpl. rewrite Ha. simpl. rewrite <- !app_assoc.
    destruct after as [[]|later]; reflexivity.
  - discriminate.
Qed.

(** X21: what the after-access hook raises replaces the outcome of the
    commit: with a plugin whose after-access hook always raises, whenever
    the record is derived the pipeline throws what the hook raised, be it
    after a write, after a failed write or in place of the [null] of the
    refresh guard. *)
Theorem after_hook_failure_overrides this currentTime resp authority
    (method uri cachedNonce cachedState : option string)
    (requestScopes : option (list string)) (oboAssertion : option string)
    (refresh : bool) (w : World) this' idTokenObj requestStateObj cacheRecord
    (plugin : ICachePlugin) (cache : ISerializableTokenCache)
    (payload : string) :
  deriveRecord this currentTime resp authority cachedNonce cachedState
    requestScopes oboAssertion
  = Ok (this', idTokenObj, requestStateObj, cacheRecord) ->
  persistence this' = Some (plugin, cache) ->
  (forall ctx st, fst (afterCacheAccess plugin ctx st) = Raises payload) ->
  fst (run (handleServerTokenResponse this currentTime resp authority method
              uri cachedNonce cachedState requestScopes oboAssertion refresh)
         w) = Throw (Thrown payload).
Proof.
  intros Hd Hp Hraise.
  rewrite (run_handle_derived _ _ _ _ _ _ _ _ _ _ _ _ _ _ _ _ Hd).
  destruct w as [st j]. open_commit. rewrite Hp. simpl.
  destruct refresh, (account cacheRecord) as [entity|]; simpl;
    repeat (match goal with
            | |- context [afterCacheAccess ?p ?c ?s] =>
                let Hx := fresh "Hx" in
                pose proof (Hraise c s) as Hx;
                destruct (afterCacheAccess p c s) as [? ?];
                simpl in Hx; subst; simpl
            | _ => case_reply
            end);
    reflexivity.
Qed.

(** X22: without a persistence plugin, or without a serializable cache, no
    hook is called: every call of a run is a call to the store. *)
Theorem no_persistence_no_hooks this currentTime resp authority
    (method uri cachedNonce cachedState : option string)
    (requestScopes : option (list string)) (oboAssertion : option string)
    (refresh : bool) (w : World) :
  persistencePlugin this = None \/ serializableCache this = None ->
  exists calls,
    journal (snd (run (handleServerTokenResponse this currentTime resp
                         authority method uri cachedNonce cachedState
                         requestScopes oboAssertion refresh) w))
    = (journal w ++ calls)%list /\
    Forall storeCall calls.
Proof.
  intros Hnone.
  assert (persistence this = None) as Hp.
  { unfold persistence. destruct Hnone as [-> | ->]; [reflexivity|].
    now destruct (persistencePlugin this). }
  destruct (deriveRecord this currentTime resp authority cachedNonce
              cachedState requestScopes oboAssertion)
    as [[[[this' idTokenObj] requestStateObj] cacheRecord]|e] eqn:Hd.
  - rewrite (run_handle_derived _ _ _ _ _ _ _ _ _ _ _ _ _ _ _ _ Hd).
    apply deriveRecord_inv in Hd as (_ & -> & _).
    match goal with
    | |- context [tryFinally (tryBlock ?t _ _) _ _] =>
        destruct (commit_journal t cacheRecord refresh w)
          as (between & Hin & Hj);
        change (persistence t) with (persistence this) in *
    end.
    unfold bracket in Hj.
    change (persistence (setHomeAccountIdentifier this
                           (generateHomeAccountId
                              (orEmpty (Token.client_info resp))
                              (authorityType authority) (cryptoObj this)
                              idTokenObj)))
      with (persistence this) in Hj.
    rewrite Hp in Hj.
    destruct (tryFinally _ _ _) as [r f]. simpl in Hj |- *.
    exists between. split; [exact Hj|].
    simpl in Hin.
    destruct Hin as [<-|[<-|[<-|[<-|[]]]]];
      repeat (apply List.Forall_cons; [unfold storeCall; auto|]);
      apply List.Forall_nil.
  - rewrite (run_handle_underived _ _ _ _ _ _ _ _ _ _ _ _ _ Hd).
    exists []. simpl. rewrite app_nil_r. split; [reflexivity|].
    apply List.Forall_nil.
Qed.

(** X23: in every run the store is asked for the account at most once and
    written at most once, and it is asked before it is written: the calls
    to the store are none, the lookup, the write, or the lookup and then
    the write. *)
Theorem store_read_before_write this currentTime resp authority
    (method uri cachedNonce cachedState : option string)
    (requestScopes : option (list string)) (oboAssertion : option string)
    (refresh : bool) (w : World) :
  exists calls,
    journal (snd (run (handleServerTokenResponse this currentTime resp
                         authority method uri cachedNonce cachedState
                         requestScopes oboAssertion refresh) w))
    = (journal w ++ calls)%list /\
    In (List.filter isStoreCall calls)
      [[]; [EvGetAccount]; [EvSaveCacheRecord];
       [EvGetAccount; EvSaveCacheRecord]].
Proof.
  destruct (deriveRecord this currentTime resp authority cachedNonce
              cachedState requestScopes oboAssertion)
    as [[[[this' idTokenObj] requestStateObj] cacheRecord]|e] eqn:Hd.
  - rewrite (run_handle_derived _ _ _ _ _ _ _ _ _ _ _ _ _ _ _ _ Hd).
    destruct (commit_journal this' cacheRecord refresh w)
      as (between & Hin & Hj).
    destruct (tryFinally _ _ _) as [r f]. simpl in Hj |- *.
    exists (bracket this' between). split; [exact Hj|].
    unfold bracket. simpl in Hin.
    destruct (persistence this');
      destruct Hin as [<-|[<-|[<-|[<-|[]]]]]; simpl; tauto.
  - rewrite (run_handle_underived _ _ _ _ _ _ _ _ _ _ _ _ _ Hd).
    exists []. simpl. rewrite app_nil_r. split; [reflexivity|]. now left.
Qed.

End HooksMore.

(** * Concrete runs

    The properties above at inputs of the reference collaborators, and the
    inputs at which the code departs from what was expected of it. *)

Import Reference.

(** [decodeURIComponent] on escapes of one octet, on the two octets of
    U+00E9, and on what it rejects: a cut escape, a continuation octet that
    is none, a surrogate. *)
Example decodeURIComponent_runs :
  decodeURIComponent "a%20b%7E" = Ok "a b~"
  /\ decodeURIComponent "%C3%A9"
     = Ok (String (ascii_of_N 195) (String (ascii_of_N 169) EmptyString))
  /\ decodeURIComponent "100%" = Throw URIError
  /\ decodeURIComponent "%C3%28" = Throw URIError
  /\ decodeURIComponent "%ED%A0%80" = Throw URIError.
Proof. repeat split; reflexivity. Qed.

(** Scope strings and the sequences of their scopes. *)
Example scope_string_runs :
  ScopeSet.fromString "user.read  mail.read " = ["user.read"; "mail.read"]
  /\ ScopeSet.printScopes (ScopeSet.ofArray ["openid"; "profile"])
     = "openid profile"
  /\ ScopeSet.fromString "" = [].
Proof. repeat split; reflexivity. Qed.

(** C9 at three callbacks: without a state, with a state but an empty
    cached state, and with two states that differ. *)
Lemma state_not_found_before_mismatch_witness :
  validateServerAuthorizationCodeResponse (callback None None) "s1" crypto
  = Throw (StateNotFoundError "Server State")
  /\ validateServerAuthorizationCodeResponse (callback (Some "s1") None) "" crypto
     = Throw (StateNotFoundError "Cached State")
  /\ (truthy (AuthCode.state (callback (Some "s1") None)) = true /\
      "s2" <> "" /\
      exists d1 d2,
        decodeURIComponent (orEmpty (AuthCode.state (callback (Some "s1") None)))
        = Ok d1 /\
        decodeURIComponent "s2" = Ok d2 /\ d1 <> d2).
Proof.
  split; [|split].
  - apply (state_not_found_before_mismatch (callback None None) "s1" crypto).
    reflexivity.
  - apply (state_not_found_before_mismatch (callback (Some "s1") None) "" crypto);
      reflexivity.
  - apply (state_not_found_before_mismatch (callback (Some "s1") None) "s2" crypto).
    reflexivity.
Defined.

(** C3 fails where the states differ and the callback carries an error:
    the validation fails with the state-mismatch error, not with the
    classified error. *)
Lemma error_fields_after_state_comparison_counterexample :
  truthy (AuthCode.state (callback (Some "s1") (Some "access_denied"))) = true
  /\ "s2" <> ""
  /\ carriesError (callback (Some "s1") (Some "access_denied")) = true
  /\ validateServerAuthorizationCodeResponse
       (callback (Some "s1") (Some "access_denied")) "s2" crypto
     = Throw StateMismatchError
  /\ validateServerAuthorizationCodeResponse
       (callback (Some "s1") (Some "access_denied")) "s2" crypto
     <> Throw (classified (callback (Some "s1") (Some "access_denied"))).
Proof.
  repeat split; try reflexivity; discriminate.
Qed.

(** C3 as amended, at a callback with an error and equal states. *)
Lemma error_fields_after_state_comparison_witness :
  validateServerAuthorizationCodeResponse
    (callback (Some "s%31") (Some "access_denied")) "s1" crypto
  = Throw (ServerError (Some "access_denied") None None).
Proof.
  apply (error_fields_after_state_comparison
           (callback (Some "s%31") (Some "access_denied")) "s1" crypto "s1" "s1");
    first [reflexivity | discriminate].
Defined.

(** C4 fails for an identity token without a nonce claim when a cached
    nonce is supplied: the pipeline fails with the nonce-mismatch error. *)
Lemma nonce_mismatch_exactly_counterexample :
  extractTokenClaims (orEmpty (Token.id_token withoutNonce))
    (cryptoObj plainHandler)
  = Returns {| oid := None; sub := Some "alice"; tid := Some "contoso";
               nonce := None |}
  /\ run (handleServerTokenResponse plainHandler 5000 withoutNonce aad
            None None (Some "n1") None None None false) emptyWorld
     = (Throw NonceMismatchError, emptyWorld).
Proof.
  split; reflexivity.
Qed.

(** C4 as amended, at a token with the nonce ["n1"] and the cached nonce
    ["n2"]. *)
Lemma nonce_mismatch_exactly_witness :
  fst (run (handleServerTokenResponse plainHandler 5000 refreshed aad
              None None (Some "n2") None None None false) emptyWorld)
  = Throw NonceMismatchError
  <-> truthy (Some "n2") = true /\ Some "n1" <> Some "n2".
Proof.
  apply (nonce_mismatch_exactly plainHandler 5000 refreshed aad None None
           (Some "n2") None None None false emptyWorld
           {| oid := None; sub := Some "alice"; tid := Some "contoso";
              nonce := Some "n1" |});
    reflexivity.
Defined.

(** C5 fails for an AAD authority in another protocol mode than ["AAD"]:
    without client info the account is the generic one. *)
Lemma account_derivation_by_authority_counterexample :
  authorityType aadOidc = Aad
  /\ isEmpty (Token.client_info withoutClientInfo) = true
  /\ generateAccountEntity plainHandler withoutClientInfo aliceToken aadOidc
       None
     = Ok (createGenericAccount aadOidc (homeAccountIdentifier plainHandler)
             aliceToken None)
  /\ generateAccountEntity plainHandler withoutClientInfo aliceToken aadOidc
       None
     <> Throw ClientInfoEmptyError.
Proof.
  repeat split; try reflexivity; discriminate.
Qed.

(** C5 as amended, at the four kinds of input. *)
Lemma account_derivation_by_authority_witness :
  generateAccountEntity plainHandler withoutClientInfo aliceToken adfs None
  = Ok {| accountHome := ""; accountEnvironment := "adfs.example.com" |}
  /\ generateAccountEntity plainHandler withoutClientInfo aliceToken aad None
     = Throw ClientInfoEmptyError
  /\ generateAccountEntity plainHandler withoutClientInfo aliceToken aadOidc
       None
     = Ok {| accountHome := ""; accountEnvironment := "login.example.com" |}
  /\ generateAccountEntity plainHandler refreshed aliceToken aad None
     = Ok {| accountHome := ""; accountEnvironment := "login.example.com" |}.
Proof.
  split; [|split; [|split]].
  - destruct (account_derivation_by_authority plainHandler withoutClientInfo
                aliceToken adfs None) as (Hadfs & _).
    apply Hadfs. reflexivity.
  - destruct (account_derivation_by_authority plainHandler withoutClientInfo
                aliceToken aad None) as (_ & Hempty & _).
    apply Hempty; first [reflexivity | discriminate].
  - destruct (account_derivation_by_authority plainHandler withoutClientInfo
                aliceToken aadOidc None) as (_ & _ & Hother & _).
    apply Hother; first [reflexivity | discriminate].
  - destruct (account_derivation_by_authority plainHandler refreshed
                aliceToken aad None) as (_ & _ & _ & Hinfo).
    apply Hinfo; first [reflexivity | discriminate].
Defined.



(** Sums are rounded from 2^53 on, ties to the even significand, and
    overflow to an infinity. *)
Example sums_are_rounded :
  jsAdd (Finite 9007199254740992) (Finite 1) = Finite 9007199254740992
  /\ jsAdd (Finite 9007199254740992) (Finite 3) = Finite 9007199254740996
  /\ jsAdd (Finite 9007199254740994) (Finite 1) = Finite 9007199254740996
  /\ jsAdd (Finite (2 ^ 1023)) (Finite (2 ^ 1023)) = Infinity false.
Proof.
  repeat split; vm_compute; reflexivity.
Qed.

(** At a library state of timestamp 2^53, a lifetime of one second is lost
    in the expiration; an absent and a zero lifetime count as 0. *)
Example expiration_is_rounded :
  (exists cacheRecord entity,
     generateCacheRecord plainHandler 5000 (expiring (Some (Finite 1)) None)
       aad (Some aliceToken) (Some {| ts := 9007199254740992 |}) None None
     = Ok cacheRecord /\
     accessToken cacheRecord = Some entity /\
     AccessTokenEntity.expiresOn entity = Finite 9007199254740992)
  /\ (exists cacheRecord entity,
        generateCacheRecord plainHandler 5000 (expiring None (Some NaN))
          aad (Some aliceToken) None None None = Ok cacheRecord /\
        accessToken cacheRecord = Some entity /\
        AccessTokenEntity.expiresOn entity = Finite 5000 /\
        AccessTokenEntity.extendedExpiresOn entity = Finite 5000).
Proof.
  split; do 2 eexists; repeat split; reflexivity.
Qed.

(** C7 at a proof-of-possession record: without the method of the resource
    request, and with method and URI. *)
Lemma pop_token_is_signed_witness :
  generateAuthenticationResult crypto popRecord false None None None
    (Some "https://api.example.com/")
  = Throw ResourceRequestParametersRequiredError
  /\ exists result,
       generateAuthenticationResult crypto popRecord false None None
         (Some "GET") (Some "https://api.example.com/") = Ok result /\
       AuthenticationResult.accessToken result
       = "GET https://api.example.com/ at-secret" /\
       ("GET https://api.example.com/ at-secret"
        <> AccessTokenEntity.secret popEntity ->
        AuthenticationResult.accessToken result
        <> AccessTokenEntity.secret popEntity).
Proof.
  split.
  - destruct (pop_token_is_signed crypto popRecord false None None None
                (Some "https://api.example.com/") popEntity eq_refl eq_refl)
      as (Hmissing & _).
    apply Hmissing. left. reflexivity.
  - destruct (pop_token_is_signed crypto popRecord false None None
                (Some "GET") (Some "https://api.example.com/") popEntity
                eq_refl eq_refl)
      as (_ & Hsigned).
    apply Hsigned; reflexivity.
Defined.

(** C10 at a record with an account only. *)
Lemma result_without_access_token_witness :
  exists result,
    generateAuthenticationResult crypto accountRecord false None None None
      None = Ok result /\
    AuthenticationResult.accessToken result = "" /\
    AuthenticationResult.scopes result = [] /\
    AuthenticationResult.expiresOn result = None /\
    AuthenticationResult.extExpiresOn result = None /\
    AuthenticationResult.tokenType result = "".
Proof.
  apply (result_without_access_token crypto accountRecord false None None
           None None).
  reflexivity.
Defined.

(** C8 fails in two ways: a response with a scope string but no access
    token yields a result without scopes; and request scopes that hold a
    space come back split. *)
Lemma scopes_and_id_token_round_trip_counterexample :
  (exists this' idTokenObj requestStateObj cacheRecord result,
     deriveRecord plainHandler 5000 identityOnly aad None None
       (Some ["openid"]) None
     = Ok (this', idTokenObj, requestStateObj, cacheRecord) /\
     generateAuthenticationResult (cryptoObj this') cacheRecord false
       idTokenObj requestStateObj None None = Ok result /\
     Token.scope identityOnly = Some "openid" /\
     AuthenticationResult.scopes result = [])
  /\ (exists this' idTokenObj requestStateObj cacheRecord result,
        deriveRecord plainHandler 5000 withoutScope aad None None
          (Some ["user.read mail.read"]) None
        = Ok (this', idTokenObj, requestStateObj, cacheRecord) /\
        generateAuthenticationResult (cryptoObj this') cacheRecord false
          idTokenObj requestStateObj None None = Ok result /\
        Token.scope withoutScope = None /\
        AuthenticationResult.scopes result = ["user.read"; "mail.read"] /\
        AuthenticationResult.scopes result <> ["user.read mail.read"]).
Proof.
  split.
  - do 5 eexists. split; [reflexivity|]. split; [reflexivity|].
    split; reflexivity.
  - do 5 eexists. split; [reflexivity|]. split; [reflexivity|].
    split; [reflexivity|]. split; [reflexivity|]. discriminate.
Qed.

(** C8 as amended, at a response with a scope string, at a response
    without one for two request scopes, and at a response without an access
    token. *)
Lemma scopes_and_id_token_round_trip_witness :
  (exists result,
     fst (run (handleServerTokenResponse plainHandler 5000 refreshed aad None
                 None None None (Some ["openid"]) None false) emptyWorld)
     = Ok (Some result) /\
     AuthenticationResult.scopes result = ["user.read"; "mail.read"] /\
     AuthenticationResult.idToken result = "alice contoso n1")
  /\ (exists result,
        fst (run (handleServerTokenResponse plainHandler 5000 withoutScope aad
                    None None None None (Some ["openid"; "profile"]) None
                    false) emptyWorld)
        = Ok (Some result) /\
        AuthenticationResult.scopes result = ["openid"; "profile"] /\
        AuthenticationResult.idToken result = "alice contoso n1")
  /\ (exists result,
        fst (run (handleServerTokenResponse plainHandler 5000 identityOnly aad
                    None None None None (Some ["openid"]) None false)
               emptyWorld)
        = Ok (Some result) /\
        AuthenticationResult.scopes result = [] /\
        AuthenticationResult.idToken result = "alice contoso n1").
Proof.
  split; [|split].
  - eexists. split; [reflexivity|].
    destruct (scopes_and_id_token_round_trip plainHandler 5000 refreshed aad
                None None (Some ["openid"]) None None None _ _ _ _ _
                eq_refl eq_refl)
      as (Hid & Hwith & _).
    destruct (Hwith eq_refl) as (Hscopes & _).
    split; [exact Hscopes | exact Hid].
  - eexists. split; [reflexivity|].
    destruct (scopes_and_id_token_round_trip plainHandler 5000 withoutScope aad
                None None (Some ["openid"; "profile"]) None None None
                _ _ _ _ _ eq_refl eq_refl)
      as (Hid & Hwith & _).
    destruct (Hwith eq_refl) as (_ & Hrequest).
    split; [|exact Hid].
    apply Hrequest; [reflexivity|].
    repeat (apply List.Forall_cons; [reflexivity|]). apply List.Forall_nil.
  - eexists. split; [reflexivity|].
    destruct (scopes_and_id_token_round_trip plainHandler 5000 identityOnly aad
                None None (Some ["openid"]) None None None _ _ _ _ _
                eq_refl eq_refl)
      as (Hid & _ & Hwithout).
    split; [exact (Hwithout eq_refl) | exact Hid].
Defined.

(** C1 at a store without the account of the refresh, and at a store with
    it. *)
Lemma refresh_race_guard_witness :
  run (handleServerTokenResponse plainHandler 5000 refreshed aad None None
         (Some "n1") None None None true) emptyWorld
  = (Ok None,
     {| storage := ∅;
        journal := [EvBeforeCacheAccess; EvGetAccount; EvAfterCacheAccess] |})
  /\ exists result,
       run (handleServerTokenResponse plainHandler 5000 refreshed aad None None
              (Some "n1") None None None true) worldWithAlice
       = (Ok (Some result),
          {| storage :=
               <["uid.utid-login.example.com" := alice]>
                 (storage worldWithAlice);
             journal := [EvBeforeCacheAccess; EvGetAccount; EvSaveCacheRecord;
                         EvAfterCacheAccess] |}).
Proof.
  split.
  - destruct (refresh_race_guard plainHandler 5000 refreshed aad None None
                (Some "n1") None None None emptyWorld _ _ _ _ alice ∅
                eq_refl eq_refl eq_refl)
      as (Habsent & _).
    destruct (Habsent eq_refl) as (_ & Hnull).
    exact (Hnull ∅ eq_refl).
  - destruct (refresh_race_guard plainHandler 5000 refreshed aad None None
                (Some "n1") None None None worldWithAlice _ _ _ _ alice
                (storage worldWithAlice) eq_refl eq_refl eq_refl)
      as (_ & Hpresent).
    destruct (Hpresent alice eq_refl) as (_ & Hwritten).
    eexists.
    exact (Hwritten
             (<["uid.utid-login.example.com" := alice]> (storage worldWithAlice))
             (<["uid.utid-login.example.com" := alice]> (storage worldWithAlice))
             eq_refl eq_refl).
Defined.

(** C2 with a plugin whose after-access hook seals the store, on the three
    ways out of the commit: the write returns, the write raises, and the
    write is skipped by the refresh guard.  The seal tells that the hook
    ran after the write. *)
Lemma after_access_exactly_once_witness :
  snd (run (handleServerTokenResponse (handler memoryStore (Some sealingPlugin))
              5000 refreshed aad None None None None None None false)
         emptyWorld)
  = {| storage :=
         snd (sealHook {| tokenCache := tt; hasChanged := true |}
                {["uid.utid-login.example.com" := alice]});
       journal := [EvBeforeCacheAccess; EvSaveCacheRecord;
                   EvAfterCacheAccess] |}
  /\ snd (run (handleServerTokenResponse
                 (handler brokenStore (Some sealingPlugin)) 5000 refreshed aad
                 None None None None None None false) emptyWorld)
     = {| storage :=
            snd (sealHook {| tokenCache := tt; hasChanged := true |} ∅);
          journal := [EvBeforeCacheAccess; EvSaveCacheRecord;
                      EvAfterCacheAccess] |}
  /\ snd (run (handleServerTokenResponse
                 (handler memoryStore (Some sealingPlugin)) 5000 refreshed aad
                 None None None None None None true) emptyWorld)
     = {| storage :=
            snd (sealHook {| tokenCache := tt; hasChanged := true |} ∅);
          journal := [EvBeforeCacheAccess; EvGetAccount;
                      EvAfterCacheAccess] |}.
Proof.
  split; [|split].
  - destruct (after_access_exactly_once
                (handler memoryStore (Some sealingPlugin)) 5000 refreshed aad
                None None None None None None false emptyWorld _ _ _ _
                sealingPlugin tt eq_refl eq_refl)
      as (_ & Hreturned).
    destruct (Hreturned eq_refl) as (_ & _ & Hwrite).
    exact (Hwrite (or_introl eq_refl)).
  - destruct (after_access_exactly_once
                (handler brokenStore (Some sealingPlugin)) 5000 refreshed aad
                None None None None None None false emptyWorld _ _ _ _
                sealingPlugin tt eq_refl eq_refl)
      as (_ & Hreturned).
    destruct (Hreturned eq_refl) as (_ & _ & Hwrite).
    exact (Hwrite (or_introl eq_refl)).
  - destruct (after_access_exactly_once
                (handler memoryStore (Some sealingPlugin)) 5000 refreshed aad
                None None None None None None true emptyWorld _ _ _ _
                sealingPlugin tt eq_refl eq_refl)
      as (_ & Hreturned).
    destruct (Hreturned eq_refl) as (Hguard & _ & _).
    exact (Hguard alice eq_refl eq_refl eq_refl).
Defined.

(** The three ways out of the commit, with the plugin enabled: the write
    returns, the write throws, the write is skipped. *)
Example after_access_on_each_exit :
  journal (snd (run (handleServerTokenResponse plainHandler 5000 refreshed aad
                       None None None None None None false) emptyWorld))
  = [EvBeforeCacheAccess; EvSaveCacheRecord; EvAfterCacheAccess]
  /\ run (handleServerTokenResponse (handler brokenStore (Some plainPlugin))
            5000 refreshed aad None None None None None None false) emptyWorld
     = (Throw (Thrown "store_write_failed"),
        {| storage := ∅;
           journal := [EvBeforeCacheAccess; EvSaveCacheRecord;
                       EvAfterCacheAccess] |})
  /\ run (handleServerTokenResponse plainHandler 5000 refreshed aad None None
            None None None None true) emptyWorld
     = (Ok None,
        {| storage := ∅;
           journal := [EvBeforeCacheAccess; EvGetAccount;
                       EvAfterCacheAccess] |}).
Proof.
  repeat split; reflexivity.
Qed.

(** An account that was removed stays removed: the refresh of the
    reference store leaves the key of the account without an entry. *)
Example removal_not_undone :
  storage (snd (run (handleServerTokenResponse plainHandler 5000 refreshed aad
                       None None None None None None true) emptyWorld))
  !! "uid.utid-login.example.com" = None.
Proof. reflexivity. Qed.

(** * Concrete runs of the further properties *)

(** X1 at a response without an error field and at an error response that
    the classifier does not accept. *)
Lemma token_response_valid_iff_no_error_witness :
  validateTokenResponse refreshed = Ok tt
  /\ validateTokenResponse failedResponse
     = Throw (ServerError (Some "invalid_grant")
                (Some "70000,70001 - [2026-01-01]: expired - Correlation ID: undefined - Trace ID: t-1")
                None).
Proof.
  split.
  - destruct (token_response_valid_iff_no_error refreshed) as (Hiff & _).
    apply Hiff. reflexivity.
  - destruct (token_response_valid_iff_no_error failedResponse) as (_ & Herr).
    apply Herr. reflexivity.
Defined.

(** X2 at a callback whose state is the escaped form of the cached
    state. *)
Lemma auth_code_response_valid_iff_witness :
  validateServerAuthorizationCodeResponse (callback (Some "s%31") None) "s1"
    crypto = Ok tt.
Proof.
  apply (auth_code_response_valid_iff (callback (Some "s%31") None) "s1"
           crypto).
  split; [reflexivity|]. split; [discriminate|].
  split; [exists "s1"; split; reflexivity|].
  split; [reflexivity|discriminate].
Defined.

(** X3 at a state that ends in a percent sign, with an error field. *)
Lemma malformed_state_is_uri_error_witness :
  validateServerAuthorizationCodeResponse
    (callback (Some "s%") (Some "access_denied")) "s1" crypto
  = Throw URIError.
Proof.
  apply (malformed_state_is_uri_error
           (callback (Some "s%") (Some "access_denied")) "s1" crypto URIError);
    [reflexivity | discriminate | left; reflexivity].
Defined.

(** X4 at two plain states that differ. *)
Lemma plain_states_compared_verbatim_witness :
  validateServerAuthorizationCodeResponse (callback (Some "s1") None) "s2"
    crypto = Throw StateMismatchError
  <-> "s1" <> "s2".
Proof.
  apply (plain_states_compared_verbatim (callback (Some "s1") None) "s2"
           crypto "s1");
    first [reflexivity | discriminate].
Defined.

(** X5 at the response of a refresh, which has no [foci]. *)
Lemma entities_follow_raw_fields_witness :
  exists cacheRecord,
    generateCacheRecord plainHandler 5000 refreshed aad (Some aliceToken)
      None None None = Ok cacheRecord /\
    (is_Some (accessToken cacheRecord)
     <-> isEmpty (Token.access_token refreshed) = false) /\
    (is_Some (appMetadata cacheRecord)
     <-> isEmpty (Token.foci refreshed) = false).
Proof.
  eexists.
  destruct (entities_follow_raw_fields plainHandler 5000 refreshed aad
              (Some aliceToken) None None None _ eq_refl)
    as (_ & _ & Hat & _ & Ham & _).
  split; [reflexivity|]. split; [exact Hat | exact Ham].
Defined.

(** X6 at the response of a refresh. *)
Lemma entities_share_identifiers_witness :
  exists this' idTokenObj requestStateObj cacheRecord,
    deriveRecord plainHandler 5000 refreshed aad None None None None
    = Ok (this', idTokenObj, requestStateObj, cacheRecord) /\
    homeAccountIdentifier this' = "uid.utid" /\
    (forall e, accessToken cacheRecord = Some e ->
       AccessTokenEntity.homeAccountId e = "uid.utid"
       /\ AccessTokenEntity.environment e = "login.example.com"
       /\ AccessTokenEntity.clientId e = "client").
Proof.
  do 4 eexists.
  destruct (entities_share_identifiers plainHandler 5000 refreshed aad None
              None None None _ _ _ _ eq_refl)
    as (Hhome & _ & Hat & _).
  split; [reflexivity|]. split; [exact Hhome | exact Hat].
Defined.

(** X7 at the response of a refresh. *)
Lemma realms_agree_witness :
  exists cacheRecord,
    generateCacheRecord plainHandler 5000 refreshed aad (Some aliceToken)
      None None None = Ok cacheRecord /\
    (forall i a,
       idToken cacheRecord = Some i -> accessToken cacheRecord = Some a ->
       IdTokenEntity.realm i = AccessTokenEntity.realm a).
Proof.
  eexists.
  destruct (realms_agree plainHandler 5000 refreshed aad (Some aliceToken)
              None None None _ eq_refl)
    as (Hsame & _).
  split; [reflexivity | exact Hsame].
Defined.

(** X8 at a proof-of-possession record without the resource request, and
    at a record without an access token. *)
Lemma result_building_fails_only_for_pop_witness :
  (exists entity,
     accessToken popRecord = Some entity /\
     AccessTokenEntity.tokenType entity = Some POP /\
     ((ResourceRequestParametersRequiredError
       = ResourceRequestParametersRequiredError /\
       (truthy None = false \/ truthy None = false))
      \/ exists payload,
           ResourceRequestParametersRequiredError = Thrown payload /\
           signPopToken crypto (AccessTokenEntity.secret entity)
             (orEmpty None) (orEmpty None) = Raises payload))
  /\ exists result,
       generateAuthenticationResult crypto accountRecord false None None None
         None = Ok result /\
       AuthenticationResult.accessToken result = "".
Proof.
  split.
  - destruct (result_building_fails_only_for_pop crypto popRecord false None
                None None None) as (Hfail & _).
    apply Hfail. reflexivity.
  - destruct (result_building_fails_only_for_pop crypto accountRecord false
                None None None None) as (_ & Hbearer).
    apply Hbearer. intros entity [=].
Defined.

(** X9 at the response of a refresh, without a resource request. *)
Lemma bearer_token_round_trip_witness :
  exists cacheRecord result,
    generateCacheRecord plainHandler 5000 refreshed aad (Some aliceToken)
      None None None = Ok cacheRecord /\
    generateAuthenticationResult crypto cacheRecord false (Some aliceToken)
      None None None = Ok result /\
    AuthenticationResult.accessToken result = "at-secret".
Proof.
  eexists.
  destruct (bearer_token_round_trip plainHandler 5000 refreshed aad
              (Some aliceToken) None None None crypto false None None None _
              eq_refl)
    as (result & Hr & Htok).
  { discriminate. }
  exists result. split; [reflexivity|]. split; [exact Hr | exact Htok].
Defined.

(** X10 at lifetimes of 3600 and 600 seconds: at the time 5000 the dates
    are those of 8600000 and 9200000 milliseconds; with a library state of
    timestamp 9000000000000 the expiration is an invalid date. *)
Lemma result_expirations_in_milliseconds_witness :
  (exists cacheRecord result,
     generateCacheRecord plainHandler 5000 refreshed aad (Some aliceToken)
       None None None = Ok cacheRecord /\
     generateAuthenticationResult crypto cacheRecord false (Some aliceToken)
       None None None = Ok result /\
     AuthenticationResult.expiresOn result = Some (TimeValue 8600000) /\
     AuthenticationResult.extExpiresOn result = Some (TimeValue 9200000))
  /\ (exists cacheRecord result,
        generateCacheRecord plainHandler 5000 refreshed aad (Some aliceToken)
          (Some {| ts := 9000000000000 |}) None None = Ok cacheRecord /\
        generateAuthenticationResult crypto cacheRecord false
          (Some aliceToken) None None None = Ok result /\
        AuthenticationResult.expiresOn result = Some InvalidDate).
Proof.
  split.
  - do 2 eexists.
    destruct (result_expirations_in_milliseconds plainHandler 5000 refreshed
                aad (Some aliceToken) None None None crypto false None None
                None _ _ eq_refl eq_refl)
      as (Hwith & _).
    split; [reflexivity|]. split; [reflexivity|].
    destruct (Hwith eq_refl 5000 3600 600 eq_refl eq_refl eq_refl)
      as (Hon & Hextended & _).
    split; [apply Hon; lia | apply Hextended; lia].
  - do 2 eexists.
    destruct (result_expirations_in_milliseconds plainHandler 5000 refreshed
                aad (Some aliceToken) (Some {| ts := 9000000000000 |}) None
                None crypto false None None None _ _ eq_refl eq_refl)
      as (Hwith & _).
    split; [reflexivity|]. split; [reflexivity|].
    destruct (Hwith eq_refl 9000000000000 3600 600 eq_refl eq_refl eq_refl)
      as (_ & _ & Hinvalid).
    apply Hinvalid; unfold maxExact; lia.
Defined.

(** X11 at a response with the reserved family id, and at one without
    [foci]. *)
Lemma family_id_is_sentinel_or_empty_witness :
  (exists cacheRecord result,
     generateCacheRecord plainHandler 5000 familyResponse aad
       (Some aliceToken) None None None = Ok cacheRecord /\
     generateAuthenticationResult crypto cacheRecord false (Some aliceToken)
       None None None = Ok result /\
     AuthenticationResult.familyId result = "1")
  /\ (exists cacheRecord result,
        generateCacheRecord plainHandler 5000 refreshed aad
          (Some aliceToken) None None None = Ok cacheRecord /\
        generateAuthenticationResult crypto cacheRecord false
          (Some aliceToken) None None None = Ok result /\
        AuthenticationResult.familyId result = "").
Proof.
  split.
  - do 2 eexists.
    destruct (family_id_is_sentinel_or_empty plainHandler 5000 familyResponse
                aad (Some aliceToken) None None None crypto false None None
                None _ _ eq_refl eq_refl)
      as (Hfamily & _).
    split; [reflexivity|]. split; [reflexivity|]. exact (Hfamily eq_refl).
  - do 2 eexists.
    destruct (family_id_is_sentinel_or_empty plainHandler 5000 refreshed
                aad (Some aliceToken) None None None crypto false None None
                None _ _ eq_refl eq_refl)
      as (_ & Hother).
    split; [reflexivity|]. split; [reflexivity|].
    apply Hother. discriminate.
Defined.

(** X12 at an identity token with an empty [oid] claim. *)
Lemma unique_id_prefers_oid_witness :
  exists result,
    generateAuthenticationResult crypto accountRecord false
      (Some emptyOidToken) None None None = Ok result /\
    AuthenticationResult.uniqueId result = "alice".
Proof.
  eexists.
  destruct (unique_id_prefers_oid crypto accountRecord false
              (Some emptyOidToken) None None None _ eq_refl)
    as (Hsome & _).
  destruct (Hsome emptyOidToken eq_refl) as (_ & Hsub & _).
  split; [reflexivity|]. exact (Hsub eq_refl).
Defined.

(** X13 at a run with the cached state ["st"]. *)
Lemma pipeline_result_is_fresh_witness :
  exists result,
    fst (run (handleServerTokenResponse plainHandler 5000 refreshed aad None
                None None (Some "st") None None false) emptyWorld)
    = Ok (Some result) /\
    AuthenticationResult.fromCache result = false /\
    exists rs,
      parseRequestState (cryptoObj plainHandler) (orEmpty (Some "st"))
      = Returns rs /\
      AuthenticationResult.state result = userRequestState rs.
Proof.
  eexists.
  destruct (pipeline_result_is_fresh plainHandler 5000 refreshed aad None
              None None (Some "st") None None false emptyWorld _ eq_refl)
    as (Hfresh & _ & Hstate).
  split; [reflexivity|]. split; [exact Hfresh|]. exact (Hstate eq_refl).
Defined.

(** X14 at the response of a refresh, which has an identity token. *)
Lemma result_account_iff_id_token_witness :
  exists result,
    fst (run (handleServerTokenResponse plainHandler 5000 refreshed aad None
                None None None None None false) emptyWorld)
    = Ok (Some result) /\
    (is_Some (AuthenticationResult.account result)
     <-> truthy (Token.id_token refreshed) = true) /\
    (AuthenticationResult.idToken result <> ""
     <-> truthy (Token.id_token refreshed) = true).
Proof.
  eexists.
  split; [reflexivity|].
  exact (result_account_iff_id_token plainHandler 5000 refreshed aad None
           None None None None None false emptyWorld _ eq_refl).
Defined.

(** X15 at a response without an identity token, with a cached nonce. *)
Lemma no_id_token_no_nonce_check_witness :
  fst (run (handleServerTokenResponse plainHandler 5000
              (response None (Some "at-secret") (Some "user.read") None) aad
              None None (Some "n1") None None None false) emptyWorld)
  <> Throw NonceMismatchError.
Proof.
  apply (no_id_token_no_nonce_check plainHandler 5000
           (response None (Some "at-secret") (Some "user.read") None) aad
           None None (Some "n1") None None None false emptyWorld).
  reflexivity.
Defined.

(** X16 at a response without client info for an AAD authority. *)
Lemma derivation_errors_leave_world_witness :
  snd (run (handleServerTokenResponse plainHandler 5000 withoutClientInfo aad
              None None None None None None true) worldWithAlice)
  = worldWithAlice.
Proof.
  apply (derivation_errors_leave_world plainHandler 5000 withoutClientInfo aad
           None None None None None None true worldWithAlice
           ClientInfoEmptyError);
    [reflexivity | right; right; reflexivity].
Defined.

(** X17 at a proof-of-possession response without a resource request,
    with a plugin whose after-access hook seals the store: the account is
    in the store that the failed run leaves, under the seal. *)
Lemma pop_misuse_fails_after_write_witness :
  run (handleServerTokenResponse (handler memoryStore (Some sealingPlugin))
         5000 popResponse aad None None None None None None false) emptyWorld
  = (Throw ResourceRequestParametersRequiredError,
     {| storage :=
          snd (sealHook {| tokenCache := tt; hasChanged := true |}
                 {["uid.utid-login.example.com" := alice]});
        journal := [EvBeforeCacheAccess; EvSaveCacheRecord;
                    EvAfterCacheAccess] |})
  /\ exists this' idTokenObj requestStateObj cacheRecord st1 st2 st3 lookup,
       deriveRecord (handler memoryStore (Some sealingPlugin)) 5000
         popResponse aad None None None None
       = Ok (this', idTokenObj, requestStateObj, cacheRecord) /\
       beforeAccess this' (storage emptyWorld) = (Returns tt, st1) /\
       saveCacheRecord (cacheStorage this') st1 cacheRecord
       = (Returns tt, st2) /\
       afterAccess this' st2 = (Returns tt, st3) /\
       (lookup = [] \/ lookup = [EvGetAccount]) /\
       snd (run (handleServerTokenResponse
                   (handler memoryStore (Some sealingPlugin)) 5000 popResponse
                   aad None None None None None None false) emptyWorld)
       = {| storage := st3;
            journal :=
              (journal emptyWorld
               ++ bracket this' (lookup ++ [EvSaveCacheRecord]))%list |}.
Proof.
  split; [reflexivity|].
  apply (pop_misuse_fails_after_write
           (handler memoryStore (Some sealingPlugin)) 5000 popResponse aad
           None None None None None None false emptyWorld).
  reflexivity.
Defined.

(** X18 at a run that is no refresh, over a store without the account. *)
Lemma write_without_lookup_witness :
  journal (snd (run (handleServerTokenResponse plainHandler 5000 refreshed aad
                       None None None None None None false) emptyWorld))
  = [EvBeforeCacheAccess; EvSaveCacheRecord; EvAfterCacheAccess].
Proof.
  destruct (write_without_lookup plainHandler 5000 refreshed aad None None
              None None None None false emptyWorld _ _ _ _ ∅ eq_refl
              (or_introl eq_refl) eq_refl)
    as (Hjournal & _).
  exact Hjournal.
Defined.

(** X19 at a store whose write fails. *)
Lemma store_write_failure_propagates_witness :
  fst (run (handleServerTokenResponse (handler brokenStore (Some plainPlugin))
              5000 refreshed aad None None None None None None false)
         emptyWorld)
  = Throw (Thrown "store_write_failed").
Proof.
  destruct (store_write_failure_propagates
              (handler brokenStore (Some plainPlugin)) 5000 refreshed aad
              None None None None None None false emptyWorld _ _ _ _ ∅ ∅ ∅
              "store_write_failed" eq_refl eq_refl (or_introl eq_refl)
              eq_refl eq_refl)
    as (Hthrown & _).
  exact Hthrown.
Defined.

(** X20 at a plugin whose before-access hook raises. *)
Lemma before_hook_failure_skips_store_witness :
  run (handleServerTokenResponse
         (handler memoryStore (Some beforeRaisingPlugin)) 5000 refreshed aad
         None None None None None None false) emptyWorld
  = (Throw (Thrown "before_failed"),
     {| storage := ∅;
        journal := [EvBeforeCacheAccess; EvAfterCacheAccess] |}).
Proof.
  exact (before_hook_failure_skips_store
           (handler memoryStore (Some beforeRaisingPlugin)) 5000 refreshed aad
           None None None None None None false emptyWorld _ _ _ _ ∅ ∅
           "before_failed" (Returns tt) eq_refl eq_refl eq_refl).
Defined.

(** X21 at a plugin whose after-access hook raises, in a refresh for an
    account that is not in the store. *)
Lemma after_hook_failure_overrides_witness :
  fst (run (handleServerTokenResponse
              (handler memoryStore (Some afterRaisingPlugin)) 5000 refreshed
              aad None None None None None None true) emptyWorld)
  = Throw (Thrown "after_failed").
Proof.
  apply (after_hook_failure_overrides
           (handler memoryStore (Some afterRaisingPlugin)) 5000 refreshed aad
           None None None None None None true emptyWorld _ _ _ _
           afterRaisingPlugin tt "after_failed" eq_refl eq_refl).
  intros ctx st. reflexivity.
Defined.

(** X22 at a handler without a plugin. *)
Lemma no_persistence_no_hooks_witness :
  exists calls,
    journal (snd (run (handleServerTokenResponse bareHandler 5000 refreshed
                         aad None None None None None None true)
                    worldWithAlice))
    = (journal worldWithAlice ++ calls)%list /\
    Forall storeCall calls.
Proof.
  apply (no_persistence_no_hooks bareHandler 5000 refreshed aad None None None
           None None None true worldWithAlice).
  left. reflexivity.
Defined.

(** The journals of these runs. *)
Example further_journals :
  journal (snd (run (handleServerTokenResponse bareHandler 5000 refreshed aad
                       None None None None None None true) worldWithAlice))
  = [EvGetAccount; EvSaveCacheRecord]
  /\ run (handleServerTokenResponse
            (handler memoryStore (Some afterRaisingPlugin)) 5000 refreshed
            aad None None None None None None false) emptyWorld
     = (Throw (Thrown "after_failed"),
        {| storage := {["uid.utid-login.example.com" := alice]};
           journal := [EvBeforeCacheAccess; EvSaveCacheRecord;
                       EvAfterCacheAccess] |})
  /\ run (handleServerTokenResponse plainHandler 5000 popResponse aad None
            None None None None None false) emptyWorld
     = (Throw ResourceRequestParametersRequiredError,
        {| storage := {["uid.utid-login.example.com" := alice]};
           journal := [EvBeforeCacheAccess; EvSaveCacheRecord;
                       EvAfterCacheAccess] |}).
Proof.
  repeat split; reflexivity.
Qed.
